(** * Heuristic financial text analyser ([tools.py])

    A shallow embedding of the functions of [tools.py] and properties of
    them: first those that the specification states, then further ones that
    the code itself shows.

    Modelling conventions.
    - A Python [str] is a [string]; a character is an [ascii], read as the
      code point 0..255 (the Latin-1 block, where [str.lower], [str.isspace]
      and the regular-expression classes are the ones written below).
    - A Python [dict] is an association list in insertion order, a Python
      [list] is a [list].
    - A regular expression is a term of [regex]; matching is the backtracking
      search of Python's [re] module (leftmost match, alternatives and
      repetitions tried in priority order).
    - A Python [float] is a [spec_float] in the binary64 format.
    - What [read_financial_document] sees of the environment, the file
      system and the PDF library is a [world]; what it prints is returned
      beside its result. *)

From Stdlib Require Import Bool Ascii String List Sorted ZArith NArith Lia.
From Stdlib Require Import DecimalString.
From Stdlib Require Import Floats.SpecFloat.
Import ListNotations.

Local Open Scope string_scope.
Local Open Scope list_scope.

(** ** Python string primitives *)

Module PyStr.

Definition code (c : ascii) : N := N_of_ascii c.

Definition in_range (lo hi : N) (c : ascii) : bool :=
  ((lo <=? code c) && (code c <=? hi))%N.

(** [str.isspace] on one character: TAB..CR, FS..US, space, NEL, NBSP. *)
Definition isspace (c : ascii) : bool :=
  in_range 9 13 c || in_range 28 32 c
  || (code c =? 133)%N || (code c =? 160)%N.

Definition isdigit (c : ascii) : bool := in_range 48 57 c.
Definition isupper_ascii (c : ascii) : bool := in_range 65 90 c.
Definition islower_ascii (c : ascii) : bool := in_range 97 122 c.
Definition isalpha_ascii (c : ascii) : bool :=
  isupper_ascii c || islower_ascii c.

(** [str.lower] on one character: A-Z, and the Latin-1 capitals
    U+00C0..U+00DE except the multiplication sign U+00D7. *)
Definition lower_char (c : ascii) : ascii :=
  if isupper_ascii c || (in_range 192 222 c && negb (code c =? 215)%N)
  then ascii_of_N (code c + 32) else c.

Definition upper_char_ascii (c : ascii) : ascii :=
  if islower_ascii c then ascii_of_N (code c - 32) else c.

Fixpoint lower (s : string) : string :=
  match s with
  | EmptyString => EmptyString
  | String c r => String (lower_char c) (lower r)
  end.

(** [s.startswith(p)] *)
Fixpoint startswith (p s : string) : bool :=
  match p, s with
  | EmptyString, _ => true
  | String a p', String b s' => Ascii.eqb a b && startswith p' s'
  | String _ _, EmptyString => false
  end.

(** [sub in s] *)
Fixpoint contains (sub s : string) : bool :=
  startswith sub s ||
  match s with
  | EmptyString => false
  | String _ r => contains sub r
  end.

(** [s.count(sub)]: occurrences found scanning left to right, the scan
    resuming after the end of each occurrence.  [skip] is the number of
    characters of the last occurrence still to be passed over. *)
Fixpoint count_from (sub s : string) (skip : nat) : nat :=
  match s with
  | EmptyString =>
      match sub, skip with EmptyString, O => 1 | _, _ => 0 end
  | String _ r =>
      match skip with
      | S k => count_from sub r k
      | O => if startswith sub s
             then S (count_from sub r (Nat.pred (String.length sub)))
             else count_from sub r 0
      end
  end.

Definition count (sub s : string) : nat := count_from sub s 0.

(** [s.title()] for the ASCII letters: a letter that follows a letter is
    lowered, any other letter is raised. *)
Fixpoint title_from (prev_cased : bool) (s : string) : string :=
  match s with
  | EmptyString => EmptyString
  | String c r =>
      String (if prev_cased then lower_char c else upper_char_ascii c)
             (title_from (isalpha_ascii c) r)
  end.

Definition title (s : string) : string := title_from false s.

Fixpoint lstrip (s : string) : string :=
  match s with
  | String c r => if isspace c then lstrip r else s
  | EmptyString => EmptyString
  end.

Fixpoint rstrip (s : string) : string :=
  match s with
  | EmptyString => EmptyString
  | String c r =>
      match rstrip r with
      | EmptyString => if isspace c then EmptyString else String c EmptyString
      | r' => String c r'
      end
  end.

Definition strip (s : string) : string := rstrip (lstrip s).

(** [s[:n]] *)
Fixpoint take (n : nat) (s : string) : string :=
  match n, s with
  | S k, String c r => String c (take k r)
  | _, _ => EmptyString
  end.

(** truth value of a string: [not s] is [negb (truthy s)] *)
Definition truthy (s : string) : bool :=
  match s with EmptyString => false | String _ _ => true end.

Fixpoint all_chars (p : ascii -> bool) (s : string) : bool :=
  match s with
  | EmptyString => true
  | String c r => p c && all_chars p r
  end.

End PyStr.

(** ** Python values and dictionaries *)

#[warnings="-register-all"]
Inductive value : Type :=
| VStr (s : string)
| VList (l : list string)
| VDict (d : list (string * value)).

Definition dict : Type := list (string * value).

Module PyDict.

Fixpoint get (k : string) (d : dict) : option value :=
  match d with
  | [] => None
  | (k', v) :: r => if String.eqb k k' then Some v else get k r
  end.

(** [d.get(k, default)] *)
Definition get_default (k : string) (default : value) (d : dict) : value :=
  match get k d with Some v => v | None => default end.

(** [d[k] = v]: an existing key keeps its place, a new key goes last. *)
Fixpoint set (k : string) (v : value) (d : dict) : dict :=
  match d with
  | [] => [(k, v)]
  | (k', v') :: r =>
      if String.eqb k k' then (k, v) :: r else (k', v') :: set k v r
  end.

Definition keys (d : dict) : list string := map fst d.

End PyDict.

(** [len(v)] and [sub in v] *)
Definition py_len (v : value) : nat :=
  match v with
  | VStr s => String.length s
  | VList l => List.length l
  | VDict d => List.length d
  end.

Definition py_in (sub : string) (v : value) : bool :=
  match v with
  | VStr s => PyStr.contains sub s
  | VList l => existsb (String.eqb sub) l
  | VDict d => existsb (String.eqb sub) (PyDict.keys d)
  end.

(** ** Regular expressions, as Python's [re] module matches them *)

Module Re.

Definition cls : Type := ascii -> bool.

(** Every repetition in the patterns of [tools.py] is over a single
    character class, so repetitions carry a class. *)
Inductive regex : Type :=
| Eps
| Chr (p : cls)
| Seq (r1 r2 : regex)
| Alt (r1 r2 : regex)
| Opt (r : regex)                 (* r?     greedy *)
| Star (p : cls)                  (* [p]*   greedy *)
| StarLazy (p : cls)              (* [p]*?  lazy   *)
| AtMost (n : nat) (p : cls)      (* [p]{0,n} greedy *)
| Group (r : regex).              (* capture group 1 *)

(** Group 1, as the pair of suffixes of the text at which it starts and
    ends. *)
Definition capture : Type := option (string * string).

Section Matcher.
Context {R : Type}.

Definition or_else (a : option R) (b : unit -> option R) : option R :=
  match a with Some x => Some x | None => b tt end.

Fixpoint star_greedy (p : cls) (s : string) (k : string -> option R)
  : option R :=
  match s with
  | String c r =>
      if p c then or_else (star_greedy p r k) (fun _ => k s) else k s
  | EmptyString => k s
  end.

Fixpoint star_lazy (p : cls) (s : string) (k : string -> option R)
  : option R :=
  or_else (k s)
    (fun _ => match s with
              | String c r => if p c then star_lazy p r k else None
              | EmptyString => None
              end).

Fixpoint at_most (n : nat) (p : cls) (s : string) (k : string -> option R)
  : option R :=
  match n, s with
  | S n', String c r =>
      if p c then or_else (at_most n' p r k) (fun _ => k s) else k s
  | _, _ => k s
  end.

(** [rmatch r s cap k]: match [r] at the head of [s], then continue with
    [k] on what is left; when [k] fails the next way of matching [r] is
    tried. *)
Fixpoint rmatch (r : regex) (s : string) (cap : capture)
  (k : string -> capture -> option R) : option R :=
  match r with
  | Eps => k s cap
  | Chr p =>
      match s with
      | String c s' => if p c then k s' cap else None
      | EmptyString => None
      end
  | Seq r1 r2 => rmatch r1 s cap (fun s' cap' => rmatch r2 s' cap' k)
  | Alt r1 r2 => or_else (rmatch r1 s cap k) (fun _ => rmatch r2 s cap k)
  | Opt r1 => or_else (rmatch r1 s cap k) (fun _ => k s cap)
  | Star p => star_greedy p s (fun s' => k s' cap)
  | StarLazy p => star_lazy p s (fun s' => k s' cap)
  | AtMost n p => at_most n p s (fun s' => k s' cap)
  | Group r1 => rmatch r1 s cap (fun s' _ => k s' (Some (s, s')))
  end.
End Matcher.

(** The text between two suffixes of one string. *)
Definition span (from to : string) : string :=
  PyStr.take (String.length from - String.length to) from.

(** A match object: [start()], [group(0)] and [group(1)]. *)
Record match_obj : Type := MatchObj {
  m_start : nat;
  group0 : string;
  group1 : option string
}.

Definition match_here (r : regex) (s : string) : option (string * capture) :=
  rmatch r s None (fun s' cap => Some (s', cap)).

Definition match_at (r : regex) (pos : nat) (s : string) : option match_obj :=
  match match_here r s with
  | Some (rest, cap) =>
      Some (MatchObj pos (span s rest)
              (option_map (fun c => span (fst c) (snd c)) cap))
  | None => None
  end.

(** [re.finditer]: the matches from left to right, each search resuming
    where the previous match ended.  (No pattern of [tools.py] matches the
    empty string; after an empty match the scan here moves on by one
    character.) *)
Fixpoint finditer_from (r : regex) (pos skip : nat) (s : string)
  : list match_obj :=
  match skip with
  | S k =>
      match s with
      | String _ t => finditer_from r (S pos) k t
      | EmptyString => []
      end
  | O =>
      match match_at r pos s with
      | Some m =>
          m :: match s with
               | String _ t =>
                   finditer_from r (S pos)
                     (Nat.pred (String.length (group0 m))) t
               | EmptyString => []
               end
      | None =>
          match s with
          | String _ t => finditer_from r (S pos) 0 t
          | EmptyString => []
          end
      end
  end.

Definition finditer (r : regex) (s : string) : list match_obj :=
  finditer_from r 0 0 s.

(** [re.search]: the leftmost match. *)
Fixpoint search_from (r : regex) (pos : nat) (s : string) : option match_obj :=
  match match_at r pos s with
  | Some m => Some m
  | None =>
      match s with
      | String _ t => search_from r (S pos) t
      | EmptyString => None
      end
  end.

Definition search (r : regex) (s : string) : option match_obj :=
  search_from r 0 s.

(** *** Building patterns *)

Definition Never : regex := Chr (fun _ => false).
Definition seqs (l : list regex) : regex := fold_right Seq Eps l.
Definition alts (l : list regex) : regex := fold_right Alt Never l.
Definition Plus (p : cls) : regex := Seq (Chr p) (Star p).

Definition chr_eq (c : ascii) : cls := Ascii.eqb c.
(** a literal character under [re.IGNORECASE] *)
Definition chr_eq_i (c : ascii) : cls :=
  fun x => Ascii.eqb (PyStr.lower_char x) (PyStr.lower_char c).
Definition union (p q : cls) : cls := fun x => p x || q x.

Fixpoint lit (s : string) : regex :=
  match s with
  | EmptyString => Eps
  | String c r => Seq (Chr (chr_eq c)) (lit r)
  end.

(** a literal under [re.IGNORECASE] (what [re.escape] produces is a
    literal) *)
Fixpoint lit_i (s : string) : regex :=
  match s with
  | EmptyString => Eps
  | String c r => Seq (Chr (chr_eq_i c)) (lit_i r)
  end.

Definition nl : ascii := "010"%char.
Definition space_cls : cls := PyStr.isspace.                (* \s *)
Definition digit_cls : cls := PyStr.isdigit.                (* \d *)
Definition dot_cls : cls := fun x => negb (Ascii.eqb x nl). (* .  *)
Definition any_cls : cls := fun _ => true.          (* . with DOTALL *)

End Re.

(** ** Python floats (binary64) *)

Module PyFloat.

Definition prec : Z := 53.
Definition emax : Z := 1024.

(** [float(n)] for an [int] *)
Definition of_int (n : Z) : spec_float := binary_normalize prec emax n 0 false.

(** the literal [1.2]: the binary64 number nearest to 12/10 *)
Definition lit_1_2 : spec_float := S754_finite false 5404319552844595 (-52).

(** [n * f] for an [int] and a [float] *)
Definition int_mul (n : Z) (f : spec_float) : spec_float :=
  SFmul prec emax (of_int n) f.

(** [p > f] for an [int] and a [float]: Python compares the exact values. *)
Definition int_gt (p : Z) (f : spec_float) : bool :=
  match f with
  | S754_nan => false
  | S754_infinity s => s
  | S754_zero _ => (0 <? p)%Z
  | S754_finite s m e =>
      let v := if s then Z.neg m else Z.pos m in
      if (0 <=? e)%Z then (v * 2 ^ e <? p)%Z else (v <? p * 2 ^ (- e))%Z
  end.

End PyFloat.

(** ** The functions of [tools.py] *)

(** [match.group(1)]; group 1 is outside every optional part of the patterns
    below, so it is set in every match. *)
Definition group1_str (m : Re.match_obj) : string :=
  match Re.group1 m with Some g => g | None => "" end.

Definition char_in (chars : string) : Re.cls :=
  fun x => PyStr.contains (String x EmptyString) chars.

(** *** [extract_document_info] *)

(** [([A-Z][A-Za-z\s&]+(?:Inc|Corp|Corporation|Ltd|Limited|LLC)\.?)] *)
Definition company_pattern : Re.regex :=
  Re.Group (Re.seqs
    [ Re.Chr PyStr.isupper_ascii;
      Re.Plus (Re.union PyStr.isalpha_ascii (Re.union Re.space_cls (char_in "&")));
      Re.alts [Re.lit "Inc"; Re.lit "Corp"; Re.lit "Corporation";
               Re.lit "Ltd"; Re.lit "Limited"; Re.lit "LLC"];
      Re.Opt (Re.Chr (char_in ".")) ]).

Definition extract_document_info (text : string) : dict :=
  let info := [ ("document_type", VStr "Financial Document");
                ("company_name", VStr "Not identified");
                ("reporting_period", VStr "Not specified") ] in
  let text_lower := PyStr.lower text in
  let info :=
    if PyStr.contains "annual report" text_lower || PyStr.contains "10-k" text_lower
    then PyDict.set "document_type" (VStr "Annual Report") info
    else if PyStr.contains "quarterly" text_lower || PyStr.contains "10-q" text_lower
    then PyDict.set "document_type" (VStr "Quarterly Report") info
    else if PyStr.contains "earnings" text_lower
    then PyDict.set "document_type" (VStr "Earnings Report") info
    else info in
  match Re.search company_pattern (PyStr.take 2000 text) with
  | Some m => PyDict.set "company_name" (VStr (PyStr.strip (group1_str m))) info
  | None => info
  end.

(** *** [find_monetary_values] and [extract_financial_metrics] *)

(** [{re.escape(keyword)}[:\s]*\$?\s*([\d,]+(?:\.\d+)?)\s*(?:million|billion|M|B)?]
    under [re.IGNORECASE] *)
Definition money_pattern (keyword : string) : Re.regex :=
  Re.seqs
    [ Re.lit_i keyword;
      Re.Star (Re.union (char_in ":") Re.space_cls);
      Re.Opt (Re.Chr (char_in "$"));
      Re.Star Re.space_cls;
      Re.Group (Re.Seq (Re.Plus (Re.union Re.digit_cls (char_in ",")))
                       (Re.Opt (Re.Seq (Re.Chr (char_in ".")) (Re.Plus Re.digit_cls))));
      Re.Star Re.space_cls;
      Re.Opt (Re.alts [Re.lit_i "million"; Re.lit_i "billion";
                       Re.lit_i "M"; Re.lit_i "B"]) ].

(** the body of the loop over the matches *)
Definition format_value (m : Re.match_obj) : string :=
  let value := group1_str m in
  let context := Re.group0 m in
  if PyStr.contains "million" (PyStr.lower context) || PyStr.contains "M" context
  then ("$" ++ value ++ "M")%string
  else if PyStr.contains "billion" (PyStr.lower context) || PyStr.contains "B" context
  then ("$" ++ value ++ "B")%string
  else ("$" ++ value)%string.

Definition keyword_values (text keyword : string) : list string :=
  map format_value (Re.finditer (money_pattern keyword) text).

Definition find_monetary_values (text : string) (keywords : list string)
  : list string :=
  flat_map (keyword_values text) keywords.

Definition financial_terms : list (string * list string) :=
  [ ("revenue", ["revenue"; "net sales"; "total revenue"]);
    ("net_income", ["net income"; "net profit"; "net earnings"]);
    ("total_assets", ["total assets"]);
    ("cash", ["cash"; "cash and equivalents"]) ].

Definition extract_financial_metrics (text : string) : dict :=
  fold_left
    (fun metrics term =>
       match find_monetary_values text (snd term) with
       | v :: _ => PyDict.set (fst term) (VStr v) metrics
       | [] => metrics
       end)
    financial_terms [].

(** *** [extract_highlights] *)

(** three patterns under [re.IGNORECASE], each ending in [.{0,100}] *)
Definition positive_patterns : list Re.regex :=
  [ Re.Seq (Re.alts [Re.lit_i "growth"; Re.lit_i "increased";
                     Re.lit_i "improved"; Re.lit_i "strong"])
           (Re.AtMost 100 Re.dot_cls);
    Re.Seq (Re.alts [Re.lit_i "expansion"; Re.lit_i "acquisition";
                     Re.lit_i "new product"])
           (Re.AtMost 100 Re.dot_cls);
    Re.Seq (Re.alts [Re.lit_i "dividend"; Re.lit_i "share repurchase"])
           (Re.AtMost 100 Re.dot_cls) ].

Definition highlight_ok (highlight : string) : bool :=
  Nat.ltb 20 (String.length highlight) && Nat.ltb (String.length highlight) 200.

Definition all_highlights (text : string) : list string :=
  flat_map
    (fun pattern =>
       filter highlight_ok
         (map (fun m => PyStr.strip (Re.group0 m)) (Re.finditer pattern text)))
    positive_patterns.

Definition extract_highlights (text : string) : list string :=
  firstn 5 (all_highlights text).

(** *** [generate_recommendation] *)

Definition positive_indicators : list string :=
  ["growth"; "increased"; "improved"; "strong"; "expansion"].
Definition negative_indicators : list string :=
  ["declined"; "decreased"; "loss"; "challenging"; "restructuring"].

(** [sum(text_lower.count(term) for term in terms)] *)
Definition count_terms (terms : list string) (text_lower : string) : nat :=
  list_sum (map (fun term => PyStr.count term text_lower) terms).

Definition POSITIVE : string :=
  "POSITIVE - Document shows favorable indicators for investment consideration".
Definition CAUTIOUS : string :=
  "CAUTIOUS - Document shows some concerning factors requiring careful analysis".
Definition NEUTRAL : string :=
  "NEUTRAL - Mixed indicators suggest further analysis needed".

Definition generate_recommendation (text : string) : string :=
  let text_lower := PyStr.lower text in
  let positive_count := Z.of_nat (count_terms positive_indicators text_lower) in
  let negative_count := Z.of_nat (count_terms negative_indicators text_lower) in
  if PyFloat.int_gt positive_count (PyFloat.int_mul negative_count PyFloat.lit_1_2)
  then POSITIVE
  else if PyFloat.int_gt negative_count (PyFloat.int_mul positive_count PyFloat.lit_1_2)
  then CAUTIOUS
  else NEUTRAL.

(** *** [analyze_investment] *)

Definition analyze_investment_with
  (document_info metrics : string -> dict)
  (highlights : string -> list string) (recommendation : string -> string)
  (financial_document_data : string) : dict :=
  if negb (PyStr.truthy financial_document_data)
     || PyStr.startswith "Error:" financial_document_data
  then [("error", VStr "No valid financial data provided for analysis")]
  else [ ("document_summary", VDict (document_info financial_document_data));
         ("financial_metrics", VDict (metrics financial_document_data));
         ("key_highlights", VList (highlights financial_document_data));
         ("investment_recommendation",
           VStr (recommendation financial_document_data)) ].

Definition analyze_investment : string -> dict :=
  analyze_investment_with extract_document_info extract_financial_metrics
    extract_highlights generate_recommendation.

(** *** [identify_risks] *)

Definition risk_keywords : list string :=
  [ "debt"; "liquidity"; "competition"; "regulatory"; "market volatility";
    "credit risk"; "operational risk"; "litigation"; "compliance" ].

(** [risk factors?:?(.*?)(?:item|section|\n\n)] under
    [re.IGNORECASE | re.DOTALL] *)
Definition risk_section_pattern : Re.regex :=
  Re.seqs
    [ Re.lit_i "risk factor";
      Re.Opt (Re.Chr (Re.chr_eq_i "s"));
      Re.Opt (Re.Chr (char_in ":"));
      Re.Group (Re.StarLazy Re.any_cls);
      Re.alts [Re.lit_i "item"; Re.lit_i "section";
               Re.lit (String Re.nl (String Re.nl EmptyString))] ].

Definition risk_label (keyword : string) : string :=
  (PyStr.title keyword ++ " concerns mentioned")%string.

Definition risk_section_marker : string :=
  "Dedicated risk factors section identified".

Definition identify_risks (text : string) : list string :=
  let text_lower := PyStr.lower text in
  let risks :=
    flat_map
      (fun keyword =>
         if PyStr.contains keyword text_lower then [risk_label keyword] else [])
      risk_keywords in
  let risks :=
    match Re.search risk_section_pattern text with
    | Some _ => risks ++ [risk_section_marker]
    | None => risks
    end in
  firstn 10 risks.

(** *** [assess_financial_stability] *)

Definition stability_positive : list string :=
  ["strong cash"; "profitable"; "stable revenue"; "low debt"].
Definition stability_negative : list string :=
  ["cash shortage"; "loss"; "high debt"; "declining revenue"].

Definition STABLE : string :=
  "STABLE - Positive financial stability indicators".
Definition CONCERNING : string :=
  "CONCERNING - Several financial stability concerns".
Definition MIXED : string :=
  "MIXED - Balanced financial stability indicators".

Definition assess_financial_stability (text : string) : string :=
  let text_lower := PyStr.lower text in
  let positive_score := count_terms stability_positive text_lower in
  let negative_score := count_terms stability_negative text_lower in
  if Nat.ltb negative_score positive_score then STABLE
  else if Nat.ltb positive_score negative_score then CONCERNING
  else MIXED.

(** *** [assess_market_risks] *)

Definition market_risk_terms : list (string * string) :=
  [ ("competition", "Competitive pressure identified");
    ("market volatility", "Market volatility concerns");
    ("economic uncertainty", "Economic uncertainty factors");
    ("regulatory changes", "Regulatory change risks") ].

Definition assess_market_risks (text : string) : list string :=
  let text_lower := PyStr.lower text in
  flat_map
    (fun item => if PyStr.contains (fst item) text_lower then [snd item] else [])
    market_risk_terms.

(** *** [generate_risk_recommendations] *)

Definition generate_risk_recommendations (text : string) : list string :=
  let recommendations :=
    [ "Monitor financial metrics regularly";
      "Diversify investment portfolio";
      "Stay informed about industry trends";
      "Review risk tolerance periodically" ] in
  let text_lower := PyStr.lower text in
  let recommendations :=
    if PyStr.contains "debt" text_lower
    then recommendations ++ ["Pay attention to debt levels and coverage ratios"]
    else recommendations in
  let recommendations :=
    if PyStr.contains "competition" text_lower
    then recommendations ++ ["Monitor competitive landscape changes"]
    else recommendations in
  firstn 6 recommendations.

(** *** [calculate_overall_risk] *)

Definition calculate_overall_risk (assessment : dict) : string :=
  let risk_factors :=
    Z.of_nat (py_len (PyDict.get_default "identified_risks" (VList []) assessment)) in
  let financial_stability :=
    PyDict.get_default "financial_stability" (VStr "") assessment in
  let market_risks :=
    Z.of_nat (py_len (PyDict.get_default "market_risks" (VList []) assessment)) in
  let total_risk_score := (risk_factors + market_risks)%Z in
  let total_risk_score :=
    if py_in "CONCERNING" financial_stability then (total_risk_score + 3)%Z
    else if py_in "STABLE" financial_stability then (total_risk_score - 1)%Z
    else total_risk_score in
  if (total_risk_score <=? 3)%Z then "LOW"
  else if (total_risk_score <=? 7)%Z then "MEDIUM"
  else "HIGH".

(** *** [assess_risks] *)

Definition assess_risks_with
  (risks : string -> list string) (stability : string -> string)
  (market recommendations : string -> list string)
  (financial_document_data : string) : dict :=
  if negb (PyStr.truthy financial_document_data)
     || PyStr.startswith "Error:" financial_document_data
  then [("error", VStr "No valid financial data provided for risk assessment")]
  else
    let risk_assessment :=
      [ ("overall_risk_level", VStr "MEDIUM");
        ("identified_risks", VList (risks financial_document_data));
        ("financial_stability", VStr (stability financial_document_data));
        ("market_risks", VList (market financial_document_data));
        ("recommendations", VList (recommendations financial_document_data)) ] in
    PyDict.set "overall_risk_level"
      (VStr (calculate_overall_risk risk_assessment)) risk_assessment.

Definition assess_risks : string -> dict :=
  assess_risks_with identify_risks assess_financial_stability
    assess_market_risks generate_risk_recommendations.

(** *** [re.sub] *)

(** [re.sub(pattern, repl, s)] for a replacement without back-references:
    the text is scanned from left to right, every match is replaced and the
    scan resumes where the match ended ([skip] counts the characters of the
    match still to pass).  (No pattern of [clean_text] matches the empty
    string; after an empty match the scan here copies one character and
    moves on.) *)
Fixpoint sub_from (r : Re.regex) (repl : string) (skip : nat) (s : string)
  : string :=
  match skip with
  | S k =>
      match s with
      | String _ t => sub_from r repl k t
      | EmptyString => EmptyString
      end
  | O =>
      match Re.match_here r s with
      | Some (rest, _) =>
          (repl ++
           match s with
           | String c t =>
               match String.length s - String.length rest with
               | O => String c (sub_from r repl 0 t)
               | S n => sub_from r repl n t
               end
           | EmptyString => EmptyString
           end)%string
      | None =>
          match s with
          | String c t => String c (sub_from r repl 0 t)
          | EmptyString => EmptyString
          end
      end
  end.

Definition re_sub (r : Re.regex) (repl s : string) : string :=
  sub_from r repl 0 s.

(** *** [clean_text] *)

Definition tab : ascii := "009"%char.
Definition nl_str : string := String Re.nl EmptyString.

(** [\n\s*\n] *)
Definition blank_lines_pattern : Re.regex :=
  Re.Seq (Re.Chr (Re.chr_eq Re.nl))
         (Re.Seq (Re.Star Re.space_cls) (Re.Chr (Re.chr_eq Re.nl))).

(** [[ \t]+] *)
Definition blanks_pattern : Re.regex :=
  Re.Plus (Re.union (Re.chr_eq " "%char) (Re.chr_eq tab)).

(** [\n ] *)
Definition nl_space_pattern : Re.regex :=
  Re.Seq (Re.Chr (Re.chr_eq Re.nl)) (Re.Chr (Re.chr_eq " "%char)).

Definition clean_text (text : string) : string :=
  if negb (PyStr.truthy text) then ""
  else
    let text := re_sub blank_lines_pattern (nl_str ++ nl_str) text in
    let text := re_sub blanks_pattern " " text in
    let text := re_sub nl_space_pattern nl_str text in
    PyStr.strip text.

(** *** [read_financial_document] *)

(** The function reads the environment and a file through [os] and [pypdf].
    What it can observe of them is a [world]: the value of the environment
    variable, if set, and for every path what is found there.  A page
    either gives its text or raises when its text is extracted; a file is
    absent, or opening or parsing it raises (before any page is read), or it
    gives its pages.  The function returns its result together with the
    lines it prints. *)
Inductive page : Type :=
| PageText (text : string)
| PageFails (e : string).

Inductive pdf : Type :=
| Missing
| Unreadable (e : string)
| Readable (pages : list page).

Record world : Type := World {
  CURRENT_DOCUMENT_PATH : option string;
  files : string -> pdf
}.

(** [str(n)] for a natural number *)
Definition str_of_nat (n : nat) : string :=
  NilZero.string_of_uint (Nat.to_uint n).

(** the loop over [enumerate(pdf_reader.pages)] *)
Fixpoint read_pages (page_num : nat) (pages : list page)
  (text_content : string) (printed : list string) : string * list string :=
  match pages with
  | [] => (text_content, printed)
  | PageText text :: rest =>
      if PyStr.truthy (PyStr.strip text)
      then read_pages (S page_num) rest
             (text_content ++ nl_str ++ "--- Page " ++ str_of_nat (page_num + 1)
              ++ " ---" ++ nl_str ++ text ++ nl_str)%string
             printed
      else read_pages (S page_num) rest text_content printed
  | PageFails e :: rest =>
      read_pages (S page_num) rest text_content
        (printed ++ [("Warning: Could not extract text from page "
                      ++ str_of_nat (page_num + 1) ++ ": " ++ e)%string])
  end.

Definition read_financial_document (w : world) (path : option string)
  : string * list string :=
  let path :=
    match path with
    | Some p => p
    | None =>
        match CURRENT_DOCUMENT_PATH w with
        | Some p => p
        | None => "data/sample.pdf"
        end
    end in
  match files w path with
  | Missing => (("Error: File not found at path: " ++ path)%string, [])
  | Unreadable e => (("Error reading PDF: " ++ e)%string, [])
  | Readable pages =>
      let '(text_content, printed) := read_pages 0 pages "" [] in
      if negb (PyStr.truthy (PyStr.strip text_content))
      then ("Error: No readable content found in the PDF", printed)
      else (clean_text text_content, printed)
  end.

(** * Notions used in the statements *)

(** [kw] occurs in [text] when letter case is ignored: some substring of
    [text] lowers to [kw]. *)
Definition occurs_ignoring_case (kw text : string) : Prop :=
  exists pre mid post,
    text = (pre ++ mid ++ post)%string /\ PyStr.lower mid = kw.

(** [s] is non-empty and made of whitespace only. *)
Definition whitespace_only (s : string) : Prop :=
  s <> "" /\ PyStr.all_chars PyStr.isspace s = true.

(** The three classifications of [assess_financial_stability]. *)
Inductive stability_class : Type := Stable | Concerning | Mixed.

Definition stability_text (c : stability_class) : string :=
  match c with
  | Stable => STABLE
  | Concerning => CONCERNING
  | Mixed => MIXED
  end.

(** The risk score and its level, as the specification words them. *)
Definition risk_score_spec (n_risks n_market : nat) (c : stability_class) : Z :=
  (Z.of_nat n_risks + Z.of_nat n_market
   + match c with Concerning => 3 | Stable => -1 | Mixed => 0 end)%Z.

Definition risk_level_spec (score : Z) : string :=
  if (score <=? 3)%Z then "LOW"
  else if (score <=? 7)%Z then "MEDIUM"
  else "HIGH".

(** [re.search] finds the risk-factors-section pattern in [text]. *)
Definition risk_section_found (text : string) : bool :=
  match Re.search risk_section_pattern text with
  | Some _ => true
  | None => false
  end.

(** All the matches of a metric category, keyword by keyword in table
    order and, for one keyword, from left to right. *)
Definition category_matches (text : string) (keywords : list string)
  : list Re.match_obj :=
  flat_map (fun kw => Re.finditer (money_pattern kw) text) keywords.

(** The specification's reading of "the first value": the value kept for the
    metric is that of a match starting no later than every other match of
    the category. *)
Definition kept_is_earliest (text metric : string) (keywords : list string)
  : Prop :=
  category_matches text keywords <> [] ->
  exists m,
    In m (category_matches text keywords)
    /\ (forall m', In m' (category_matches text keywords) ->
                   Re.m_start m <= Re.m_start m')
    /\ PyDict.get metric (extract_financial_metrics text)
       = Some (VStr (format_value m)).

(** Static analysis of a pattern: whether it can match without consuming,
    and an upper bound of the characters a match can begin with. *)
Fixpoint nullable (r : Re.regex) : bool :=
  match r with
  | Re.Eps => true
  | Re.Chr _ => false
  | Re.Seq a b => nullable a && nullable b
  | Re.Alt a b => nullable a || nullable b
  | Re.Opt _ | Re.Star _ | Re.StarLazy _ | Re.AtMost _ _ => true
  | Re.Group a => nullable a
  end.

Fixpoint can_start (r : Re.regex) (c : ascii) : bool :=
  match r with
  | Re.Eps => false
  | Re.Chr p => p c
  | Re.Seq a b => can_start a c || (nullable a && can_start b c)
  | Re.Alt a b => can_start a c || can_start b c
  | Re.Opt a => can_start a c
  | Re.Star p | Re.StarLazy p => p c
  | Re.AtMost n p => match n with O => false | S _ => p c end
  | Re.Group a => can_start a c
  end.

(** [r] needs a first character, and it is never whitespace. *)
Definition starts_with_non_space (r : Re.regex) : bool :=
  negb (nullable r)
  && forallb (fun n => let c := ascii_of_nat n in
                       implb (PyStr.isspace c) (negb (can_start r c)))
             (seq 0 256).

(** [kw] begins with a character that is not whitespace. *)
Definition first_non_space (kw : string) : bool :=
  match kw with
  | String a _ => negb (PyStr.isspace a)
  | EmptyString => false
  end.

(** Invariant of the shift register of [SpecFloat.shr] after [j] one-bit
    shifts of the mantissa [M]: [shr_m] holds the bits kept, [shr_r] the last
    bit shifted out and [shr_s] whether any earlier one was set. *)
Definition shr_inv (M j : Z) (rec : shr_record) : Prop :=
  (exists low, 0 <= low < 2 ^ j
    /\ 2 * M = shr_m rec * 2 ^ (j + 1) + (if shr_r rec then 2 ^ j else 0) + low
    /\ (shr_s rec = true <-> 0 < low)
    /\ 0 <= shr_m rec)%Z.

(** Side conditions that are facts about the fixed tables. *)
Ltac by_table := assumption || (vm_compute; reflexivity).

(** ** What a pattern matches *)

(** [lang r w]: the pattern [r] matches the whole of [w]. *)
Fixpoint lang (r : Re.regex) (w : string) : Prop :=
  match r with
  | Re.Eps => w = ""
  | Re.Chr p => exists c, w = String c "" /\ p c = true
  | Re.Seq a b => exists w1 w2, w = (w1 ++ w2)%string /\ lang a w1 /\ lang b w2
  | Re.Alt a b => lang a w \/ lang b w
  | Re.Opt a => w = "" \/ lang a w
  | Re.Star p | Re.StarLazy p => PyStr.all_chars p w = true
  | Re.AtMost n p => PyStr.all_chars p w = true /\ String.length w <= n
  | Re.Group a => lang a w
  end.

(** the bodies of the groups of [r] *)
Fixpoint groups (r : Re.regex) : list Re.regex :=
  match r with
  | Re.Seq a b | Re.Alt a b => groups a ++ groups b
  | Re.Opt a => groups a
  | Re.Group a => a :: groups a
  | _ => []
  end.

(** every match of [r] goes through a group *)
Fixpoint sets_group (r : Re.regex) : bool :=
  match r with
  | Re.Seq a b => sets_group a || sets_group b
  | Re.Alt a b => sets_group a && sets_group b
  | Re.Group _ => true
  | _ => false
  end.

(** What is known of the capture after [r] has matched [w] in front of
    [rest]: it is the one before, or it is a piece of [w] matched by the
    body of a group of [r]. *)
Definition cap_post (r : Re.regex) (cap : Re.capture) (w rest : string)
  (cap' : Re.capture) : Prop :=
  (sets_group r = false /\ cap' = cap)
  \/ exists w1 g w2 a,
       w = (w1 ++ g ++ w2)%string
       /\ cap' = Some ((g ++ w2 ++ rest)%string, (w2 ++ rest)%string)
       /\ In a (groups r) /\ lang a g.

(** the same for [group(1)] of a match object whose [group(0)] is [w] *)
Definition group1_post (r : Re.regex) (w : string) (g1 : option string) : Prop :=
  (sets_group r = false /\ g1 = None)
  \/ exists w1 g w2 a,
       w = (w1 ++ g ++ w2)%string /\ g1 = Some g
       /\ In a (groups r) /\ lang a g.

(** some substring of [s] is matched by [r] *)
Definition pattern_occurs (r : Re.regex) (s : string) : Prop :=
  exists pre w post, s = (pre ++ w ++ post)%string /\ lang r w.

(** ** Notions about [clean_text] *)

(** [s] without its whitespace *)
Fixpoint nonspace (s : string) : string :=
  match s with
  | EmptyString => EmptyString
  | String c t => if PyStr.isspace c then nonspace t else String c (nonspace t)
  end.

(** every character of the class [p] is in the class [q] *)
Definition class_sub (p q : Re.cls) : bool :=
  forallb (fun n => let c := ascii_of_nat n in implb (p c) (q c)) (seq 0 256).

(** [r] matches characters of the class [q] only *)
Fixpoint within (q : Re.cls) (r : Re.regex) : bool :=
  match r with
  | Re.Eps => true
  | Re.Chr p | Re.Star p | Re.StarLazy p | Re.AtMost _ p => class_sub p q
  | Re.Seq a b | Re.Alt a b => within q a && within q b
  | Re.Opt a | Re.Group a => within q a
  end.

(** [[ \t]] *)
Definition blank_cls : Re.cls := Re.union (Re.chr_eq " "%char) (Re.chr_eq tab).

Fixpoint dropwhile (p : Re.cls) (s : string) : string :=
  match s with
  | String c t => if p c then dropwhile p t else s
  | EmptyString => EmptyString
  end.

Fixpoint takewhile (p : Re.cls) (s : string) : string :=
  match s with
  | String c t => if p c then String c (takewhile p t) else EmptyString
  | EmptyString => EmptyString
  end.

(** every run of spaces and tabs becomes one space ([in_run]: the previous
    character is part of such a run) *)
Fixpoint collapse (in_run : bool) (s : string) : string :=
  match s with
  | EmptyString => EmptyString
  | String c t =>
      if blank_cls c
      then if in_run then collapse true t else String " " (collapse true t)
      else String c (collapse false t)
  end.

(** a space that follows a newline is dropped *)
Fixpoint unindent (s : string) : string :=
  match s with
  | EmptyString => EmptyString
  | String c t =>
      if Ascii.eqb c Re.nl
      then match t with
           | String c2 t' =>
               if Ascii.eqb c2 " " then String c (unindent t')
               else String c (unindent t)
           | EmptyString => String c (unindent t)
           end
      else String c (unindent t)
  end.

(** no tab and no space after a space ([ps]: the previous character is a
    space) *)
Fixpoint ok2 (ps : bool) (s : string) : bool :=
  match s with
  | EmptyString => true
  | String c t =>
      negb (Ascii.eqb c tab) && negb (Ascii.eqb c " " && ps)
      && ok2 (Ascii.eqb c " ") t
  end.

(** moreover no space after a newline ([pn]: the previous character is a
    newline) *)
Fixpoint ok3 (ps pn : bool) (s : string) : bool :=
  match s with
  | EmptyString => true
  | String c t =>
      negb (Ascii.eqb c tab) && negb (Ascii.eqb c " " && (ps || pn))
      && ok3 (Ascii.eqb c " ") (Ascii.eqb c Re.nl) t
  end.

(** the number of newlines of [s] *)
Fixpoint newlines (s : string) : nat :=
  match s with
  | EmptyString => 0
  | String c t => (if Ascii.eqb c Re.nl then 1 else 0) + newlines t
  end.

(** Within a stretch of whitespace there is one newline, or two newlines
    side by side, and no more.  [st] tells where the stretch stands: 0, no
    newline yet; 1, right after its first newline; 2 and more, no newline
    may follow. *)
Fixpoint ok_bl (st : nat) (s : string) : bool :=
  match s with
  | EmptyString => true
  | String c t =>
      if Ascii.eqb c Re.nl
      then match st with
           | 0 => ok_bl 1 t
           | 1 => ok_bl 2 t
           | _ => false
           end
      else if PyStr.isspace c
      then ok_bl (match st with 0 => 0 | S n => S (S n) end) t
      else ok_bl 0 t
  end.

(** the whitespace at the head of [s] has no newline *)
Fixpoint nonl_prefix (s : string) : bool :=
  match s with
  | EmptyString => true
  | String c t =>
      if PyStr.isspace c then negb (Ascii.eqb c Re.nl) && nonl_prefix t
      else true
  end.

(** what is tried after [\n] in [\n\s*\n] *)
Definition blank_lines_tail (s : string) : option (string * Re.capture) :=
  Re.star_greedy Re.space_cls s
    (fun s' => match s' with
               | String c r => if Re.chr_eq Re.nl c then Some (r, None) else None
               | EmptyString => None
               end).

(** ** Notions about the reader *)

(** the page has text that is not whitespace only *)
Definition has_text (p : page) : bool :=
  match p with
  | PageText text => PyStr.truthy (PyStr.strip text)
  | PageFails _ => false
  end.

(** the extraction of the page's text fails *)
Definition fails (p : page) : bool :=
  match p with PageFails _ => true | PageText _ => false end.

(** a page whose extraction fails, seen as a page without text *)
Definition blank_failed (p : page) : page :=
  match p with PageFails _ => PageText "" | PageText _ => p end.

(** what the text read begins with when some page has text *)
Definition page_header : string := (nl_str ++ "--- Page ")%string.

(** the path that is read: the argument, else the environment variable,
    else the default *)
Definition effective_path (w : world) (path : option string) : string :=
  match path with
  | Some p => p
  | None =>
      match CURRENT_DOCUMENT_PATH w with
      | Some p => p
      | None => "data/sample.pdf"
      end
  end.

(** the reader has nothing to give: the file is absent, or no page of it
    has text *)
Definition nothing_to_read (w : world) (path : option string) : bool :=
  match files w (effective_path w path) with
  | Missing => true
  | Unreadable _ => false
  | Readable pages => negb (existsb has_text pages)
  end.

(** ** Notions about the analysis functions *)

(** a float that is not negative *)
Definition nonneg_float (f : spec_float) : Prop :=
  match f with
  | S754_zero false | S754_finite false _ _ | S754_infinity false | S754_nan =>
      True
  | _ => False
  end.


(** the last character of [s] is not whitespace *)
Fixpoint last_non_space (s : string) : bool :=
  match s with
  | EmptyString => false
  | String c EmptyString => negb (PyStr.isspace c)
  | String _ t => last_non_space t
  end.

(** the group of the monetary pattern: [[\d,]+(?:\.\d+)?] *)
Definition number_pattern : Re.regex :=
  Re.Seq (Re.Plus (Re.union Re.digit_cls (char_in ",")))
         (Re.Opt (Re.Seq (Re.Chr (char_in ".")) (Re.Plus Re.digit_cls))).

(** digits and commas, at least one, then possibly a point and at least one
    digit *)
Definition number_shape (n : string) : Prop :=
  exists whole frac,
    n = (whole ++ frac)%string
    /\ whole <> ""
    /\ PyStr.all_chars (Re.union Re.digit_cls (char_in ",")) whole = true
    /\ (frac = ""
        \/ exists d, frac = String "." d /\ d <> ""
                     /\ PyStr.all_chars Re.digit_cls d = true).


Definition company_suffixes : list string :=
  ["Inc"; "Corp"; "Corporation"; "Ltd"; "Limited"; "LLC"].

(** a capital letter, then letters, whitespace and ampersands (at least
    one), then one of the company suffixes and possibly a full stop *)
Definition company_shape (name : string) : Prop :=
  exists c body suffix dot,
    name = String c (body ++ suffix ++ dot)
    /\ PyStr.isupper_ascii c = true
    /\ body <> ""
    /\ PyStr.all_chars
         (Re.union PyStr.isalpha_ascii (Re.union Re.space_cls (char_in "&")))
         body = true
    /\ In suffix company_suffixes
    /\ (dot = "" \/ dot = ".").

(** * Properties *)


(** ** Sanity checks of the primitives on concrete inputs *)

Example count_ex1 : PyStr.count "declined" "declinedeclined declined" = 2.
Proof. reflexivity. Qed.
Example title_ex1 : PyStr.title "market volatility" = "Market Volatility".
Proof. reflexivity. Qed.
Example strip_ex1 : PyStr.strip "  a b  " = "a b".
Proof. reflexivity. Qed.
Example lower_ex1 : PyStr.lower "Net INCOME 10-K" = "net income 10-k".
Proof. reflexivity. Qed.

Example metrics_ex1 :
  extract_financial_metrics "Revenue: $1,250 million" = [("revenue", VStr "$1,250M")].
Proof. vm_compute. reflexivity. Qed.

Example company_ex1 :
  PyDict.get "company_name"
    (extract_document_info "Annual Report of Acme Widgets Corporation. quarterly")
  = Some (VStr "Annual Report of Acme Widgets Corp").
Proof. vm_compute. reflexivity. Qed.

Example company_ex2 :
  PyDict.get "company_name" (extract_document_info "see  Foo & Bar Ltd. and Baz LLC")
  = Some (VStr "Foo & Bar Ltd.").
Proof. vm_compute. reflexivity. Qed.

Example money_ex1 :
  find_monetary_values
    "Cash: $ 1,234.56 billion; cash,5; CASH $12.M cash and equivalents 7B"
    ["cash"; "cash and equivalents"]
  = ["$1,234.56B"; "$,5"; "$12"; "$7B"].
Proof. vm_compute. reflexivity. Qed.

Example risks_ex1 :
  identify_risks "The risk factors are sectioned"
  = ["Dedicated risk factors section identified"].
Proof. vm_compute. reflexivity. Qed.

Example stability_ex1 :
  assess_financial_stability
    "Profitable, low debt; but a loss and high debt elsewhere" = MIXED.
Proof. vm_compute. reflexivity. Qed.

(** Beyond 2^53 the binary64 product no longer decides as the exact product:
    here [5 * p < 6 * n] and yet [p > n * 1.2] holds in binary64. *)
Example float_ex2 :
  let n := (2 ^ 53 + 1)%Z in
  let p := 10808639105689191%Z in
  (5 * p <? 6 * n)%Z = true
  /\ PyFloat.int_gt p (PyFloat.int_mul n PyFloat.lit_1_2) = true.
Proof. split; vm_compute; reflexivity. Qed.

Example float_ex1 :
  PyFloat.int_mul 5 PyFloat.lit_1_2 = PyFloat.of_int 6
  /\ PyFloat.int_gt 6 (PyFloat.int_mul 5 PyFloat.lit_1_2) = false
  /\ PyFloat.int_gt 7 (PyFloat.int_mul 5 PyFloat.lit_1_2) = true.
Proof. repeat split; vm_compute; reflexivity. Qed.

(** ** Facts about the string primitives *)

Section StringFacts.

Lemma startswith_app (p r : string) : PyStr.startswith p (p ++ r) = true.
Proof.
  induction p as [|a p IH]; simpl; [reflexivity|].
  now rewrite Ascii.eqb_refl, IH.
Qed.

Lemma startswith_inv (p s : string) :
  PyStr.startswith p s = true -> exists r, s = (p ++ r)%string.
Proof.
  revert s; induction p as [|a p IH]; intros s H; simpl in *.
  - now exists s.
  - destruct s as [|b s]; [discriminate|].
    apply andb_true_iff in H as [Hab Hps].
    apply Ascii.eqb_eq in Hab; subst b.
    destruct (IH _ Hps) as [r ->]. now exists r.
Qed.

Lemma startswith_iff (p s : string) :
  PyStr.startswith p s = true <-> exists r, s = (p ++ r)%string.
Proof.
  split; [apply startswith_inv|]. intros [r ->]. apply startswith_app.
Qed.

Lemma string_app_assoc (a b c : string) :
  ((a ++ b) ++ c = a ++ (b ++ c))%string.
Proof. induction a; simpl; congruence. Qed.

Lemma contains_startswith (sub s : string) :
  PyStr.startswith sub s = true -> PyStr.contains sub s = true.
Proof. intros H. destruct s; simpl; now rewrite H. Qed.

Lemma contains_iff (sub s : string) :
  PyStr.contains sub s = true <->
  exists pre post, s = (pre ++ sub ++ post)%string.
Proof.
  split.
  - induction s as [|c s IH]; simpl; intros H.
    + rewrite orb_false_r in H. apply startswith_inv in H as [r Hr].
      now exists EmptyString, r.
    + apply orb_true_iff in H as [H|H].
      * apply startswith_inv in H as [r Hr]. now exists EmptyString, r.
      * destruct (IH H) as (pre & post & ->). now exists (String c pre), post.
  - intros (pre & post & ->).
    induction pre as [|c pre IH]; simpl.
    + apply contains_startswith, startswith_app.
    + rewrite IH. apply orb_true_r.
Qed.

Lemma lower_app (a b : string) :
  PyStr.lower (a ++ b) = (PyStr.lower a ++ PyStr.lower b)%string.
Proof. induction a; simpl; congruence. Qed.

Lemma lower_split (t p r : string) :
  PyStr.lower t = (p ++ r)%string ->
  exists a b, t = (a ++ b)%string /\ PyStr.lower a = p /\ PyStr.lower b = r.
Proof.
  revert t; induction p as [|c p IH]; intros t H; simpl in H.
  - now exists EmptyString, t.
  - destruct t as [|d t]; [discriminate|]. simpl in H.
    injection H as Hc Ht. destruct (IH _ Ht) as (a & b & -> & Ha & Hb).
    exists (String d a), b. simpl. now rewrite Hc, Ha.
Qed.

End StringFacts.

Lemma contains_lower_iff (kw text : string) :
  PyStr.contains kw (PyStr.lower text) = true <-> occurs_ignoring_case kw text.
Proof.
  rewrite contains_iff. split.
  - intros (pre & post & H).
    apply lower_split in H as (a & b & -> & Ha & Hb).
    apply lower_split in Hb as (m & c & -> & Hm & Hc).
    now exists a, m, c.
  - intros (pre & mid & post & -> & <-).
    exists (PyStr.lower pre), (PyStr.lower post).
    now rewrite !lower_app.
Qed.

(** ** Lists built by a loop that appends under a condition *)

Section CondAppend.
Context {A B : Type} (p : A -> bool) (f : A -> B).

Lemma flat_map_cond (l : list A) :
  flat_map (fun x => if p x then [f x] else []) l = map f (filter p l).
Proof.
  induction l as [|a l IH]; simpl; [reflexivity|].
  destruct (p a); simpl; now rewrite IH.
Qed.

Lemma filter_length_le (l : list A) : length (filter p l) <= length l.
Proof.
  induction l as [|a l IH]; simpl; [lia|]. destruct (p a); simpl; lia.
Qed.

Lemma in_map_filter (l : list A) (y : B) :
  In y (map f (filter p l)) -> In y (map f l).
Proof.
  rewrite !in_map_iff. intros (x & Hx & Hin).
  apply filter_In in Hin as [Hin _]. now exists x.
Qed.

Lemma NoDup_map_filter_app (l : list A) (t : list B) :
  NoDup (map f l ++ t) -> NoDup (map f (filter p l) ++ t).
Proof.
  induction l as [|a l IH]; simpl; intros H; [assumption|].
  inversion H as [|x xs Hnotin Hnd]; subst.
  destruct (p a); simpl; [|now apply IH].
  constructor; [|now apply IH].
  intros Hin. apply Hnotin.
  apply in_app_iff in Hin as [Hin|Hin]; apply in_app_iff;
    [left; now apply in_map_filter|now right].
Qed.

Lemma NoDup_map_injective (l : list A) (a b : A) :
  NoDup (map f l) -> In a l -> In b l -> f a = f b -> a = b.
Proof.
  induction l as [|x l IH]; simpl; intros H Ha Hb E; [contradiction|].
  inversion H as [|y ys Hnotin Hnd]; subst.
  destruct Ha as [->|Ha], Hb as [->|Hb]; auto.
  - exfalso. apply Hnotin. rewrite E. now apply in_map.
  - exfalso. apply Hnotin. rewrite <- E. now apply in_map.
Qed.

End CondAppend.

(** ** Matches come out of [finditer] from left to right *)

Section FinditerOrder.
Variable r : Re.regex.

Lemma match_at_start (pos : nat) (s : string) (m : Re.match_obj) :
  Re.match_at r pos s = Some m -> Re.m_start m = pos.
Proof.
  unfold Re.match_at. destruct (Re.match_here r s) as [[rest cap]|];
    [|discriminate].
  intros H. injection H as <-. reflexivity.
Qed.

Lemma finditer_from_lower_bound (s : string) :
  forall pos skip m,
    In m (Re.finditer_from r pos skip s) -> pos + skip <= Re.m_start m.
Proof.
  induction s as [|c t IH]; intros pos skip m; simpl.
  - destruct skip; [|contradiction].
    destruct (Re.match_at r pos "") eqn:E; [|contradiction].
    intros [<-|[]]. apply match_at_start in E. lia.
  - destruct skip as [|k].
    + destruct (Re.match_at r pos (String c t)) eqn:E.
      * intros [<-|Hin].
        -- apply match_at_start in E. lia.
        -- apply IH in Hin. lia.
      * intros Hin. apply IH in Hin. lia.
    + intros Hin. apply IH in Hin. lia.
Qed.

Lemma finditer_from_sorted (s : string) :
  forall pos skip,
    StronglySorted (fun a b => Re.m_start a < Re.m_start b)
                   (Re.finditer_from r pos skip s).
Proof.
  induction s as [|c t IH]; intros pos skip; simpl.
  - destruct skip; [|constructor].
    destruct (Re.match_at r pos ""); repeat constructor.
  - destruct skip as [|k]; [|apply IH].
    destruct (Re.match_at r pos (String c t)) eqn:E; [|apply IH].
    constructor; [apply IH|].
    apply Forall_forall. intros m' Hin.
    apply finditer_from_lower_bound in Hin.
    apply match_at_start in E. lia.
Qed.

Lemma finditer_first_is_earliest (s : string) (m : Re.match_obj)
  (rest : list Re.match_obj) :
  Re.finditer r s = m :: rest ->
  forall m', In m' rest -> Re.m_start m < Re.m_start m'.
Proof.
  intros E m' Hin.
  pose proof (finditer_from_sorted s 0 0) as Hs.
  unfold Re.finditer in E. rewrite E in Hs.
  apply StronglySorted_inv in Hs as [_ Hall].
  rewrite Forall_forall in Hall. now apply Hall.
Qed.

End FinditerOrder.

(** ** Where a pattern cannot match *)

Section Blocked.
Variables (c : ascii) (s : string).

Lemma rmatch_blocked (r : Re.regex) :
  can_start r c = false ->
  forall (R : Type) (cap : Re.capture) (k : string -> Re.capture -> option R),
    ((forall cap', k (String c s) cap' = None) ->
     Re.rmatch r (String c s) cap k = None)
    /\ (nullable r = false -> Re.rmatch r (String c s) cap k = None).
Proof.
  induction r as [|p|r1 IH1 r2 IH2|r1 IH1 r2 IH2|r1 IH1|p|p|n p|r1 IH1];
    simpl; intros Hc R cap k.
  - split; [intros Hk; apply Hk|discriminate].
  - rewrite Hc. now split.
  - apply orb_false_iff in Hc as [H1 H2].
    destruct (nullable r1) eqn:N1; simpl in *.
    + split.
      * intros Hk. apply (proj1 (IH1 H1 _ _ _)). intros cap'.
        now apply (proj1 (IH2 H2 _ _ _)).
      * intros N2. apply (proj1 (IH1 H1 _ _ _)). intros cap'.
        now apply (proj2 (IH2 H2 _ _ _)).
    + split; intros _; now apply (proj2 (IH1 H1 _ _ _)).
  - apply orb_false_iff in Hc as [H1 H2]. split.
    + intros Hk. rewrite (proj1 (IH1 H1 R cap k) Hk). simpl.
      now apply (proj1 (IH2 H2 _ _ _)).
    + intros N. apply orb_false_iff in N as [N1 N2].
      rewrite (proj2 (IH1 H1 R cap k) N1). simpl.
      now apply (proj2 (IH2 H2 _ _ _)).
  - split; [|discriminate].
    intros Hk. rewrite (proj1 (IH1 Hc R cap k) Hk). simpl. apply Hk.
  - rewrite Hc. split; [intros Hk; apply Hk|discriminate].
  - rewrite Hc. split; [|discriminate].
    intros Hk. now rewrite Hk.
  - split; [|discriminate].
    intros Hk. destruct n; simpl; [apply Hk|]. rewrite Hc. apply Hk.
  - split.
    + intros Hk. apply (proj1 (IH1 Hc _ _ _)). intros _. apply Hk.
    + intros N. now apply (proj2 (IH1 Hc _ _ _)).
Qed.

End Blocked.

Lemma rmatch_empty (r : Re.regex) :
  forall (R : Type) (cap : Re.capture) (k : string -> Re.capture -> option R),
    ((forall cap', k "" cap' = None) -> Re.rmatch r "" cap k = None)
    /\ (nullable r = false -> Re.rmatch r "" cap k = None).
Proof.
  induction r as [|p|r1 IH1 r2 IH2|r1 IH1 r2 IH2|r1 IH1|p|p|n p|r1 IH1];
    simpl; intros R cap k.
  - split; [intros Hk; apply Hk|discriminate].
  - now split.
  - destruct (nullable r1) eqn:N1; simpl.
    + split.
      * intros Hk. apply (proj1 (IH1 _ _ _)). intros cap'.
        now apply (proj1 (IH2 _ _ _)).
      * intros N2. apply (proj1 (IH1 _ _ _)). intros cap'.
        now apply (proj2 (IH2 _ _ _)).
    + split; intros _; now apply (proj2 (IH1 _ _ _)).
  - split.
    + intros Hk. rewrite (proj1 (IH1 R cap k) Hk). simpl.
      now apply (proj1 (IH2 _ _ _)).
    + intros N. apply orb_false_iff in N as [N1 N2].
      rewrite (proj2 (IH1 R cap k) N1). simpl.
      now apply (proj2 (IH2 _ _ _)).
  - split; [|discriminate].
    intros Hk. rewrite (proj1 (IH1 R cap k) Hk). simpl. apply Hk.
  - split; [intros Hk; apply Hk|discriminate].
  - split; [|discriminate]. intros Hk. now rewrite Hk.
  - split; [|discriminate]. intros Hk. destruct n; simpl; apply Hk.
  - split.
    + intros Hk. apply (proj1 (IH1 _ _ _)). intros _. apply Hk.
    + intros N. now apply (proj2 (IH1 _ _ _)).
Qed.

Lemma starts_with_non_space_ok (r : Re.regex) :
  starts_with_non_space r = true ->
  nullable r = false
  /\ forall c, PyStr.isspace c = true -> can_start r c = false.
Proof.
  unfold starts_with_non_space. intros H.
  apply andb_true_iff in H as [Hn Hall]. split.
  - now apply negb_true_iff.
  - intros c Hc. rewrite forallb_forall in Hall.
    specialize (Hall (nat_of_ascii c)).
    cbv zeta in Hall. rewrite ascii_nat_embedding, Hc in Hall.
    apply negb_true_iff, Hall, in_seq.
    pose proof (nat_ascii_bounded c). lia.
Qed.

Section WhitespaceText.
Variable r : Re.regex.
Hypothesis Hr : starts_with_non_space r = true.

Lemma match_at_whitespace (pos : nat) (s : string) :
  PyStr.all_chars PyStr.isspace s = true -> Re.match_at r pos s = None.
Proof.
  destruct (starts_with_non_space_ok r Hr) as [Hn Hc].
  intros Hs. unfold Re.match_at, Re.match_here.
  destruct s as [|c s]; simpl in Hs.
  - now rewrite (proj2 (rmatch_empty r _ None _) Hn).
  - apply andb_true_iff in Hs as [Hsp _].
    now rewrite (proj2 (rmatch_blocked c s r (Hc c Hsp) _ None _) Hn).
Qed.

Lemma finditer_whitespace (s : string) :
  PyStr.all_chars PyStr.isspace s = true -> Re.finditer r s = [].
Proof.
  unfold Re.finditer. intros Hs.
  enough (G : forall pos, Re.finditer_from r pos 0 s = []) by apply G.
  induction s as [|c s IH]; intros pos; simpl.
  - now rewrite match_at_whitespace.
  - rewrite match_at_whitespace by assumption.
    simpl in Hs. apply andb_true_iff in Hs as [_ Hs]. now apply IH.
Qed.

Lemma search_whitespace (s : string) :
  PyStr.all_chars PyStr.isspace s = true -> Re.search r s = None.
Proof.
  unfold Re.search. generalize 0.
  induction s as [|c s IH]; intros pos Hs; simpl.
  - now rewrite match_at_whitespace.
  - rewrite match_at_whitespace by assumption.
    simpl in Hs. apply andb_true_iff in Hs as [_ Hs]. now apply IH.
Qed.

End WhitespaceText.

(** ** Whitespace-only text *)

Lemma lower_char_space (c : ascii) :
  PyStr.isspace c = true -> PyStr.lower_char c = c.
Proof.
  destruct c as [[] [] [] [] [] [] [] []]; intros H;
    try discriminate H; reflexivity.
Qed.

Lemma lower_whitespace (s : string) :
  PyStr.all_chars PyStr.isspace s = true -> PyStr.lower s = s.
Proof.
  induction s as [|c t IH]; simpl; intros Hs; [reflexivity|].
  apply andb_true_iff in Hs as [Hc Ht].
  now rewrite lower_char_space, IH.
Qed.

Lemma take_whitespace (s : string) (n : nat) :
  PyStr.all_chars PyStr.isspace s = true ->
  PyStr.all_chars PyStr.isspace (PyStr.take n s) = true.
Proof.
  revert n. induction s as [|c t IH]; intros [|n]; simpl; intros Hs;
    try reflexivity.
  apply andb_true_iff in Hs as [Hc Ht]. now rewrite Hc, IH.
Qed.

Lemma startswith_whitespace (s : string) (kw : string) :
  PyStr.all_chars PyStr.isspace s = true ->
  first_non_space kw = true -> PyStr.startswith kw s = false.
Proof.
  intros Hs. destruct kw as [|a t]; [discriminate|]. simpl. intros Ha.
  destruct s as [|c u]; [reflexivity|]. simpl in Hs.
  apply andb_true_iff in Hs as [Hc _].
  destruct (Ascii.eqb_spec a c) as [->|_]; [|reflexivity].
  now rewrite Hc in Ha.
Qed.

Lemma contains_whitespace (s : string) (kw : string) :
  PyStr.all_chars PyStr.isspace s = true ->
  first_non_space kw = true -> PyStr.contains kw s = false.
Proof.
  intros Hs Hkw. induction s as [|c t IH].
  - simpl. now rewrite startswith_whitespace.
  - cbn [PyStr.contains]. rewrite startswith_whitespace by assumption.
    simpl in Hs. apply andb_true_iff in Hs as [_ Ht]. now apply IH.
Qed.

Lemma count_from_whitespace (s : string) (kw : string) (skip : nat) :
  PyStr.all_chars PyStr.isspace s = true ->
  first_non_space kw = true -> PyStr.count_from kw s skip = 0.
Proof.
  intros Hs Hkw. revert skip. induction s as [|c t IH]; intros skip.
  - simpl. destruct kw; [discriminate|reflexivity].
  - cbn [PyStr.count_from].
    rewrite startswith_whitespace by assumption.
    simpl in Hs. apply andb_true_iff in Hs as [_ Ht].
    destruct skip; now apply IH.
Qed.

Lemma count_terms_whitespace (s : string) (terms : list string) :
  PyStr.all_chars PyStr.isspace s = true ->
  forallb first_non_space terms = true -> count_terms terms s = 0.
Proof.
  intros Hs. unfold count_terms.
  induction terms as [|kw l IH]; simpl; intros H; [reflexivity|].
  apply andb_true_iff in H as [Hkw Hl]. rewrite (IH Hl).
  unfold PyStr.count. now rewrite count_from_whitespace.
Qed.

Section WhitespaceAnalysis.
Variable s : string.
Hypothesis Hs : PyStr.all_chars PyStr.isspace s = true.

Lemma extract_document_info_whitespace :
  extract_document_info s
  = [ ("document_type", VStr "Financial Document");
      ("company_name", VStr "Not identified");
      ("reporting_period", VStr "Not specified") ].
Proof.
  unfold extract_document_info.
  rewrite (lower_whitespace s Hs).
  rewrite !(contains_whitespace s _ Hs) by reflexivity.
  rewrite search_whitespace; [reflexivity|by_table|now apply take_whitespace].
Qed.

Lemma extract_financial_metrics_whitespace :
  extract_financial_metrics s = [].
Proof.
  unfold extract_financial_metrics, financial_terms, find_monetary_values,
    keyword_values.
  cbn [fold_left flat_map fst snd].
  rewrite !finditer_whitespace by by_table. reflexivity.
Qed.

Lemma extract_highlights_whitespace : extract_highlights s = [].
Proof.
  unfold extract_highlights, all_highlights, positive_patterns.
  cbn [flat_map].
  rewrite !finditer_whitespace by by_table. reflexivity.
Qed.

Lemma generate_recommendation_whitespace :
  generate_recommendation s = NEUTRAL.
Proof.
  unfold generate_recommendation.
  rewrite (lower_whitespace s Hs).
  rewrite !(count_terms_whitespace s _ Hs) by reflexivity. reflexivity.
Qed.

Lemma identify_risks_whitespace : identify_risks s = [].
Proof.
  unfold identify_risks, risk_keywords.
  rewrite (lower_whitespace s Hs). cbn [flat_map].
  rewrite !(contains_whitespace s _ Hs) by reflexivity.
  rewrite search_whitespace by by_table. reflexivity.
Qed.

Lemma assess_financial_stability_whitespace :
  assess_financial_stability s = MIXED.
Proof.
  unfold assess_financial_stability.
  rewrite (lower_whitespace s Hs).
  rewrite !(count_terms_whitespace s _ Hs) by reflexivity. reflexivity.
Qed.

Lemma assess_market_risks_whitespace : assess_market_risks s = [].
Proof.
  unfold assess_market_risks, market_risk_terms.
  rewrite (lower_whitespace s Hs). cbn [flat_map fst snd].
  rewrite !(contains_whitespace s _ Hs) by reflexivity. reflexivity.
Qed.

Lemma generate_risk_recommendations_whitespace :
  generate_risk_recommendations s
  = [ "Monitor financial metrics regularly";
      "Diversify investment portfolio";
      "Stay informed about industry trends";
      "Review risk tolerance periodically" ].
Proof.
  unfold generate_risk_recommendations.
  rewrite (lower_whitespace s Hs).
  rewrite !(contains_whitespace s _ Hs) by reflexivity. reflexivity.
Qed.

End WhitespaceAnalysis.

(** ** Binary64 arithmetic: [n * 1.2] compared with an integer *)

Section Binary64.
Local Open Scope Z_scope.

Lemma digits2_pos_bounds (m : positive) :
  2 ^ (Zpos (digits2_pos m) - 1) <= Zpos m < 2 ^ Zpos (digits2_pos m).
Proof.
  induction m as [m IH|m IH|]; simpl digits2_pos.
  - rewrite Pos2Z.inj_succ.
    replace (Z.succ (Zpos (digits2_pos m)) - 1) with (Z.succ (Zpos (digits2_pos m) - 1)) by lia.
    rewrite !Z.pow_succ_r by lia. lia.
  - rewrite Pos2Z.inj_succ.
    replace (Z.succ (Zpos (digits2_pos m)) - 1) with (Z.succ (Zpos (digits2_pos m) - 1)) by lia.
    rewrite !Z.pow_succ_r by lia. lia.
  - simpl. lia.
Qed.

Lemma digits2_pos_unique (m : positive) (d : Z) :
  2 ^ (d - 1) <= Zpos m < 2 ^ d -> Zpos (digits2_pos m) = d.
Proof.
  intros [Hlo Hhi]. pose proof (digits2_pos_bounds m) as [Blo Bhi].
  set (d' := Zpos (digits2_pos m)) in *.
  assert (0 < d) by (destruct d; try lia; simpl in Hhi; lia).
  destruct (Z.lt_trichotomy d' d) as [Hlt|[Heq|Hgt]]; [|assumption|].
  - assert (2 ^ d' <= 2 ^ (d - 1)) by (apply Z.pow_le_mono_r; lia). lia.
  - assert (2 ^ d <= 2 ^ (d' - 1)) by (apply Z.pow_le_mono_r; lia). lia.
Qed.

Lemma iter_xO_mul (m k : positive) :
  Zpos (Pos.iter xO m k) = Zpos m * 2 ^ Zpos k.
Proof.
  induction k as [|k IH] using Pos.peano_ind.
  - simpl. lia.
  - rewrite Pos.iter_succ, Pos2Z.inj_succ, Z.pow_succ_r by lia.
    rewrite Pos2Z.inj_xO, IH. lia.
Qed.

Lemma shr_1_spec (m : Z) (r s : bool) :
  0 <= m ->
  exists m' b,
    shr_1 (Build_shr_record m r s) = Build_shr_record m' b (r || s)
    /\ m = 2 * m' + (if b then 1 else 0) /\ 0 <= m'.
Proof.
  intros Hm. destruct m as [|[p|p|]|]; try lia.
  - exists 0, false. repeat split; lia.
  - exists (Zpos p), true. repeat split; lia.
  - exists (Zpos p), false. repeat split; lia.
  - exists 0, true. repeat split; lia.
Qed.

Lemma shr_1_inv (M j : Z) (rec : shr_record) :
  0 <= j -> shr_inv M j rec -> shr_inv M (j + 1) (shr_1 rec).
Proof.
  intros Hj (low & Hlow & HM & Hs & Hm).
  destruct rec as [m r s]. cbn [shr_m shr_r shr_s] in *.
  destruct (shr_1_spec m r s Hm) as (m' & b & -> & Em & Hm').
  assert (P : 2 ^ (j + 1) = 2 * 2 ^ j) by (rewrite Z.pow_add_r by lia; lia).
  assert (P2 : 2 ^ (j + 1 + 1) = 4 * 2 ^ j) by (rewrite Z.pow_add_r, P by lia; lia).
  assert (Pj : 0 < 2 ^ j) by (apply Z.pow_pos_nonneg; lia).
  exists ((if r then 2 ^ j else 0) + low). cbn [shr_m shr_r shr_s].
  rewrite P2. rewrite P in HM |- *.
  set (w := 2 ^ j) in *. clearbody w.
  split; [destruct r; lia|].
  split; [destruct b, r; nia|].
  split; [|lia].
  rewrite orb_true_iff. split.
  - intros [->|Hs']; [lia|]. apply Hs in Hs'. destruct r; lia.
  - intros Hpos. destruct r; [now left|right]. apply Hs. lia.
Qed.

Lemma iter_shr_1_inv (M : Z) (p : positive) :
  forall j rec, 0 <= j -> shr_inv M j rec ->
                shr_inv M (j + Zpos p) (iter_pos shr_1 p rec).
Proof.
  induction p as [p IH|p IH|]; intros j rec Hj H; simpl iter_pos.
  - replace (j + Zpos p~1) with ((j + 1 + Zpos p) + Zpos p) by lia.
    apply IH; [lia|]. apply IH; [lia|]. now apply shr_1_inv.
  - replace (j + Zpos p~0) with ((j + Zpos p) + Zpos p) by lia.
    apply IH; [lia|]. now apply IH.
  - now apply shr_1_inv.
Qed.

Lemma round_nearest_even_bound (M k : Z) (rec : shr_record) :
  0 <= k -> shr_inv M k rec ->
  let q := round_nearest_even (shr_m rec) (loc_of_shr_record rec) in
  shr_m rec <= q <= shr_m rec + 1
  /\ - 2 ^ k <= 2 * M - q * 2 ^ (k + 1) <= 2 ^ k.
Proof.
  intros Hk (low & Hlow & HM & Hs & Hm).
  destruct rec as [m r s]. cbn [shr_m shr_r shr_s] in *.
  assert (P : 2 ^ (k + 1) = 2 * 2 ^ k) by (rewrite Z.pow_add_r by lia; lia).
  rewrite P in *. set (w := 2 ^ k) in *. clearbody w.
  assert (Hlow0 : s = false -> low = 0).
  { intros ->. destruct (Z.lt_trichotomy 0 low) as [L|[L|L]];
      first [lia | apply Hs in L; discriminate]. }
  destruct r, s; cbn [loc_of_shr_record round_nearest_even];
    try (specialize (Hlow0 eq_refl)); try (destruct (Z.even m)); split; nia.
Qed.

Lemma binary_round_aux_canonical (sx : bool) (m : positive) (e : Z) :
  Zpos (digits2_pos m) = 53 -> -1074 <= e <= 971 ->
  binary_round_aux 53 1024 sx (Zpos m) e loc_Exact = S754_finite sx m e.
Proof.
  intros Hd He.
  unfold binary_round_aux, shr_fexp, fexp, emin. cbn [Zdigits2]. rewrite Hd.
  replace (Z.max (53 + e - 53) (3 - 1024 - 53) - e) with 0 by lia.
  cbn [shr shr_record_of_loc shr_m shr_r shr_s loc_of_shr_record
       round_nearest_even Zdigits2].
  rewrite Hd.
  replace (Z.max (53 + e - 53) (3 - 1024 - 53) - e) with 0 by lia.
  cbn [shr shr_record_of_loc shr_m].
  replace (e <=? 1024 - 53) with true by (symmetry; apply Z.leb_le; lia).
  reflexivity.
Qed.

Lemma binary_round_small (n : positive) :
  Zpos n < 2 ^ 53 ->
  exists m e,
    binary_round 53 1024 false n 0 = S754_finite false m e
    /\ -52 <= e <= 0
    /\ Zpos m = Zpos n * 2 ^ (- e)
    /\ 2 ^ 52 <= Zpos m < 2 ^ 53
    /\ Zpos n < 2 ^ (e + 53).
Proof.
  intros Hn. pose proof (digits2_pos_bounds n) as [Blo Bhi].
  set (d := Zpos (digits2_pos n)) in *.
  assert (Hd1 : 1 <= d) by (unfold d; lia).
  assert (Hd : d <= 53).
  { destruct (Z.le_gt_cases d 53) as [H|H]; [assumption|].
    assert (2 ^ 53 <= 2 ^ (d - 1)) by (apply Z.pow_le_mono_r; lia). lia. }
  unfold binary_round, fexp, emin. fold d.
  replace (Z.max (d + 0 - 53) (3 - 1024 - 53)) with (d - 53) by lia.
  unfold shl_align.
  destruct (d - 53 - 0) as [|k|k] eqn:Ek; try lia.
  - exists n, 0. assert (d = 53) by lia.
    rewrite binary_round_aux_canonical by (fold d; lia).
    rewrite H in Blo, Bhi. change (53 - 1) with 52 in Blo.
    change (- 0) with 0. change (0 + 53) with 53. rewrite Z.pow_0_r.
    repeat split; lia.
  - assert (Hk : Zpos k = 53 - d) by lia.
    exists (Pos.iter xO n k), (d - 53).
    assert (Hm : Zpos (Pos.iter xO n k) = Zpos n * 2 ^ (53 - d)).
    { now rewrite iter_xO_mul, Hk. }
    assert (Hpow : 2 ^ (d - 1) * 2 ^ (53 - d) = 2 ^ 52).
    { rewrite <- Z.pow_add_r by lia. f_equal. lia. }
    assert (Hpow' : 2 ^ d * 2 ^ (53 - d) = 2 ^ 53).
    { rewrite <- Z.pow_add_r by lia. f_equal. lia. }
    assert (Hpos : 0 < 2 ^ (53 - d)) by (apply Z.pow_pos_nonneg; lia).
    assert (Hrange : 2 ^ 52 <= Zpos (Pos.iter xO n k) < 2 ^ 53).
    { rewrite Hm, <- Hpow, <- Hpow'. split; nia. }
    rewrite binary_round_aux_canonical.
    + replace (- (d - 53)) with (53 - d) by lia.
      replace (d - 53 + 53) with d by lia.
      repeat split; lia.
    + apply digits2_pos_unique. exact Hrange.
    + lia.
Qed.

Lemma binary_round_aux_long (M : positive) (e1 D : Z) :
  Zpos (digits2_pos M) = D -> 53 < D ->
  -1074 <= D + e1 - 53 -> D + e1 - 53 + 1 <= 971 ->
  exists q e' Q,
    binary_round_aux 53 1024 false (Zpos M) e1 loc_Exact = S754_finite false q e'
    /\ (e' = e1 + (D - 53) /\ Zpos q = Q
        \/ e' = e1 + (D - 53) + 1 /\ 2 * Zpos q = Q)
    /\ - 2 ^ (D - 53) <= 2 * Zpos M - Q * 2 ^ (D - 53 + 1) <= 2 ^ (D - 53).
Proof.
  intros HD Hlong Hlo Hhi.
  pose proof (digits2_pos_bounds M) as [Blo Bhi]. rewrite HD in Blo, Bhi.
  unfold binary_round_aux, shr_fexp, fexp, emin. cbn [Zdigits2]. rewrite HD.
  replace (Z.max (D + e1 - 53) (3 - 1024 - 53) - e1) with (D - 53) by lia.
  destruct (D - 53) as [|kp|kp] eqn:Ek; try lia.
  cbn [shr shr_record_of_loc].
  set (rec := iter_pos shr_1 kp (Build_shr_record (Zpos M) false false)).
  assert (Hinv : shr_inv (Zpos M) (Zpos kp) rec).
  { change (Zpos kp) with (0 + Zpos kp). apply iter_shr_1_inv; [lia|].
    exists 0. cbn [shr_m shr_r shr_s]. repeat split; try lia; discriminate. }
  destruct (round_nearest_even_bound _ _ _ (Pos2Z.is_nonneg kp) Hinv)
    as [_ Hbound].
  set (Q := round_nearest_even (shr_m rec) (loc_of_shr_record rec)) in *.
  clearbody Q. clear Hinv. clearbody rec.
  assert (Pk : 2 ^ (Zpos kp + 1) = 2 * 2 ^ Zpos kp)
    by (rewrite Z.pow_add_r by lia; lia).
  assert (PD : 2 ^ D = 2 ^ 53 * 2 ^ Zpos kp).
  { rewrite <- Z.pow_add_r by lia. f_equal. lia. }
  assert (PD1 : 2 ^ (D - 1) = 2 ^ 52 * 2 ^ Zpos kp).
  { rewrite <- Z.pow_add_r by lia. f_equal. lia. }
  assert (Pw : 0 < 2 ^ Zpos kp) by (apply Z.pow_pos_nonneg; lia).
  assert (HQ : 2 ^ 52 <= Q <= 2 ^ 53).
  { rewrite Pk in Hbound. rewrite PD in Bhi. rewrite PD1 in Blo.
    set (w := 2 ^ Zpos kp) in *. clearbody w.
    change (2 ^ 52) with 4503599627370496 in *.
    change (2 ^ 53) with 9007199254740992 in *. split; nia. }
  destruct Q as [|q0|q0]; try lia.
  destruct (Z.eq_dec (Zpos q0) (2 ^ 53)) as [Hcarry|Hcarry].
  - assert (q0 = 9007199254740992%positive) as -> by (change (2 ^ 53) with 9007199254740992 in Hcarry; lia).
    cbn [Zdigits2]. change (Zpos (digits2_pos 9007199254740992)) with 54.
    replace (Z.max (54 + (e1 + Zpos kp) - 53) (3 - 1024 - 53) - (e1 + Zpos kp))
      with 1 by lia.
    cbn [shr shr_record_of_loc iter_pos shr_1 shr_m].
    replace (e1 + Zpos kp + 1 <=? 1024 - 53) with true
      by (symmetry; apply Z.leb_le; lia).
    exists 4503599627370496%positive, (e1 + Zpos kp + 1), 9007199254740992.
    split; [reflexivity|]. split; [right; split; reflexivity|exact Hbound].
  - assert (Hd53 : Zpos (digits2_pos q0) = 53).
    { apply digits2_pos_unique. change (53 - 1) with 52. lia. }
    cbn [Zdigits2]. rewrite Hd53.
    replace (Z.max (53 + (e1 + Zpos kp) - 53) (3 - 1024 - 53) - (e1 + Zpos kp))
      with 0 by lia.
    cbn [shr shr_record_of_loc shr_m].
    replace (e1 + Zpos kp <=? 1024 - 53) with true
      by (symmetry; apply Z.leb_le; lia).
    exists q0, (e1 + Zpos kp), (Zpos q0).
    split; [reflexivity|]. split; [left; split; reflexivity|exact Hbound].
Qed.

Lemma int_gt_mul_1_2 (n p : Z) :
  0 <= n < 2 ^ 50 ->
  PyFloat.int_gt p (PyFloat.int_mul n PyFloat.lit_1_2) = (6 * n <? 5 * p).
Proof.
  intros [Hn0 Hn].
  destruct n as [|np|np]; try lia.
  { cbn. destruct p; reflexivity. }
  unfold PyFloat.int_mul, PyFloat.of_int, PyFloat.lit_1_2, PyFloat.prec,
    PyFloat.emax. cbn [binary_normalize].
  destruct (binary_round_small np) as (m & e & -> & He & Hm & Hmr & Hne).
  { change (2 ^ 50) with 1125899906842624 in Hn.
    change (2 ^ 53) with 9007199254740992. lia. }
  cbn [SFmul xorb].
  assert (He3 : e <= -3).
  { destruct (Z.le_gt_cases e (-3)) as [H|H]; [assumption|exfalso].
    assert (2 ^ 50 <= 2 ^ (52 + e)) by (apply Z.pow_le_mono_r; lia).
    assert (Hx : Zpos m = Zpos np * 2 ^ (- e)) by assumption.
    assert (2 ^ (52 + e) * 2 ^ (- e) = 2 ^ 52).
    { rewrite <- Z.pow_add_r by lia. f_equal. lia. }
    assert (0 < 2 ^ (- e)) by (apply Z.pow_pos_nonneg; lia).
    nia. }
  set (c := 5404319552844595%positive).
  set (M := (m * c)%positive).
  assert (HM : Zpos M = Zpos m * 5404319552844595) by reflexivity.
  change (2 ^ 52) with 4503599627370496 in Hmr.
  change (2 ^ 53) with 9007199254740992 in Hmr.
  assert (HD : Zpos (digits2_pos M) = 105 \/ Zpos (digits2_pos M) = 106).
  { destruct (Z.lt_ge_cases (Zpos M) (2 ^ 105)) as [H|H].
    - left. apply digits2_pos_unique. split; [|assumption].
      change (2 ^ (105 - 1)) with 20282409603651670423947251286016. lia.
    - right. apply digits2_pos_unique. split; [assumption|].
      change (2 ^ 106) with 81129638414606681695789005144064. lia. }
  set (D := Zpos (digits2_pos M)) in *.
  destruct (binary_round_aux_long M (e + -52) D eq_refl)
    as (q & e' & Q & -> & Hq & Hbound); try lia.
  set (k := D - 53) in *.
  assert (Hk : 52 <= k <= 53) by (unfold k; lia).
  set (t := 52 - e - k).
  assert (Ht : 2 <= t) by (unfold t; lia).
  assert (Pk : 2 ^ (k + 1) = 2 * 2 ^ k) by (rewrite Z.pow_add_r by lia; lia).
  assert (Pw : 2 ^ 52 <= 2 ^ k) by (apply Z.pow_le_mono_r; lia).
  assert (PT : 2 ^ 2 <= 2 ^ t) by (apply Z.pow_le_mono_r; lia).
  assert (PwT : 2 ^ k * 2 ^ t = 2 ^ 52 * 2 ^ (- e)).
  { rewrite <- !Z.pow_add_r by lia. f_equal. unfold t. lia. }
  rewrite Pk in Hbound.
  change (2 ^ 52) with 4503599627370496 in *.
  change (2 ^ 2) with 4 in PT.
  set (w := 2 ^ k) in *. set (A := 2 ^ (- e)) in *.
  assert (Key : Q < p * 2 ^ t <-> 6 * Zpos np < 5 * p).
  { set (T := 2 ^ t) in *. clearbody w A T. clear Hq.
    split; intros H.
    - destruct (Z.lt_ge_cases (6 * Zpos np) (5 * p)) as [G|G]; [assumption|].
      exfalso.
      assert (Q * w <= (p * T - 1) * w) by (apply Z.mul_le_mono_nonneg_r; lia).
      assert (p * (T * w) <= p * (T * w)) by lia.
      assert (5 * p * (T * w) <= 6 * Zpos np * (T * w))
        by (apply Z.mul_le_mono_nonneg_r; nia).
      nia.
    - destruct (Z.lt_ge_cases Q (p * T)) as [G|G]; [assumption|].
      exfalso.
      assert (p * T * w <= Q * w) by (apply Z.mul_le_mono_nonneg_r; lia).
      assert ((6 * Zpos np + 1) * (T * w) <= 5 * p * (T * w))
        by (apply Z.mul_le_mono_nonneg_r; nia).
      nia. }
  unfold PyFloat.int_gt.
  destruct Hq as [[-> Hq]|[-> Hq]].
  - replace (0 <=? e + -52 + k) with false by (symmetry; apply Z.leb_gt; lia).
    replace (- (e + -52 + k)) with t by (unfold t; lia).
    rewrite Hq. destruct (Z.ltb_spec Q (p * 2 ^ t)), (Z.ltb_spec (6 * Zpos np) (5 * p));
      try reflexivity; exfalso; intuition lia.
  - replace (0 <=? e + -52 + k + 1) with false by (symmetry; apply Z.leb_gt; lia).
    replace (- (e + -52 + k + 1)) with (t - 1) by (unfold t; lia).
    assert (Pt : 2 ^ t = 2 * 2 ^ (t - 1)).
    { rewrite <- Z.pow_succ_r by lia. f_equal. lia. }
    destruct (Z.ltb_spec (Zpos q) (p * 2 ^ (t - 1))),
      (Z.ltb_spec (6 * Zpos np) (5 * p));
      try reflexivity; exfalso; rewrite Pt in Key; intuition lia.
Qed.

End Binary64.

(** The literal [1.2] is the binary64 number nearest to 12/10: with
    [c = 5404319552844595], [c / 2^52 < 12/10 < (c+1) / 2^52] and [c / 2^52]
    is the nearer of the two. *)
Lemma lit_1_2_nearest :
  PyFloat.lit_1_2 = S754_finite false 5404319552844595 (-52)
  /\ valid_binary PyFloat.prec PyFloat.emax PyFloat.lit_1_2 = true
  /\ (10 * 5404319552844595 < 12 * 2 ^ 52 < 10 * (5404319552844595 + 1))%Z
  /\ (12 * 2 ^ 52 - 10 * 5404319552844595
      < 10 * (5404319552844595 + 1) - 12 * 2 ^ 52)%Z.
Proof. repeat split; reflexivity. Qed.

(** ** C1: the error guard of the two entry points *)

(** C1.  For every input that is empty or begins with ["Error:"], both
    [analyze_investment] and [assess_risks] return exactly the one-key record
    [{"error": message}]; the record is returned whatever the analysis passes
    are, so none of them contributes to it. *)
Theorem C1_error_guard (data : string) :
  data = "" \/ (exists rest, data = ("Error:" ++ rest)%string) ->
  analyze_investment data
    = [("error", VStr "No valid financial data provided for analysis")]
  /\ assess_risks data
    = [("error", VStr "No valid financial data provided for risk assessment")]
  /\ (forall info metrics highlights recommendation,
        analyze_investment_with info metrics highlights recommendation data
        = [("error", VStr "No valid financial data provided for analysis")])
  /\ (forall risks stability market recommendations,
        assess_risks_with risks stability market recommendations data
        = [("error", VStr "No valid financial data provided for risk assessment")]).
Proof.
  intros H.
  assert (G : negb (PyStr.truthy data) || PyStr.startswith "Error:" data = true).
  { destruct H as [->|[rest ->]]; [reflexivity|].
    rewrite startswith_app. apply orb_true_r. }
  unfold analyze_investment, assess_risks, analyze_investment_with,
    assess_risks_with.
  rewrite G. repeat split.
Qed.

Lemma C1_error_guard_witness :
  analyze_investment "Error: File not found at path: data/sample.pdf"
    = [("error", VStr "No valid financial data provided for analysis")]
  /\ assess_risks "Error: File not found at path: data/sample.pdf"
    = [("error", VStr "No valid financial data provided for risk assessment")].
Proof.
  destruct (C1_error_guard "Error: File not found at path: data/sample.pdf")
    as (Ha & Hr & _).
  - right. exists " File not found at path: data/sample.pdf". reflexivity.
  - split; assumption.
Defined.

(** ** C2: whitespace-only input *)

(** C2 (counterexample).  A single space is whitespace only, and neither
    entry point returns for it what it returns for the empty string. *)
Lemma C2_counterexample :
  whitespace_only " "
  /\ analyze_investment " " <> analyze_investment ""
  /\ assess_risks " " <> assess_risks "".
Proof.
  split; [split; [discriminate|reflexivity]|].
  split; vm_compute; discriminate.
Qed.

(** C2 (amended).  A non-empty input made of whitespace only is not
    rejected: the guard tests emptiness and the ["Error:"] prefix only, so
    the text is analysed like any other.  Nothing is found in it, and the
    entry points return the full records with the default document
    information, no metric, no highlight and the NEUTRAL recommendation,
    respectively risk level LOW, no risk, MIXED stability, no market risk
    and the four general recommendations. *)
Theorem C2_whitespace_is_analysed (data : string) :
  whitespace_only data ->
  analyze_investment data
  = [ ("document_summary",
        VDict [ ("document_type", VStr "Financial Document");
                ("company_name", VStr "Not identified");
                ("reporting_period", VStr "Not specified") ]);
      ("financial_metrics", VDict []);
      ("key_highlights", VList []);
      ("investment_recommendation", VStr NEUTRAL) ]
  /\ assess_risks data
  = [ ("overall_risk_level", VStr "LOW");
      ("identified_risks", VList []);
      ("financial_stability", VStr MIXED);
      ("market_risks", VList []);
      ("recommendations",
        VList [ "Monitor financial metrics regularly";
                "Diversify investment portfolio";
                "Stay informed about industry trends";
                "Review risk tolerance periodically" ]) ]
  /\ PyDict.get "error" (analyze_investment data) = None
  /\ PyDict.get "error" (assess_risks data) = None.
Proof.
  intros [Hne Hs].
  assert (G : negb (PyStr.truthy data) || PyStr.startswith "Error:" data = false).
  { rewrite (startswith_whitespace data _ Hs) by reflexivity.
    destruct data; [contradiction|reflexivity]. }
  assert (Ha : analyze_investment data
    = [ ("document_summary",
          VDict [ ("document_type", VStr "Financial Document");
                  ("company_name", VStr "Not identified");
                  ("reporting_period", VStr "Not specified") ]);
        ("financial_metrics", VDict []);
        ("key_highlights", VList []);
        ("investment_recommendation", VStr NEUTRAL) ]).
  { unfold analyze_investment, analyze_investment_with. rewrite G.
    now rewrite extract_document_info_whitespace,
      extract_financial_metrics_whitespace, extract_highlights_whitespace,
      generate_recommendation_whitespace. }
  assert (Hr : assess_risks data
    = [ ("overall_risk_level", VStr "LOW");
        ("identified_risks", VList []);
        ("financial_stability", VStr MIXED);
        ("market_risks", VList []);
        ("recommendations",
          VList [ "Monitor financial metrics regularly";
                  "Diversify investment portfolio";
                  "Stay informed about industry trends";
                  "Review risk tolerance periodically" ]) ]).
  { unfold assess_risks, assess_risks_with. rewrite G.
    now rewrite identify_risks_whitespace,
      assess_financial_stability_whitespace, assess_market_risks_whitespace,
      generate_risk_recommendations_whitespace. }
  rewrite Ha, Hr. repeat split.
Qed.

Lemma C2_whitespace_is_analysed_witness :
  PyDict.get "error" (analyze_investment "   ") = None
  /\ PyDict.get "error" (assess_risks "   ") = None.
Proof.
  destruct (C2_whitespace_is_analysed "   ") as (_ & _ & Ha & Hr).
  - split; [discriminate|reflexivity].
  - split; assumption.
Defined.

(** ** C3: the scale letter of a monetary value *)

(** C3 (the code at the failing inputs).  The scale is looked for in the
    whole matched text, keyword included, and the single letters are
    compared with their case: "NET INCOME: 500" matches with no scale suffix
    and yet gives "$500M"; "NET INCOME: 5 billion" gives "$5M"; "Revenue:
    5 m" matches the suffix "m" and gives "$5". *)
Theorem C3_scale_is_read_from_whole_match :
  Re.finditer (money_pattern "net income") "NET INCOME: 500"
    = [Re.MatchObj 0 "NET INCOME: 500" (Some "500")]
  /\ find_monetary_values "NET INCOME: 500"
       ["net income"; "net profit"; "net earnings"] = ["$500M"]
  /\ extract_financial_metrics "NET INCOME: 500"
     = [("net_income", VStr "$500M")]
  /\ Re.finditer (money_pattern "net income") "NET INCOME: 5 billion"
     = [Re.MatchObj 0 "NET INCOME: 5 billion" (Some "5")]
  /\ find_monetary_values "NET INCOME: 5 billion"
       ["net income"; "net profit"; "net earnings"] = ["$5M"]
  /\ Re.finditer (money_pattern "revenue") "Revenue: 5 m"
     = [Re.MatchObj 0 "Revenue: 5 m" (Some "5")]
  /\ find_monetary_values "Revenue: 5 m"
       ["revenue"; "net sales"; "total revenue"] = ["$5"].
Proof. repeat split; vm_compute; reflexivity. Qed.

(** ** C4: which value is kept for a metric *)

Lemma metric_kept (text metric : string) (keywords : list string) :
  In (metric, keywords) financial_terms ->
  PyDict.get metric (extract_financial_metrics text)
  = match find_monetary_values text keywords with
    | v :: _ => Some (VStr v)
    | [] => None
    end.
Proof.
  unfold extract_financial_metrics, financial_terms.
  cbn [fold_left fst snd].
  intros Hin.
  destruct (find_monetary_values text ["revenue"; "net sales"; "total revenue"]) eqn:E1;
  destruct (find_monetary_values text ["net income"; "net profit"; "net earnings"]) eqn:E2;
  destruct (find_monetary_values text ["total assets"]) eqn:E3;
  destruct (find_monetary_values text ["cash"; "cash and equivalents"]) eqn:E4;
  simpl in Hin;
  repeat (destruct Hin as [Hin|Hin];
          [injection Hin as <- <-; rewrite ?E1, ?E2, ?E3, ?E4; reflexivity|]);
  contradiction.
Qed.

Lemma find_monetary_values_matches (text : string) (keywords : list string) :
  find_monetary_values text keywords
  = map format_value (category_matches text keywords).
Proof.
  unfold find_monetary_values, category_matches, keyword_values.
  induction keywords as [|k l IH]; simpl; [reflexivity|].
  now rewrite map_app, IH.
Qed.

Lemma category_matches_first (text : string) (before after : list string)
  (kw : string) :
  (forall k, In k before -> Re.finditer (money_pattern k) text = []) ->
  category_matches text (before ++ kw :: after)
  = Re.finditer (money_pattern kw) text ++ category_matches text after.
Proof.
  unfold category_matches. intros Hnone.
  induction before as [|k l IH]; simpl; [reflexivity|].
  rewrite (Hnone k) by now left. simpl. apply IH.
  intros k' Hk'. apply Hnone. now right.
Qed.

(** C4 (counterexample).  In "Net sales: $5 million. Revenue: $10 million"
    the net-sales match starts at position 0 and the revenue match at
    position 23, and the value kept for revenue is that of the latter. *)
Lemma C4_counterexample :
  ~ kept_is_earliest "Net sales: $5 million. Revenue: $10 million"
      "revenue" ["revenue"; "net sales"; "total revenue"].
Proof.
  intros H. destruct H as (m & Hin & Hmin & Hget).
  - vm_compute. discriminate.
  - assert (Hnet : In (Re.MatchObj 0 "Net sales: $5 million" (Some "5"))
                     (category_matches
                        "Net sales: $5 million. Revenue: $10 million"
                        ["revenue"; "net sales"; "total revenue"])).
    { vm_compute. right. left. reflexivity. }
    vm_compute in Hin. destruct Hin as [<-|[<-|[]]].
    + apply Hmin in Hnet. vm_compute in Hnet. lia.
    + vm_compute in Hget. discriminate.
Qed.

(** C4 (amended).  For every text and metric category: the value kept is
    that of the first entry of the category's matches taken keyword by
    keyword in table order; that is, the leftmost match of the first keyword
    variant, in table order, that matches at all.  It starts before every
    other match of that same keyword, but a later keyword variant may match
    earlier in the text.  When no variant matches the metric is absent. *)
Theorem C4_first_match_kept
  (text metric kw : string) (keywords before after : list string)
  (m : Re.match_obj) (rest : list Re.match_obj) :
  In (metric, keywords) financial_terms ->
  keywords = before ++ kw :: after ->
  (forall k, In k before -> Re.finditer (money_pattern k) text = []) ->
  Re.finditer (money_pattern kw) text = m :: rest ->
  PyDict.get metric (extract_financial_metrics text)
    = Some (VStr (format_value m))
  /\ hd_error (category_matches text keywords) = Some m
  /\ (forall m', In m' rest -> Re.m_start m < Re.m_start m')
  /\ (forall text', category_matches text' keywords = [] ->
        PyDict.get metric (extract_financial_metrics text') = None).
Proof.
  intros Hterm -> Hnone Hkw.
  assert (Hcat : category_matches text (before ++ kw :: after)
                 = m :: rest ++ category_matches text after).
  { rewrite category_matches_first by assumption. now rewrite Hkw. }
  repeat split.
  - rewrite (metric_kept _ _ _ Hterm), find_monetary_values_matches, Hcat.
    reflexivity.
  - now rewrite Hcat.
  - now apply (finditer_first_is_earliest (money_pattern kw) text).
  - intros text' Hempty.
    rewrite (metric_kept _ _ _ Hterm), find_monetary_values_matches, Hempty.
    reflexivity.
Qed.

Lemma C4_first_match_kept_witness :
  PyDict.get "revenue"
    (extract_financial_metrics "Net sales: $5 million. Revenue: $10 million")
  = Some (VStr "$10M").
Proof.
  refine (proj1 (C4_first_match_kept
    "Net sales: $5 million. Revenue: $10 million" "revenue" "revenue"
    ["revenue"; "net sales"; "total revenue"] [] ["net sales"; "total revenue"]
    (Re.MatchObj 23 "Revenue: $10 million" (Some "10")) [] _ _ _ _)).
  - left. reflexivity.
  - reflexivity.
  - intros k [].
  - vm_compute. reflexivity.
Defined.

(** ** C5: the overall risk level *)

Lemma stability_marks (c : stability_class) :
  PyStr.contains "CONCERNING" (stability_text c)
    = match c with Concerning => true | _ => false end
  /\ PyStr.contains "STABLE" (stability_text c)
    = match c with Stable => true | _ => false end.
Proof. destruct c; split; reflexivity. Qed.

Lemma assess_financial_stability_class (text : string) :
  exists c, assess_financial_stability text = stability_text c.
Proof.
  unfold assess_financial_stability.
  destruct (Nat.ltb _ _); [now exists Stable|].
  destruct (Nat.ltb _ _); [now exists Concerning|now exists Mixed].
Qed.

Lemma calculate_overall_risk_eq
  (assessment : dict) (risks market : list string) (c : stability_class) :
  PyDict.get "identified_risks" assessment = Some (VList risks) ->
  PyDict.get "market_risks" assessment = Some (VList market) ->
  PyDict.get "financial_stability" assessment = Some (VStr (stability_text c)) ->
  calculate_overall_risk assessment
    = risk_level_spec (risk_score_spec (length risks) (length market) c).
Proof.
  intros Hr Hm Hs.
  unfold calculate_overall_risk, PyDict.get_default.
  rewrite Hr, Hm, Hs. cbn [py_len py_in].
  destruct (stability_marks c) as [-> ->].
  unfold risk_score_spec, risk_level_spec.
  destruct c; rewrite ?Z.add_0_r; reflexivity.
Qed.

(** The level that [assess_risks] stores is the one computed from its own
    three findings; the provisional "MEDIUM" never survives. *)
Lemma assess_risks_overall_level (text : string) :
  PyStr.truthy text = true -> PyStr.startswith "Error:" text = false ->
  exists c,
    assess_financial_stability text = stability_text c
    /\ PyDict.get "overall_risk_level" (assess_risks text)
       = Some (VStr (risk_level_spec
                       (risk_score_spec (length (identify_risks text))
                                        (length (assess_market_risks text)) c))).
Proof.
  intros Ht He.
  destruct (assess_financial_stability_class text) as [c Hc].
  exists c. split; [exact Hc|].
  unfold assess_risks, assess_risks_with. rewrite Ht, He. cbn [negb orb].
  rewrite Hc.
  rewrite (calculate_overall_risk_eq _ (identify_risks text)
             (assess_market_risks text) c); reflexivity.
Qed.

(** C5.  [calculate_overall_risk] depends on the assessment only through the
    number of identified risks, the number of market risks and the stability
    classification: the score is their sum, plus 3 for CONCERNING, minus 1
    for STABLE, unchanged for MIXED (so it can be negative); the level is LOW
    up to 3, MEDIUM from 4 to 7 and HIGH from 8 on. *)
Theorem C5_overall_risk
  (assessment : dict) (risks market : list string) (c : stability_class) :
  PyDict.get "identified_risks" assessment = Some (VList risks) ->
  PyDict.get "market_risks" assessment = Some (VList market) ->
  PyDict.get "financial_stability" assessment = Some (VStr (stability_text c)) ->
  calculate_overall_risk assessment
    = risk_level_spec (risk_score_spec (length risks) (length market) c)
  /\ (forall score,
        (score <= 3 -> risk_level_spec score = "LOW")
        /\ (3 < score <= 7 -> risk_level_spec score = "MEDIUM")
        /\ (7 < score -> risk_level_spec score = "HIGH"))%Z
  /\ risk_level_spec 3 = "LOW" /\ risk_level_spec 4 = "MEDIUM"
  /\ risk_level_spec 7 = "MEDIUM" /\ risk_level_spec 8 = "HIGH"
  /\ risk_score_spec 0 0 Stable = (-1)%Z.
Proof.
  intros Hr Hm Hs. split; [|split; [|repeat split]].
  - now apply calculate_overall_risk_eq.
  - intros score. unfold risk_level_spec.
    destruct (Z.leb_spec score 3), (Z.leb_spec score 7);
      repeat split; intros; try reflexivity; lia.
Qed.

Lemma C5_overall_risk_witness :
  calculate_overall_risk
    [ ("overall_risk_level", VStr "MEDIUM");
      ("identified_risks", VList ["Debt concerns mentioned"; "Liquidity concerns mentioned"]);
      ("financial_stability", VStr CONCERNING);
      ("market_risks", VList ["Market volatility concerns"; "Regulatory change risks"; "Competitive pressure identified"]);
      ("recommendations", VList []) ]
  = "HIGH".
Proof.
  refine (proj1 (C5_overall_risk
    [ ("overall_risk_level", VStr "MEDIUM");
      ("identified_risks", VList ["Debt concerns mentioned"; "Liquidity concerns mentioned"]);
      ("financial_stability", VStr CONCERNING);
      ("market_risks", VList ["Market volatility concerns"; "Regulatory change risks"; "Competitive pressure identified"]);
      ("recommendations", VList []) ]
    ["Debt concerns mentioned"; "Liquidity concerns mentioned"]
    ["Market volatility concerns"; "Regulatory change risks"; "Competitive pressure identified"]
    Concerning _ _ _)); reflexivity.
Defined.

(** ** C6: the recommendation scorer *)

Lemma lower_length (s : string) :
  String.length (PyStr.lower s) = String.length s.
Proof. induction s; simpl; congruence. Qed.

Lemma count_from_le_length (sub s : string) :
  PyStr.truthy sub = true ->
  forall skip, PyStr.count_from sub s skip <= String.length s.
Proof.
  intros Hsub. induction s as [|c r IH]; intros skip.
  - simpl. destruct sub; [discriminate|]. lia.
  - cbn [PyStr.count_from String.length].
    destruct skip as [|k].
    + destruct (PyStr.startswith sub (String c r)).
      * specialize (IH (Nat.pred (String.length sub))). lia.
      * specialize (IH 0). lia.
    + specialize (IH k). lia.
Qed.

Lemma count_terms_le (terms : list string) (s : string) :
  forallb PyStr.truthy terms = true ->
  count_terms terms s <= length terms * String.length s.
Proof.
  unfold count_terms.
  induction terms as [|t l IH]; intros H; [simpl; lia|].
  cbn [forallb] in H. apply andb_true_iff in H as [Ht Hl]. specialize (IH Hl).
  pose proof (count_from_le_length t s Ht 0) as Hc.
  fold (PyStr.count t s) in Hc.
  change (list_sum (map (fun term => PyStr.count term s) (t :: l)))
    with (PyStr.count t s + list_sum (map (fun term => PyStr.count term s) l)).
  change (length (t :: l)) with (S (length l)). lia.
Qed.

(** C6.  The scorer counts, in the lowered text, the occurrences of the five
    positive and the five negative terms as substrings (inside longer words
    too), and compares the totals: POSITIVE when the positive count exceeds
    1.2 times the negative count (written [6 * negative < 5 * positive]),
    CAUTIOUS when the negative count exceeds 1.2 times the positive count,
    NEUTRAL otherwise; equal counts give NEUTRAL, 6 against 1 gives POSITIVE.
    The product by 1.2 is a binary64 product; it decides as the exact product
    does for every text shorter than 2^47 characters. *)
Theorem C6_recommendation (text : string) :
  (Z.of_nat (String.length text) < 2 ^ 47)%Z ->
  let positive :=
    Z.of_nat (count_terms ["growth"; "increased"; "improved"; "strong"; "expansion"]
                (PyStr.lower text)) in
  let negative :=
    Z.of_nat (count_terms ["declined"; "decreased"; "loss"; "challenging"; "restructuring"]
                (PyStr.lower text)) in
  ((6 * negative < 5 * positive)%Z -> generate_recommendation text = POSITIVE)
  /\ ((6 * positive < 5 * negative)%Z -> generate_recommendation text = CAUTIOUS)
  /\ (~ (6 * negative < 5 * positive)%Z -> ~ (6 * positive < 5 * negative)%Z ->
      generate_recommendation text = NEUTRAL)
  /\ (positive = negative -> generate_recommendation text = NEUTRAL)
  /\ (positive = 6%Z -> negative = 1%Z -> generate_recommendation text = POSITIVE).
Proof.
  intros Hlen positive negative.
  assert (Hp : (0 <= positive < 2 ^ 50)%Z).
  { unfold positive.
    pose proof (count_terms_le
      ["growth"; "increased"; "improved"; "strong"; "expansion"]
      (PyStr.lower text) eq_refl) as H.
    rewrite lower_length in H. cbn [length] in H.
    change (2 ^ 47)%Z with 140737488355328%Z in Hlen.
    change (2 ^ 50)%Z with 1125899906842624%Z. lia. }
  assert (Hn : (0 <= negative < 2 ^ 50)%Z).
  { unfold negative.
    pose proof (count_terms_le
      ["declined"; "decreased"; "loss"; "challenging"; "restructuring"]
      (PyStr.lower text) eq_refl) as H.
    rewrite lower_length in H. cbn [length] in H.
    change (2 ^ 47)%Z with 140737488355328%Z in Hlen.
    change (2 ^ 50)%Z with 1125899906842624%Z. lia. }
  assert (E : generate_recommendation text
              = if (6 * negative <? 5 * positive)%Z then POSITIVE
                else if (6 * positive <? 5 * negative)%Z then CAUTIOUS
                else NEUTRAL).
  { unfold generate_recommendation, positive_indicators, negative_indicators.
    fold positive negative.
    now rewrite (int_gt_mul_1_2 negative positive Hn),
      (int_gt_mul_1_2 positive negative Hp). }
  rewrite E.
  destruct (Z.ltb_spec (6 * negative) (5 * positive)),
    (Z.ltb_spec (6 * positive) (5 * negative));
    repeat split; intros; try reflexivity; exfalso; lia.
Qed.

Lemma C6_recommendation_witness :
  generate_recommendation
    "Growth in Asia, growth in Europe, outgrowth of GROWTH; regrowth, growth. Margins declined."
  = POSITIVE.
Proof.
  refine (proj2 (proj2 (proj2 (proj2 (C6_recommendation
    "Growth in Asia, growth in Europe, outgrowth of GROWTH; regrowth, growth. Margins declined."
    _)))) _ _); reflexivity.
Defined.

(** ** C7: identified risks *)

Lemma risk_labels :
  map risk_label risk_keywords
  = [ "Debt concerns mentioned"; "Liquidity concerns mentioned";
      "Competition concerns mentioned"; "Regulatory concerns mentioned";
      "Market Volatility concerns mentioned"; "Credit Risk concerns mentioned";
      "Operational Risk concerns mentioned"; "Litigation concerns mentioned";
      "Compliance concerns mentioned" ].
Proof. reflexivity. Qed.

Lemma risk_labels_NoDup :
  NoDup (map risk_label risk_keywords ++ [risk_section_marker]).
Proof.
  rewrite risk_labels. unfold risk_section_marker. simpl.
  repeat constructor; simpl; intuition discriminate.
Qed.

Lemma identify_risks_eq (text : string) :
  identify_risks text
  = map risk_label
      (filter (fun kw => PyStr.contains kw (PyStr.lower text)) risk_keywords)
    ++ (if risk_section_found text then [risk_section_marker] else []).
Proof.
  unfold identify_risks, risk_section_found.
  rewrite (flat_map_cond (fun kw => PyStr.contains kw (PyStr.lower text))
             risk_label).
  set (labels := map risk_label (filter _ risk_keywords)).
  assert (Hlen : length labels <= 9).
  { unfold labels. rewrite length_map.
    etransitivity; [apply filter_length_le|]. simpl. lia. }
  destruct (Re.search _ _).
  - apply firstn_all2. rewrite length_app. simpl. lia.
  - rewrite app_nil_r. apply firstn_all2. lia.
Qed.

(** C7.  [identify_risks] returns, in the order of the keyword list and not
    of the text, one label ["<Keyword title-cased> concerns mentioned"] for
    each of the 9 risk keywords that occurs in the text ignoring case, then
    the marker ["Dedicated risk factors section identified"] when the
    risk-factors-section pattern matches.  No entry is repeated, and a
    keyword's label is present exactly when the keyword occurs.  A text with
    "debt" and "competition", no other risk keyword and no risk-factors
    section gives exactly the two labels of debt and competition. *)
Theorem C7_identify_risks (text : string) :
  let present := fun kw => PyStr.contains kw (PyStr.lower text) in
  identify_risks text
    = map risk_label (filter present risk_keywords)
      ++ (if risk_section_found text then [risk_section_marker] else [])
  /\ map risk_label risk_keywords
     = [ "Debt concerns mentioned"; "Liquidity concerns mentioned";
         "Competition concerns mentioned"; "Regulatory concerns mentioned";
         "Market Volatility concerns mentioned"; "Credit Risk concerns mentioned";
         "Operational Risk concerns mentioned"; "Litigation concerns mentioned";
         "Compliance concerns mentioned" ]
  /\ NoDup (identify_risks text)
  /\ (forall kw, In kw risk_keywords ->
        (In (risk_label kw) (identify_risks text)
         <-> occurs_ignoring_case kw text))
  /\ (In risk_section_marker (identify_risks text)
      <-> risk_section_found text = true)
  /\ (occurs_ignoring_case "debt" text ->
      occurs_ignoring_case "competition" text ->
      (forall kw, In kw risk_keywords -> kw <> "debt" -> kw <> "competition" ->
                  ~ occurs_ignoring_case kw text) ->
      risk_section_found text = false ->
      identify_risks text
        = ["Debt concerns mentioned"; "Competition concerns mentioned"]).
Proof.
  intros present. pose proof (identify_risks_eq text) as E.
  fold present in E.
  pose proof risk_labels_NoDup as Hnd.
  assert (Hnd' : NoDup (map risk_label risk_keywords)).
  { now apply NoDup_app_remove_r in Hnd. }
  assert (Hmark : ~ In risk_section_marker (map risk_label risk_keywords)).
  { apply NoDup_remove_2 in Hnd. now rewrite app_nil_r in Hnd. }
  split; [exact E|]. split; [exact risk_labels|]. rewrite E.
  split; [|split; [|split]].
  - destruct (risk_section_found text).
    + now apply NoDup_map_filter_app.
    + rewrite <- (app_nil_r (map risk_label risk_keywords)) in Hnd'.
      now apply NoDup_map_filter_app.
  - intros kw Hkw. rewrite <- contains_lower_iff. fold (present kw).
    rewrite in_app_iff. split.
    + intros [Hin|Hin].
      * apply in_map_iff in Hin as (kw' & Hl & Hin).
        apply filter_In in Hin as [Hin Hp].
        now rewrite <- (NoDup_map_injective risk_label _ _ _ Hnd' Hin Hkw Hl).
      * exfalso. apply Hmark.
        destruct (risk_section_found text); [|contradiction].
        destruct Hin as [Hin|[]]. rewrite Hin. now apply in_map.
    + intros Hp. left. apply in_map, filter_In. now split.
  - rewrite in_app_iff. split.
    + intros [Hin|Hin].
      * exfalso. apply Hmark. now apply in_map_filter in Hin.
      * destruct (risk_section_found text); [reflexivity|contradiction].
    + intros ->. right. now left.
  - intros Hd Hc Hothers ->.
    apply contains_lower_iff in Hd, Hc. fold (present "debt") in Hd.
    fold (present "competition") in Hc.
    assert (Hno : forall kw, In kw risk_keywords -> kw <> "debt" ->
                             kw <> "competition" -> present kw = false).
    { intros kw H1 H2 H3. destruct (present kw) eqn:Hp; [|reflexivity].
      exfalso. apply (Hothers kw H1 H2 H3). now apply contains_lower_iff. }
    unfold risk_keywords in *. cbn [filter]. rewrite Hd, Hc.
    rewrite !Hno; try (intro; discriminate);
      try (simpl; intuition congruence).
Qed.

Lemma C7_identify_risks_witness :
  identify_risks "Debt grew; COMPETITION stayed."
  = ["Debt concerns mentioned"; "Competition concerns mentioned"].
Proof.
  apply (C7_identify_risks "Debt grew; COMPETITION stayed.").
  - exists "", "Debt", " grew; COMPETITION stayed.". split; reflexivity.
  - exists "Debt grew; ", "COMPETITION", " stayed.". split; reflexivity.
  - intros kw Hin Hd Hc Hocc. apply contains_lower_iff in Hocc.
    simpl in Hin.
    repeat (destruct Hin as [<-|Hin]; [try congruence; discriminate Hocc|]).
    contradiction.
  - reflexivity.
Defined.

(** ** C8: the length caps *)

(** C8.  For every text, [extract_highlights] returns at most 5 entries,
    [identify_risks] at most 10 and [generate_risk_recommendations] at most
    6. *)
Theorem C8_length_caps (text : string) :
  length (extract_highlights text) <= 5
  /\ length (identify_risks text) <= 10
  /\ length (generate_risk_recommendations text) <= 6.
Proof.
  unfold extract_highlights, identify_risks, generate_risk_recommendations.
  repeat split; apply firstn_le_length.
Qed.

(** ** C9: the document classifier *)

(** C9 (counterexample).  For the empty text the company name stored is
    not the string "not identified". *)
Lemma C9_counterexample :
  PyDict.get "company_name" (extract_document_info "")
    <> Some (VStr "not identified").
Proof. vm_compute. discriminate. Qed.

Lemma document_type_of (text : string) :
  let has := fun marker => PyStr.contains marker (PyStr.lower text) in
  PyDict.get "document_type" (extract_document_info text)
  = Some (VStr (if has "annual report" || has "10-k" then "Annual Report"
                else if has "quarterly" || has "10-q" then "Quarterly Report"
                else if has "earnings" then "Earnings Report"
                else "Financial Document")).
Proof.
  intros has. unfold extract_document_info. fold (has "annual report").
  fold (has "10-k"). fold (has "quarterly"). fold (has "10-q").
  fold (has "earnings").
  destruct (Re.search _ _);
    destruct (has "annual report" || has "10-k");
    destruct (has "quarterly" || has "10-q");
    destruct (has "earnings"); reflexivity.
Qed.

(** C9 (amended).  The document type is decided by the first rule that
    applies, searching the text ignoring case: "annual report" or "10-k"
    gives "Annual Report" (AnnualReport); otherwise "quarterly" or "10-q"
    gives "Quarterly Report" (QuarterlyReport); otherwise "earnings" gives
    "Earnings Report" (EarningsReport); otherwise "Financial Document"
    (GenericFinancialDocument).  For the empty text the type is
    "Financial Document" and the company name is the placeholder
    "Not identified", with a capital N. *)
Theorem C9_document_type (text : string) :
  let occurs := fun marker => occurs_ignoring_case marker text in
  let doc_type := PyDict.get "document_type" (extract_document_info text) in
  (occurs "annual report" \/ occurs "10-k" ->
     doc_type = Some (VStr "Annual Report"))
  /\ (~ (occurs "annual report" \/ occurs "10-k") ->
      occurs "quarterly" \/ occurs "10-q" ->
      doc_type = Some (VStr "Quarterly Report"))
  /\ (~ (occurs "annual report" \/ occurs "10-k") ->
      ~ (occurs "quarterly" \/ occurs "10-q") ->
      occurs "earnings" ->
      doc_type = Some (VStr "Earnings Report"))
  /\ (~ (occurs "annual report" \/ occurs "10-k") ->
      ~ (occurs "quarterly" \/ occurs "10-q") ->
      ~ occurs "earnings" ->
      doc_type = Some (VStr "Financial Document"))
  /\ PyDict.get "document_type" (extract_document_info "")
       = Some (VStr "Financial Document")
  /\ PyDict.get "company_name" (extract_document_info "")
       = Some (VStr "Not identified").
Proof.
  intros occurs doc_type. unfold doc_type. rewrite document_type_of.
  unfold occurs. rewrite <- !contains_lower_iff.
  destruct (PyStr.contains "annual report" _), (PyStr.contains "10-k" _),
    (PyStr.contains "quarterly" _), (PyStr.contains "10-q" _),
    (PyStr.contains "earnings" _); simpl;
    repeat split; intros; try reflexivity;
    repeat match goal with
      | H : ~ _ |- _ => exfalso; apply H; clear H; auto
      | H : _ \/ _ |- _ => destruct H
      end; try discriminate.
Qed.

Lemma C9_document_type_witness :
  PyDict.get "document_type"
    (extract_document_info "Form 10-K with quarterly earnings tables")
  = Some (VStr "Annual Report").
Proof.
  apply (C9_document_type "Form 10-K with quarterly earnings tables").
  right. exists "Form ", "10-K", " with quarterly earnings tables".
  split; reflexivity.
Defined.

(** ** C10: market risks *)

Lemma market_descriptions_NoDup : NoDup (map snd market_risk_terms ++ []).
Proof.
  simpl. repeat constructor; simpl; intuition discriminate.
Qed.

Lemma market_terms_NoDup : NoDup (map fst market_risk_terms).
Proof.
  simpl. repeat constructor; simpl; intuition discriminate.
Qed.

(** C10.  For every text, [assess_market_risks] returns the descriptions of
    the table rows whose term occurs in the text ignoring case, in table
    order: a duplicate-free list of at most 4 of the 4 fixed descriptions,
    each present exactly when its term occurs. *)
Theorem C10_market_risks (text : string) :
  assess_market_risks text
    = map snd (filter (fun item => PyStr.contains (fst item) (PyStr.lower text))
                      market_risk_terms)
  /\ NoDup (assess_market_risks text)
  /\ length (assess_market_risks text) <= 4
  /\ (forall d, In d (assess_market_risks text) ->
        In d [ "Competitive pressure identified"; "Market volatility concerns";
               "Economic uncertainty factors"; "Regulatory change risks" ])
  /\ (forall term d, In (term, d) market_risk_terms ->
        (In d (assess_market_risks text) <-> occurs_ignoring_case term text)).
Proof.
  assert (E : assess_market_risks text
    = map snd (filter (fun item => PyStr.contains (fst item) (PyStr.lower text))
                      market_risk_terms)).
  { unfold assess_market_risks.
    apply (flat_map_cond
             (fun item => PyStr.contains (fst item) (PyStr.lower text)) snd). }
  split; [exact E|]. rewrite E. repeat split.
  - rewrite <- (app_nil_r (map snd _)).
    apply NoDup_map_filter_app, market_descriptions_NoDup.
  - rewrite length_map.
    etransitivity; [apply filter_length_le|]. simpl. lia.
  - intros d Hd. apply in_map_filter in Hd. exact Hd.
  - intros Hin. apply in_map_iff in Hin as ([term' d'] & Hd & Hin').
    apply filter_In in Hin' as [Hin' Hp]. simpl in Hd, Hp. subst d'.
    assert (term' = term) as ->.
    { pose proof market_descriptions_NoDup as Hnd. rewrite app_nil_r in Hnd.
      pose proof (NoDup_map_injective snd _ _ _ Hnd Hin' H eq_refl) as Heq.
      congruence. }
    now apply contains_lower_iff.
  - intros Hocc. apply contains_lower_iff in Hocc.
    apply in_map_iff. exists (term, d). split; [reflexivity|].
    apply filter_In. split; assumption.
Qed.

Lemma C10_market_risks_witness :
  In "Market volatility concerns"
     (assess_market_risks "Exposure to MARKET Volatility and competition")
  <-> occurs_ignoring_case "market volatility"
        "Exposure to MARKET Volatility and competition".
Proof.
  apply (C10_market_risks "Exposure to MARKET Volatility and competition").
  simpl. right. left. reflexivity.
Defined.

(** * Further properties of the functions *)

(** ** The matcher finds what the pattern describes, and only that *)

Lemma app_empty_r (s : string) : (s ++ "")%string = s.
Proof. induction s; simpl; congruence. Qed.

Section StarSound.
Context {R : Type} (p : Re.cls).

Lemma star_greedy_sound (s : string) (k : string -> option R) (x : R) :
  Re.star_greedy p s k = Some x ->
  exists w rest, s = (w ++ rest)%string /\ PyStr.all_chars p w = true
                 /\ k rest = Some x.
Proof.
  induction s as [|c t IH]; simpl; intros H.
  - now exists "", "".
  - destruct (p c) eqn:Hp.
    + destruct (Re.star_greedy p t k) as [y|] eqn:E; simpl in H.
      * injection H as ->. destruct (IH eq_refl) as (w & rest & -> & Hw & Hk).
        exists (String c w), rest. simpl. now rewrite Hp, Hw.
      * now exists "", (String c t).
    + now exists "", (String c t).
Qed.

Lemma star_lazy_sound (s : string) (k : string -> option R) (x : R) :
  Re.star_lazy p s k = Some x ->
  exists w rest, s = (w ++ rest)%string /\ PyStr.all_chars p w = true
                 /\ k rest = Some x.
Proof.
  induction s as [|c t IH]; simpl; intros H.
  - destruct (k "") eqn:E; simpl in H; [|discriminate].
    injection H as ->. now exists "", "".
  - destruct (k (String c t)) eqn:E; simpl in H.
    + injection H as ->. now exists "", (String c t).
    + destruct (p c) eqn:Hp; [|discriminate].
      destruct (IH H) as (w & rest & -> & Hw & Hk).
      exists (String c w), rest. simpl. now rewrite Hp, Hw.
Qed.

Lemma at_most_sound (n : nat) (s : string) (k : string -> option R) (x : R) :
  Re.at_most n p s k = Some x ->
  exists w rest, s = (w ++ rest)%string /\ PyStr.all_chars p w = true
                 /\ String.length w <= n /\ k rest = Some x.
Proof.
  revert s. induction n as [|n IH]; intros s H.
  - simpl in H. exists "", s. simpl. repeat split; auto.
  - destruct s as [|c t]; simpl in H.
    + exists "", "". simpl. repeat split; auto. lia.
    + destruct (p c) eqn:Hp.
      * destruct (Re.at_most n p t k) as [y|] eqn:E; simpl in H.
        -- injection H as ->.
           destruct (IH _ E) as (w & rest & -> & Hw & Hl & Hk).
           exists (String c w), rest. simpl. rewrite Hp, Hw.
           repeat split; auto. lia.
        -- exists "", (String c t). simpl. repeat split; auto. lia.
      * exists "", (String c t). simpl. repeat split; auto. lia.
Qed.

End StarSound.

Lemma rmatch_sound (r : Re.regex) :
  forall (R : Type) (s : string) (cap : Re.capture)
         (k : string -> Re.capture -> option R) (x : R),
    Re.rmatch r s cap k = Some x ->
    exists w rest cap',
      s = (w ++ rest)%string /\ lang r w /\ cap_post r cap w rest cap'
      /\ k rest cap' = Some x.
Proof.
  induction r as [|p|a IHa b IHb|a IHa b IHb|a IHa|p|p|n p|a IHa];
    intros R s cap k x H; simpl in H.
  - exists "", s, cap. repeat split; auto. now left.
  - destruct s as [|c t]; [discriminate|].
    destruct (p c) eqn:Hp; [|discriminate].
    exists (String c ""), t, cap. repeat split; auto.
    + now exists c.
    + now left.
  - apply IHa in H as (w1 & rest1 & cap1 & -> & La & Ca & H).
    apply IHb in H as (w2 & rest & cap' & -> & Lb & Cb & H).
    exists (w1 ++ w2)%string, rest, cap'. rewrite string_app_assoc.
    repeat split; auto.
    + now exists w1, w2.
    + destruct Cb as [[Sb ->]|(u1 & g & u2 & c & -> & -> & Hin & Lg)].
      * destruct Ca as [[Sa ->]|(u1 & g & u2 & c & -> & -> & Hin & Lg)].
        -- left. simpl. now rewrite Sa, Sb.
        -- right. exists u1, g, (u2 ++ w2)%string, c.
           rewrite !string_app_assoc. repeat split; auto.
           simpl. apply in_or_app. now left.
      * right. exists (w1 ++ u1)%string, g, u2, c.
        rewrite !string_app_assoc. repeat split; auto.
        simpl. apply in_or_app. now right.
  - destruct (Re.rmatch a s cap k) as [y|] eqn:E; simpl in H.
    + injection H as ->.
      apply IHa in E as (w & rest & cap' & -> & La & Ca & H).
      exists w, rest, cap'. repeat split; auto; [now left|].
      destruct Ca as [[Sa ->]|(u1 & g & u2 & c & -> & -> & Hin & Lg)].
      * left. simpl. now rewrite Sa.
      * right. exists u1, g, u2, c. repeat split; auto.
        simpl. apply in_or_app. now left.
    + apply IHb in H as (w & rest & cap' & -> & Lb & Cb & H).
      exists w, rest, cap'. repeat split; auto; [now right|].
      destruct Cb as [[Sb ->]|(u1 & g & u2 & c & -> & -> & Hin & Lg)].
      * left. simpl. rewrite Sb. now rewrite andb_false_r.
      * right. exists u1, g, u2, c. repeat split; auto.
        simpl. apply in_or_app. now right.
  - destruct (Re.rmatch a s cap k) as [y|] eqn:E; simpl in H.
    + injection H as ->.
      apply IHa in E as (w & rest & cap' & -> & La & Ca & H).
      exists w, rest, cap'. repeat split; auto; [now right|].
      destruct Ca as [[Sa ->]|(u1 & g & u2 & c & -> & -> & Hin & Lg)].
      * now left.
      * right. now exists u1, g, u2, c.
    + exists "", s, cap. repeat split; auto; now left.
  - apply star_greedy_sound in H as (w & rest & -> & Hw & H).
    exists w, rest, cap. repeat split; auto. now left.
  - apply star_lazy_sound in H as (w & rest & -> & Hw & H).
    exists w, rest, cap. repeat split; auto. now left.
  - apply at_most_sound in H as (w & rest & -> & Hw & Hl & H).
    exists w, rest, cap. repeat split; auto. now left.
  - apply IHa in H as (w & rest & cap1 & -> & La & Ca & H).
    exists w, rest, (Some ((w ++ rest)%string, rest)). repeat split; auto.
    right. exists "", w, "", a. simpl. rewrite app_empty_r.
    repeat split; auto.
Qed.

Section Complete.
Context {R : Type} (p : Re.cls).

Lemma or_else_some (a : option R) (b : unit -> option R) :
  b tt <> None -> Re.or_else a b <> None.
Proof. destruct a; simpl; [discriminate|auto]. Qed.

Lemma or_else_some_l (a : option R) (b : unit -> option R) :
  a <> None -> Re.or_else a b <> None.
Proof. destruct a; simpl; [discriminate|congruence]. Qed.

Lemma star_greedy_complete (w rest : string) (k : string -> option R) :
  PyStr.all_chars p w = true -> k rest <> None ->
  Re.star_greedy p (w ++ rest) k <> None.
Proof.
  intros Hw Hk. induction w as [|c w IH]; simpl in *.
  - destruct rest as [|c t]; simpl; [assumption|].
    destruct (p c); [|assumption]. now apply or_else_some.
  - apply andb_true_iff in Hw as [Hc Hw]. rewrite Hc.
    apply or_else_some_l. now apply IH.
Qed.

Lemma star_lazy_complete (w rest : string) (k : string -> option R) :
  PyStr.all_chars p w = true -> k rest <> None ->
  Re.star_lazy p (w ++ rest) k <> None.
Proof.
  intros Hw Hk. induction w as [|c w IH]; simpl in *.
  - destruct rest as [|c t]; simpl; now apply or_else_some_l.
  - apply andb_true_iff in Hw as [Hc Hw].
    destruct (k (String c (w ++ rest))); simpl; [discriminate|].
    rewrite Hc. now apply IH.
Qed.

Lemma at_most_complete (n : nat) (w rest : string) (k : string -> option R) :
  PyStr.all_chars p w = true -> String.length w <= n -> k rest <> None ->
  Re.at_most n p (w ++ rest) k <> None.
Proof.
  revert w. induction n as [|n IH]; intros w Hw Hl Hk.
  - destruct w; simpl in *; [assumption|lia].
  - destruct w as [|c w]; simpl in *.
    + destruct rest as [|c t]; [assumption|].
      destruct (p c); [|assumption]. now apply or_else_some.
    + apply andb_true_iff in Hw as [Hc Hw]. rewrite Hc.
      apply or_else_some_l. apply IH; auto. lia.
Qed.

End Complete.

Lemma rmatch_complete (r : Re.regex) :
  forall (R : Type) (w rest : string) (cap : Re.capture)
         (k : string -> Re.capture -> option R),
    lang r w -> (forall cap', k rest cap' <> None) ->
    Re.rmatch r (w ++ rest) cap k <> None.
Proof.
  induction r as [|p|a IHa b IHb|a IHa b IHb|a IHa|p|p|n p|a IHa];
    intros R w rest cap k L Hk; simpl in L |- *.
  - subst w. apply Hk.
  - destruct L as (c & -> & Hp). simpl. rewrite Hp. apply Hk.
  - destruct L as (w1 & w2 & -> & La & Lb). rewrite string_app_assoc.
    apply IHa; [assumption|]. intros cap'. now apply IHb.
  - destruct L as [La|Lb].
    + apply or_else_some_l. now apply IHa.
    + apply or_else_some. now apply IHb.
  - destruct L as [->|La].
    + apply or_else_some. apply Hk.
    + apply or_else_some_l. now apply IHa.
  - apply star_greedy_complete; auto.
  - apply star_lazy_complete; auto.
  - destruct L as [Hw Hl]. apply at_most_complete; auto.
  - apply IHa; [assumption|]. intros _. apply Hk.
Qed.

Lemma length_app_s (a b : string) :
  String.length (a ++ b) = String.length a + String.length b.
Proof. induction a; simpl; congruence. Qed.

Lemma take_app_s (w rest : string) :
  PyStr.take (String.length w) (w ++ rest) = w.
Proof. induction w; simpl; [now destruct rest|congruence]. Qed.

Lemma span_app (w rest : string) : Re.span (w ++ rest) rest = w.
Proof.
  unfold Re.span. rewrite length_app_s.
  replace (String.length w + String.length rest - String.length rest)
    with (String.length w) by lia.
  apply take_app_s.
Qed.

Lemma match_at_sound (r : Re.regex) (pos : nat) (s : string) (m : Re.match_obj) :
  Re.match_at r pos s = Some m ->
  exists rest,
    s = (Re.group0 m ++ rest)%string /\ lang r (Re.group0 m)
    /\ Re.m_start m = pos
    /\ group1_post r (Re.group0 m) (Re.group1 m).
Proof.
  unfold Re.match_at, Re.match_here.
  destruct (Re.rmatch r s None _) as [[rest cap]|] eqn:E; [|discriminate].
  intros H. injection H as <-. cbn [Re.group0 Re.group1 Re.m_start].
  apply rmatch_sound in E as (w & rest' & cap' & -> & L & C & H).
  injection H as -> ->. rewrite span_app.
  exists rest. repeat split; auto.
  destruct C as [[S ->]|(w1 & g & w2 & a & -> & -> & Hin & Lg)].
  - now left.
  - right. exists w1, g, w2, a. cbn [option_map fst snd].
    rewrite span_app. repeat split; auto.
Qed.

Lemma match_at_complete (r : Re.regex) (pos : nat) (w rest : string) :
  lang r w -> Re.match_at r pos (w ++ rest) <> None.
Proof.
  intros L. unfold Re.match_at, Re.match_here.
  destruct (Re.rmatch r (w ++ rest) None _) as [[rest' cap]|] eqn:E;
    [discriminate|].
  exfalso. revert E. apply rmatch_complete; [assumption|]. discriminate.
Qed.

Lemma match_at_pos_irrelevant (r : Re.regex) (pos pos' : nat) (s : string) :
  Re.match_at r pos s = None -> Re.match_at r pos' s = None.
Proof.
  unfold Re.match_at. destruct (Re.match_here r s) as [[rest cap]|];
    [discriminate|reflexivity].
Qed.

Section Scan.
Variable r : Re.regex.

Lemma search_from_sound (s : string) :
  forall pos m, Re.search_from r pos s = Some m ->
    exists pre post,
      s = (pre ++ Re.group0 m ++ post)%string /\ lang r (Re.group0 m)
      /\ Re.m_start m = pos + String.length pre
      /\ group1_post r (Re.group0 m) (Re.group1 m).
Proof.
  induction s as [|c t IH]; intros pos m H; simpl in H.
  - destruct (Re.match_at r pos "") eqn:E; [|discriminate].
    injection H as ->.
    apply match_at_sound in E as (rest & E & L & P & G).
    exists "", rest. simpl. repeat split; auto; lia.
  - destruct (Re.match_at r pos (String c t)) eqn:E.
    + injection H as ->.
      apply match_at_sound in E as (rest & E & L & P & G).
      exists "", rest. simpl. repeat split; auto; lia.
    + apply IH in H as (pre & post & -> & L & P & G).
      exists (String c pre), post. simpl. repeat split; auto. lia.
Qed.

Lemma search_from_head (pos : nat) (s : string) :
  Re.match_at r pos s <> None -> Re.search_from r pos s <> None.
Proof. destruct s; simpl; destruct (Re.match_at r pos _); congruence. Qed.

Lemma search_from_complete (pre w post : string) :
  lang r w -> forall pos, Re.search_from r pos (pre ++ w ++ post) <> None.
Proof.
  intros L. induction pre as [|c pre IH]; intros pos.
  - simpl. now apply search_from_head, match_at_complete.
  - simpl. destruct (Re.match_at r pos _); [discriminate|]. apply IH.
Qed.

Lemma finditer_from_sound (s : string) :
  forall pos skip m, In m (Re.finditer_from r pos skip s) ->
    exists pre post,
      s = (pre ++ Re.group0 m ++ post)%string /\ lang r (Re.group0 m)
      /\ Re.m_start m = pos + String.length pre
      /\ group1_post r (Re.group0 m) (Re.group1 m).
Proof.
  induction s as [|c t IH]; intros pos skip m H; simpl in H.
  - destruct skip; [|contradiction].
    destruct (Re.match_at r pos "") eqn:E; [|contradiction].
    destruct H as [<-|[]].
    apply match_at_sound in E as (rest & E & L & P & G).
    exists "", rest. simpl. repeat split; auto; lia.
  - assert (Hrec : forall pos' skip', In m (Re.finditer_from r pos' skip' t) ->
                   pos' = S pos ->
                   exists pre post,
                     String c t = (pre ++ Re.group0 m ++ post)%string
                     /\ lang r (Re.group0 m)
                     /\ Re.m_start m = pos + String.length pre
                     /\ group1_post r (Re.group0 m) (Re.group1 m)).
    { intros pos' skip' Hin ->. apply IH in Hin as (pre & post & -> & L & P & G).
      exists (String c pre), post. simpl. repeat split; auto. lia. }
    destruct skip as [|k]; [|now apply (Hrec _ _ H)].
    destruct (Re.match_at r pos (String c t)) eqn:E;
      [|now apply (Hrec _ _ H)].
    destruct H as [<-|H]; [|now apply (Hrec _ _ H)].
    apply match_at_sound in E as (rest & E & L & P & G).
    exists "", rest. simpl. repeat split; auto; lia.
Qed.



Lemma search_some_iff (s : string) :
  Re.search r s <> None <-> pattern_occurs r s.
Proof.
  unfold Re.search, pattern_occurs. split.
  - destruct (Re.search_from r 0 s) as [m|] eqn:E; [|congruence].
    intros _. apply search_from_sound in E as (pre & post & -> & L & _).
    now exists pre, (Re.group0 m), post.
  - intros (pre & w & post & -> & L). now apply search_from_complete.
Qed.


End Scan.

(** ** [clean_text]: only whitespace changes *)

Lemma class_sub_ok (p q : Re.cls) :
  class_sub p q = true -> forall c, p c = true -> q c = true.
Proof.
  unfold class_sub. intros H c Hc. rewrite forallb_forall in H.
  specialize (H (nat_of_ascii c)). cbv zeta in H.
  rewrite ascii_nat_embedding, Hc in H. apply H, in_seq.
  pose proof (nat_ascii_bounded c). lia.
Qed.

Lemma all_chars_app (p : Re.cls) (a b : string) :
  PyStr.all_chars p (a ++ b)
  = PyStr.all_chars p a && PyStr.all_chars p b.
Proof. induction a; simpl; [reflexivity|]. now rewrite IHa, andb_assoc. Qed.

Lemma all_chars_weaken (p q : Re.cls) (w : string) :
  (forall c, p c = true -> q c = true) ->
  PyStr.all_chars p w = true -> PyStr.all_chars q w = true.
Proof.
  intros Hpq. induction w as [|c w IH]; simpl; [reflexivity|].
  intros H. apply andb_true_iff in H as [Hc Hw]. now rewrite (Hpq c Hc), IH.
Qed.

Lemma within_lang (q : Re.cls) (r : Re.regex) :
  within q r = true -> forall w, lang r w -> PyStr.all_chars q w = true.
Proof.
  induction r as [|p|a IHa b IHb|a IHa b IHb|a IHa|p|p|n p|a IHa];
    simpl; intros H w L.
  - now subst.
  - destruct L as (c & -> & Hc). simpl.
    now rewrite (class_sub_ok _ _ H c Hc).
  - apply andb_true_iff in H as [Ha Hb].
    destruct L as (w1 & w2 & -> & La & Lb).
    now rewrite all_chars_app, (IHa Ha), (IHb Hb).
  - apply andb_true_iff in H as [Ha Hb]. destruct L; auto.
  - destruct L as [->|L]; auto.
  - eapply all_chars_weaken; [apply class_sub_ok, H|assumption].
  - eapply all_chars_weaken; [apply class_sub_ok, H|assumption].
  - destruct L as [L _].
    eapply all_chars_weaken; [apply class_sub_ok, H|assumption].
  - auto.
Qed.

Lemma match_here_sound (r : Re.regex) (s rest : string) (cap : Re.capture) :
  Re.match_here r s = Some (rest, cap) ->
  exists w, s = (w ++ rest)%string /\ lang r w.
Proof.
  unfold Re.match_here. intros H.
  apply rmatch_sound in H as (w & rest' & cap' & -> & L & _ & H).
  injection H as -> _. now exists w.
Qed.

Lemma nonspace_app (a b : string) :
  nonspace (a ++ b) = (nonspace a ++ nonspace b)%string.
Proof.
  induction a as [|c a IH]; simpl; [reflexivity|].
  destruct (PyStr.isspace c); simpl; now rewrite IH.
Qed.

Lemma nonspace_whitespace (s : string) :
  PyStr.all_chars PyStr.isspace s = true <-> nonspace s = "".
Proof.
  induction s as [|c s IH]; simpl; [tauto|].
  destruct (PyStr.isspace c); simpl; [assumption|].
  split; discriminate.
Qed.

Section SubWhitespace.
Variables (r : Re.regex) (repl : string).
Hypothesis Hr : within PyStr.isspace r = true.
Hypothesis Hrepl : PyStr.all_chars PyStr.isspace repl = true.

Lemma sub_from_nonspace (s : string) :
  forall skip,
    PyStr.all_chars PyStr.isspace (PyStr.take skip s) = true ->
    nonspace (sub_from r repl skip s) = nonspace s.
Proof.
  induction s as [|c t IH]; intros skip Hskip.
  - destruct skip; simpl; [|reflexivity].
    destruct (Re.match_here r "") as [[rest cap]|]; [|reflexivity].
    rewrite nonspace_app. apply nonspace_whitespace in Hrepl.
    now rewrite Hrepl.
  - destruct skip as [|k].
    + cbn [sub_from].
      destruct (Re.match_here r (String c t)) as [[rest cap]|] eqn:E.
      * apply match_here_sound in E as (w & E & L).
        pose proof (within_lang _ _ Hr _ L) as Hw.
        rewrite nonspace_app.
        apply nonspace_whitespace in Hrepl. rewrite Hrepl. cbn [append].
        destruct w as [|c' w]; simpl in E.
        -- subst rest. rewrite Nat.sub_diag. cbn [nonspace].
           now rewrite (IH 0 eq_refl).
        -- injection E as -> ->.
           simpl in Hw. apply andb_true_iff in Hw as [Hc Hw].
           cbn [String.length]. rewrite length_app_s.
           replace (S (String.length w + String.length rest) - String.length rest)
             with (S (String.length w)) by lia.
           cbn [nonspace]. rewrite Hc. apply IH.
           now rewrite take_app_s.
      * cbn [nonspace]. now rewrite (IH 0 eq_refl).
    + cbn [sub_from nonspace]. simpl in Hskip.
      apply andb_true_iff in Hskip as [Hc Hk]. rewrite Hc. now apply IH.
Qed.

Lemma re_sub_nonspace (s : string) : nonspace (re_sub r repl s) = nonspace s.
Proof. apply sub_from_nonspace. reflexivity. Qed.

End SubWhitespace.

Lemma lstrip_nonspace (s : string) : nonspace (PyStr.lstrip s) = nonspace s.
Proof.
  induction s as [|c s IH]; simpl; [reflexivity|].
  destruct (PyStr.isspace c) eqn:E; simpl; [assumption|now rewrite E].
Qed.

Lemma rstrip_nonspace (s : string) : nonspace (PyStr.rstrip s) = nonspace s.
Proof.
  induction s as [|c s IH]; simpl; [reflexivity|].
  destruct (PyStr.rstrip s) eqn:E.
  - simpl in IH. destruct (PyStr.isspace c) eqn:Hc; simpl; rewrite ?Hc; congruence.
  - cbn [nonspace] in *. now rewrite IH.
Qed.

Lemma strip_nonspace (s : string) : nonspace (PyStr.strip s) = nonspace s.
Proof. unfold PyStr.strip. now rewrite rstrip_nonspace, lstrip_nonspace. Qed.

Lemma clean_text_nonspace (text : string) :
  nonspace (clean_text text) = nonspace text.
Proof.
  unfold clean_text. destruct text as [|c t]; [reflexivity|].
  cbn [PyStr.truthy negb].
  rewrite strip_nonspace.
  rewrite !re_sub_nonspace; reflexivity.
Qed.

Lemma lstrip_whitespace (s : string) :
  PyStr.all_chars PyStr.isspace s = true -> PyStr.lstrip s = "".
Proof.
  induction s as [|c s IH]; simpl; [reflexivity|].
  intros H. apply andb_true_iff in H as [Hc Hs]. now rewrite Hc, IH.
Qed.

Lemma lstrip_head (s : string) (c : ascii) (t : string) :
  PyStr.lstrip s = String c t -> PyStr.isspace c = false.
Proof.
  induction s as [|a s IH]; simpl; [discriminate|].
  destruct (PyStr.isspace a) eqn:E; [assumption|].
  intros H. now injection H as <- _.
Qed.

Lemma rstrip_head (c : ascii) (s : string) :
  PyStr.isspace c = false ->
  exists t, PyStr.rstrip (String c s) = String c t.
Proof.
  intros Hc. simpl. destruct (PyStr.rstrip s); rewrite ?Hc; eauto.
Qed.

Lemma rstrip_last (s t : string) (c : ascii) :
  PyStr.rstrip s = (t ++ String c "")%string -> PyStr.isspace c = false.
Proof.
  revert t. induction s as [|a s IH]; intros t; simpl.
  - destruct t; discriminate.
  - destruct (PyStr.rstrip s) as [|b r] eqn:E.
    + destruct (PyStr.isspace a) eqn:Ha.
      * destruct t; discriminate.
      * destruct t as [|x t]; simpl; intros H.
        -- now injection H as <-.
        -- injection H as _ H. destruct t; discriminate.
    + destruct t as [|x t]; simpl; intros H.
      * discriminate.
      * injection H as _ H. now apply (IH t).
Qed.

Lemma strip_head (s : string) (c : ascii) (t : string) :
  PyStr.strip s = String c t -> PyStr.isspace c = false.
Proof.
  unfold PyStr.strip. destruct (PyStr.lstrip s) as [|a u] eqn:E;
    [discriminate|].
  pose proof (lstrip_head _ _ _ E) as Ha.
  destruct (rstrip_head a u Ha) as [v ->]. intros H. now injection H as <- _.
Qed.

(** X1.  [clean_text] alters whitespace only: the characters that are not
    whitespace come out as they went in and in the same order; the result is
    empty exactly for the texts without any other character; and the result
    neither begins nor ends with whitespace. *)
Theorem X1_clean_text_whitespace_only (text : string) :
  nonspace (clean_text text) = nonspace text
  /\ (clean_text text = "" <-> PyStr.all_chars PyStr.isspace text = true)
  /\ (forall c t, clean_text text = String c t -> PyStr.isspace c = false)
  /\ (forall t c, clean_text text = (t ++ String c "")%string ->
                  PyStr.isspace c = false).
Proof.
  split; [apply clean_text_nonspace|]. split; [|split].
  - split.
    + intros H. apply nonspace_whitespace.
      rewrite <- clean_text_nonspace, H. reflexivity.
    + intros H. unfold clean_text. destruct text as [|c t]; [reflexivity|].
      cbn [PyStr.truthy negb]. unfold PyStr.strip.
      rewrite lstrip_whitespace; [reflexivity|].
      apply nonspace_whitespace. rewrite !re_sub_nonspace by reflexivity.
      now apply nonspace_whitespace.
  - intros c t. unfold clean_text. destruct text; [discriminate|].
    cbn [PyStr.truthy negb]. apply strip_head.
  - intros t c. unfold clean_text. destruct text.
    + destruct t; discriminate.
    + cbn [PyStr.truthy negb]. unfold PyStr.strip. apply rstrip_last.
Qed.

Lemma X1_clean_text_whitespace_only_witness :
  clean_text (String tab (String Re.nl " ")) = "".
Proof.
  apply (proj2 (proj1 (proj2
           (X1_clean_text_whitespace_only (String tab (String Re.nl " ")))))).
  reflexivity.
Defined.

(** *** Direct forms of the second and third substitutions *)

Lemma star_greedy_total {R : Type} (p : Re.cls) (f : string -> R) (s : string) :
  Re.star_greedy p s (fun s' => Some (f s')) = Some (f (dropwhile p s)).
Proof.
  induction s as [|c t IH]; simpl; [reflexivity|].
  destruct (p c); [|reflexivity]. now rewrite IH.
Qed.

Lemma take_drop_length (p : Re.cls) (s : string) :
  String.length s
  = String.length (takewhile p s) + String.length (dropwhile p s).
Proof.
  induction s as [|c t IH]; simpl; [reflexivity|].
  destruct (p c); simpl; lia.
Qed.

Lemma match_here_blanks (c : ascii) (t : string) :
  Re.match_here blanks_pattern (String c t)
  = if blank_cls c then Some (dropwhile blank_cls t, None) else None.
Proof.
  unfold Re.match_here, blanks_pattern, Re.Plus. cbn [Re.rmatch].
  fold blank_cls. destruct (blank_cls c); [|reflexivity].
  apply (star_greedy_total blank_cls (fun s' => (s', None))).
Qed.

Lemma sub_blanks_collapse (s : string) :
  sub_from blanks_pattern " " 0 s = collapse false s
  /\ sub_from blanks_pattern " " (String.length (takewhile blank_cls s)) s
     = collapse true s.
Proof.
  induction s as [|c t [IH0 IH1]].
  - split; reflexivity.
  - assert (H0 : sub_from blanks_pattern " " 0 (String c t)
                 = collapse false (String c t)).
    { cbn [sub_from collapse]. rewrite match_here_blanks.
      destruct (blank_cls c); [|now rewrite IH0].
      cbn [String.length].
      rewrite (take_drop_length blank_cls t).
      replace (S (String.length (takewhile blank_cls t)
                  + String.length (dropwhile blank_cls t))
               - String.length (dropwhile blank_cls t))
        with (S (String.length (takewhile blank_cls t))) by lia.
      now rewrite IH1. }
    split; [exact H0|].
    cbn [takewhile collapse]. destruct (blank_cls c) eqn:E.
    + cbn [String.length sub_from]. exact IH1.
    + cbn [String.length]. rewrite H0. cbn [collapse]. now rewrite E.
Qed.

Lemma match_here_nl_space (c : ascii) (t : string) :
  Re.match_here nl_space_pattern (String c t)
  = if Ascii.eqb c Re.nl
    then match t with
         | String c2 t' => if Ascii.eqb c2 " " then Some (t', None) else None
         | EmptyString => None
         end
    else None.
Proof.
  unfold Re.match_here, nl_space_pattern. cbn [Re.rmatch]. unfold Re.chr_eq.
  rewrite (Ascii.eqb_sym Re.nl c). destruct (Ascii.eqb c Re.nl); [|reflexivity].
  destruct t as [|c2 t']; [reflexivity|].
  now rewrite (Ascii.eqb_sym " " c2).
Qed.

Lemma sub_nl_space_unindent (n : nat) :
  forall s, String.length s <= n ->
            sub_from nl_space_pattern nl_str 0 s = unindent s.
Proof.
  induction n as [|n IH]; intros s Hn.
  - destruct s; [reflexivity|simpl in Hn; lia].
  - destruct s as [|c t]; [reflexivity|]. simpl in Hn.
    cbn [sub_from unindent]. rewrite match_here_nl_space.
    destruct (Ascii.eqb c Re.nl) eqn:Ec.
    + destruct t as [|c2 t'].
      * reflexivity.
      * destruct (Ascii.eqb c2 " ") eqn:E2.
        -- cbn [String.length].
           replace (S (S (String.length t')) - String.length t') with 2 by lia.
           cbn [sub_from]. apply Ascii.eqb_eq in Ec. subst c.
           unfold nl_str. cbn [append]. f_equal. apply IH.
           simpl in Hn. lia.
        -- f_equal. apply IH. lia.
    + f_equal. apply IH. lia.
Qed.

Lemma blank_cls_spec (c : ascii) :
  blank_cls c = Ascii.eqb c " " || Ascii.eqb c tab.
Proof.
  unfold blank_cls, Re.union, Re.chr_eq.
  now rewrite (Ascii.eqb_sym " " c), (Ascii.eqb_sym tab c).
Qed.

Lemma collapse_ok2 (s : string) :
  ok2 false (collapse false s) = true /\ ok2 true (collapse true s) = true.
Proof.
  induction s as [|c t [IH0 IH1]]; [split; reflexivity|].
  cbn [collapse]. rewrite blank_cls_spec.
  destruct (Ascii.eqb c " ") eqn:Es; cbn [orb].
  - split; [|exact IH1]. cbn [ok2].
    change (Ascii.eqb " " " ") with true.
    change (Ascii.eqb " " tab) with false. now rewrite IH1.
  - destruct (Ascii.eqb c tab) eqn:Et.
    + split; [|exact IH1]. cbn [ok2].
      change (Ascii.eqb " " " ") with true.
      change (Ascii.eqb " " tab) with false. now rewrite IH1.
    + cbn [ok2]. rewrite Es, Et, IH0. split; reflexivity.
Qed.

Lemma ok2_head (ps ps' : bool) (s : string) :
  PyStr.startswith " " s = false -> ok2 ps s = ok2 ps' s.
Proof.
  destruct s as [|c t]; [reflexivity|]. cbn [PyStr.startswith ok2].
  rewrite andb_true_r, (Ascii.eqb_sym " " c). now intros ->.
Qed.

Lemma ok3_head (ps pn ps' pn' : bool) (s : string) :
  PyStr.startswith " " s = false -> ok3 ps pn s = ok3 ps' pn' s.
Proof.
  destruct s as [|c t]; [reflexivity|]. cbn [PyStr.startswith ok3].
  rewrite andb_true_r, (Ascii.eqb_sym " " c). now intros ->.
Qed.

Lemma unindent_ok3 (n : nat) :
  forall s, String.length s <= n ->
  forall ps pn, ok2 (ps || pn) s = true -> ok3 ps pn (unindent s) = true.
Proof.
  induction n as [|n IH]; intros s Hn ps pn H.
  - destruct s; [reflexivity|simpl in Hn; lia].
  - destruct s as [|c t]; [reflexivity|]. simpl in Hn.
    cbn [ok2] in H. apply andb_true_iff in H as [H Ht].
    apply andb_true_iff in H as [Htab Hsp].
    cbn [unindent]. destruct (Ascii.eqb c Re.nl) eqn:Ec.
    + apply Ascii.eqb_eq in Ec. subst c.
      change (Ascii.eqb Re.nl " ") with false in *.
      destruct t as [|c2 t'].
      * reflexivity.
      * destruct (Ascii.eqb c2 " ") eqn:E2.
        -- cbn [ok3]. change (Ascii.eqb Re.nl tab) with false.
           change (Ascii.eqb Re.nl " ") with false.
           change (Ascii.eqb Re.nl Re.nl) with true. cbn [negb andb].
           apply IH; [simpl in Hn; lia|].
           cbn [ok2] in Ht. rewrite E2 in Ht.
           apply andb_true_iff in Ht as [_ Ht]. exact Ht.
        -- cbn [ok3]. change (Ascii.eqb Re.nl tab) with false.
           change (Ascii.eqb Re.nl " ") with false.
           change (Ascii.eqb Re.nl Re.nl) with true. cbn [negb andb].
           apply IH; [lia|]. cbn [orb].
           rewrite (ok2_head true false); [exact Ht|].
           cbn [PyStr.startswith]. now rewrite (Ascii.eqb_sym " " c2), E2.
    + cbn [ok3]. rewrite Htab, Ec. cbn [andb].
      destruct (Ascii.eqb c " ") eqn:Es.
      * cbn [andb] in Hsp |- *. apply negb_true_iff in Hsp. rewrite Hsp.
        cbn [negb andb]. apply IH; [lia|]. exact Ht.
      * cbn [andb negb]. apply IH; [lia|]. exact Ht.
Qed.

Lemma ok3_lstrip (s : string) :
  forall ps pn, ok3 ps pn s = true -> ok3 false false (PyStr.lstrip s) = true.
Proof.
  induction s as [|c t IH]; intros ps pn H; [reflexivity|].
  cbn [PyStr.lstrip]. destruct (PyStr.isspace c) eqn:Ec.
  - cbn [ok3] in H. apply andb_true_iff in H as [_ H]. now apply (IH _ _ H).
  - rewrite <- H. apply ok3_head. cbn [PyStr.startswith].
    destruct (Ascii.eqb_spec " " c) as [<-|]; [discriminate Ec|reflexivity].
Qed.

Lemma ok3_prefix (a b : string) :
  forall ps pn, ok3 ps pn (a ++ b) = true -> ok3 ps pn a = true.
Proof.
  induction a as [|c a IH]; intros ps pn H; [reflexivity|].
  cbn [append ok3] in *. apply andb_true_iff in H as [H Ht].
  now rewrite H, (IH _ _ Ht).
Qed.

Lemma rstrip_prefix (s : string) :
  exists u, s = (PyStr.rstrip s ++ u)%string.
Proof.
  induction s as [|c s [u IH]]; [now exists ""|].
  cbn [PyStr.rstrip]. destruct (PyStr.rstrip s) eqn:E.
  - destruct (PyStr.isspace c).
    + now exists (String c s).
    + exists s. reflexivity.
  - exists u. simpl in IH |- *. now f_equal.
Qed.

Lemma ok3_strip (s : string) (ps pn : bool) :
  ok3 ps pn s = true -> ok3 false false (PyStr.strip s) = true.
Proof.
  intros H. apply ok3_lstrip in H. unfold PyStr.strip.
  destruct (rstrip_prefix (PyStr.lstrip s)) as [u E].
  rewrite E in H. now apply ok3_prefix in H.
Qed.

Lemma ok3_contains (s : string) :
  forall ps pn, ok3 ps pn s = true ->
    PyStr.contains (String tab "") s = false
    /\ PyStr.contains "  " s = false
    /\ PyStr.contains (String Re.nl " ") s = false.
Proof.
  induction s as [|c t IH]; intros ps pn H; [repeat split|].
  cbn [ok3] in H. apply andb_true_iff in H as [H Ht].
  apply andb_true_iff in H as [Htab _].
  destruct (IH _ _ Ht) as (I1 & I2 & I3).
  cbn [PyStr.contains PyStr.startswith]. rewrite I1, I2, I3.
  rewrite (Ascii.eqb_sym tab c). apply negb_true_iff in Htab. rewrite Htab.
  rewrite (Ascii.eqb_sym " " c), (Ascii.eqb_sym Re.nl c).
  destruct t as [|c2 t']; [rewrite !andb_false_r; repeat split|].
  cbn [ok3] in Ht. apply andb_true_iff in Ht as [Ht _].
  apply andb_true_iff in Ht as [_ Ht]. apply negb_true_iff in Ht.
  rewrite (Ascii.eqb_sym " " c2), !andb_true_r.
  destruct (Ascii.eqb c2 " "); [|rewrite !andb_false_r; repeat split].
  cbn [andb] in Ht. apply orb_false_iff in Ht as [-> ->]. repeat split.
Qed.

Lemma clean_text_direct (text : string) :
  clean_text text
  = if negb (PyStr.truthy text) then ""
    else PyStr.strip
           (unindent
              (collapse false
                 (re_sub blank_lines_pattern (nl_str ++ nl_str) text))).
Proof.
  unfold clean_text. destruct (negb (PyStr.truthy text)); [reflexivity|].
  cbv zeta. unfold re_sub at 1 2.
  rewrite (sub_nl_space_unindent _ _ (Nat.le_refl _)).
  now rewrite (proj1 (sub_blanks_collapse _)).
Qed.

(** X2.  What [clean_text] returns has no tab, no two spaces in a row and no
    space right after a newline. *)
Theorem X2_clean_text_tidy (text : string) :
  PyStr.contains (String tab "") (clean_text text) = false
  /\ PyStr.contains "  " (clean_text text) = false
  /\ PyStr.contains (String Re.nl " ") (clean_text text) = false.
Proof.
  rewrite clean_text_direct.
  destruct (negb (PyStr.truthy text)); [repeat split|].
  apply (ok3_contains _ false false), (ok3_strip _ false false).
  apply (unindent_ok3 _ _ (Nat.le_refl _)).
  apply collapse_ok2.
Qed.

(** ** The text that the reader builds, and the guard it meets *)

Lemma read_pages_text (pages : list page) :
  forall page_num text_content printed,
  exists added,
    fst (read_pages page_num pages text_content printed)
      = (text_content ++ added)%string
    /\ (existsb has_text pages = false -> added = "")
    /\ (existsb has_text pages = true ->
        exists rest, added = (page_header ++ rest)%string).
Proof.
  induction pages as [|p pages IH]; intros n tc pr.
  - exists "". simpl. rewrite app_empty_r. repeat split; auto. discriminate.
  - destruct p as [text|e]; cbn [read_pages existsb has_text].
    + destruct (PyStr.truthy (PyStr.strip text)); cbn [orb].
      * destruct (IH (S n)
          (tc ++ nl_str ++ "--- Page " ++ str_of_nat (n + 1) ++ " ---"
              ++ nl_str ++ text ++ nl_str)%string pr)
          as (added & E & _ & _).
        exists ((nl_str ++ "--- Page " ++ str_of_nat (n + 1) ++ " ---"
                 ++ nl_str ++ text ++ nl_str) ++ added)%string.
        rewrite E, string_app_assoc. repeat split; [discriminate|].
        intros _. unfold page_header.
        exists ((str_of_nat (n + 1) ++ " ---" ++ nl_str ++ text ++ nl_str)
                  ++ added)%string.
        now rewrite !string_app_assoc.
      * apply IH.
    + apply IH.
Qed.

Lemma strip_truthy (s : string) :
  PyStr.truthy (PyStr.strip s) = false <-> nonspace s = "".
Proof.
  rewrite <- strip_nonspace. split.
  - destruct (PyStr.strip s); [reflexivity|discriminate].
  - intros H. destruct (PyStr.strip s) as [|c t] eqn:E; [reflexivity|].
    apply strip_head in E. simpl in H. rewrite E in H. discriminate.
Qed.

Lemma rstrip_nonempty (c : ascii) (s : string) :
  PyStr.isspace c = false -> PyStr.rstrip (String c s) <> "".
Proof. intros Hc. destruct (rstrip_head c s Hc) as [t ->]. discriminate. Qed.

Lemma rstrip_cons (c : ascii) (s : string) :
  PyStr.rstrip s <> "" -> PyStr.rstrip (String c s) = String c (PyStr.rstrip s).
Proof. intros H. simpl. destruct (PyStr.rstrip s); [contradiction|reflexivity]. Qed.

Lemma rstrip_app_keep (a b : string) :
  PyStr.rstrip b <> "" -> PyStr.rstrip (a ++ b) = (a ++ PyStr.rstrip b)%string.
Proof.
  intros Hb. induction a as [|c a IH]; [reflexivity|].
  cbn [append]. rewrite rstrip_cons; [now rewrite IH|].
  rewrite IH. destruct a; [assumption|discriminate].
Qed.

Lemma clean_text_page_header (rest : string) :
  exists rest', clean_text (page_header ++ rest) = ("--- Page" ++ rest')%string.
Proof.
  change (page_header ++ rest)%string
    with (String Re.nl ("--- Page " ++ rest)).
  rewrite clean_text_direct. cbn [PyStr.truthy negb].
  unfold re_sub, nl_str.
  change (String Re.nl "" ++ String Re.nl "")%string
    with (String Re.nl (String Re.nl "")).
  assert (E : forall X,
    sub_from blank_lines_pattern (String Re.nl (String Re.nl ""))
      0 (String Re.nl ("--- Page " ++ X))
    = String Re.nl ("--- Page " ++
        sub_from blank_lines_pattern (String Re.nl (String Re.nl "")) 0 X)).
  { intros X. reflexivity. }
  rewrite E. clear E.
  set (Y := sub_from _ _ 0 rest). clearbody Y.
  simpl collapse.
  set (Z := collapse true Y). clearbody Z.
  simpl unindent.
  set (U := unindent Z). clearbody U.
  unfold PyStr.strip. simpl PyStr.lstrip.
  change (exists rest',
            PyStr.rstrip ("--- Pag" ++ String "e" (String " " U))
            = ("--- Page" ++ rest')%string).
  destruct (rstrip_head "e" (String " " U) eq_refl) as [t Ht].
  rewrite rstrip_app_keep by (rewrite Ht; discriminate).
  rewrite Ht. now exists t.
Qed.

Lemma read_result (w : world) (path : option string) :
  let result := fst (read_financial_document w path) in
  match files w (effective_path w path) with
  | Missing =>
      result = ("Error: File not found at path: " ++ effective_path w path)%string
  | Unreadable e => result = ("Error reading PDF: " ++ e)%string
  | Readable pages =>
      if existsb has_text pages
      then exists rest, result = ("--- Page" ++ rest)%string
      else result = "Error: No readable content found in the PDF"
  end.
Proof.
  unfold read_financial_document. fold (effective_path w path).
  destruct (files w (effective_path w path)) as [|e|pages]; cbn [fst];
    try reflexivity.
  destruct (read_pages_text pages 0 "" []) as (added & E & Hno & Hyes).
  destruct (read_pages 0 pages "" []) as [tc printed]. cbn [fst append] in E.
  subst tc. destruct (existsb has_text pages).
  - destruct (Hyes eq_refl) as [rest ->].
    replace (PyStr.truthy (PyStr.strip (page_header ++ rest))) with true.
    + cbn [negb fst]. apply clean_text_page_header.
    + destruct (PyStr.truthy (PyStr.strip (page_header ++ rest))) eqn:T;
        [reflexivity|].
      apply strip_truthy in T. simpl in T. discriminate.
  - rewrite (Hno eq_refl). reflexivity.
Qed.

Lemma guard_iff (data : string) :
  (PyDict.get "error" (analyze_investment data) <> None
   <-> PyStr.truthy data = false \/ PyStr.startswith "Error:" data = true)
  /\ (PyDict.get "error" (assess_risks data) <> None
      <-> PyStr.truthy data = false \/ PyStr.startswith "Error:" data = true).
Proof.
  unfold analyze_investment, analyze_investment_with, assess_risks,
    assess_risks_with.
  destruct (PyStr.truthy data), (PyStr.startswith "Error:" data);
    cbn [negb orb]; split; split;
    try (intros _; (now left) || (now right) || discriminate);
    try (intros H; exfalso; apply H; reflexivity);
    try (intros [H|H]; discriminate).
Qed.

Lemma lang_lit (kw w : string) : lang (Re.lit kw) w <-> w = kw.
Proof.
  revert w. induction kw as [|c kw IH]; intros w; simpl.
  - tauto.
  - split.
    + intros (w1 & w2 & -> & (x & -> & Hx) & L).
      apply Ascii.eqb_eq in Hx. subst x. apply IH in L. now subst.
    + intros ->. exists (String c ""), kw. repeat split.
      * exists c. split; [reflexivity|apply Ascii.eqb_refl].
      * now apply IH.
Qed.


Lemma lang_never (w : string) : ~ lang Re.Never w.
Proof. intros (c & _ & H). discriminate. Qed.


(** ** The risk-factors section *)



(** ** Recommendations *)

(** X4.  [generate_risk_recommendations] returns the four standing
    recommendations, then the one on debt exactly when "debt" occurs in the
    text in some letter case, then the one on competition exactly when
    "competition" does; so it returns four to six entries and the cut at six
    never removes one. *)
Theorem X4_risk_recommendations (text : string) :
  let debt := PyStr.contains "debt" (PyStr.lower text) in
  let competition := PyStr.contains "competition" (PyStr.lower text) in
  generate_risk_recommendations text
  = [ "Monitor financial metrics regularly";
      "Diversify investment portfolio";
      "Stay informed about industry trends";
      "Review risk tolerance periodically" ]
    ++ (if debt
        then ["Pay attention to debt levels and coverage ratios"] else [])
    ++ (if competition then ["Monitor competitive landscape changes"] else [])
  /\ (In "Pay attention to debt levels and coverage ratios"
         (generate_risk_recommendations text)
      <-> occurs_ignoring_case "debt" text)
  /\ (In "Monitor competitive landscape changes"
         (generate_risk_recommendations text)
      <-> occurs_ignoring_case "competition" text)
  /\ 4 <= length (generate_risk_recommendations text) <= 6.
Proof.
  intros debt competition.
  rewrite <- !contains_lower_iff. fold debt competition.
  unfold generate_risk_recommendations. fold debt competition.
  destruct debt, competition; cbn [app firstn];
    (split; [reflexivity|]);
    (split; [|split; [|simpl; lia]]);
    simpl; split; intros H; try discriminate; try tauto;
    repeat (destruct H as [H|H]; try discriminate H); try contradiction.
Qed.

Lemma X4_risk_recommendations_witness : occurs_ignoring_case "debt" "Debt is high".
Proof.
  apply (proj1 (proj1 (proj2 (X4_risk_recommendations "Debt is high")))).
  vm_compute. auto 10.
Defined.

(** ** Market risks are counted twice *)

Lemma contains_trans (a b s : string) :
  PyStr.contains a b = true -> PyStr.contains b s = true ->
  PyStr.contains a s = true.
Proof.
  rewrite !contains_iff. intros (p1 & q1 & ->) (p2 & q2 & ->).
  exists (p2 ++ p1)%string, (q1 ++ q2)%string. now rewrite !string_app_assoc.
Qed.

Lemma identify_risks_in (text kw : string) :
  In kw risk_keywords -> PyStr.contains kw (PyStr.lower text) = true ->
  In (risk_label kw) (identify_risks text).
Proof.
  intros Hin Hc. rewrite identify_risks_eq. apply in_or_app. left.
  apply in_map, filter_In. now split.
Qed.

Lemma assess_market_risks_in (text d : string) :
  In d (assess_market_risks text) ->
  exists term, In (term, d) market_risk_terms
               /\ PyStr.contains term (PyStr.lower text) = true.
Proof.
  unfold assess_market_risks.
  rewrite (flat_map_cond
             (fun item => PyStr.contains (fst item) (PyStr.lower text)) snd).
  intros H. apply in_map_iff in H as ([term d'] & <- & H).
  apply filter_In in H as [H1 H2]. now exists term.
Qed.

(** X5.  A text that yields the market risk on competition, on market
    volatility or on regulatory changes also yields the identified risk on
    competition, on market volatility or on regulatory matters: each of
    these terms is counted in both lists. *)
Theorem X5_market_risks_counted_twice (text : string) :
  (In "Competitive pressure identified" (assess_market_risks text) ->
   In "Competition concerns mentioned" (identify_risks text))
  /\ (In "Market volatility concerns" (assess_market_risks text) ->
      In "Market Volatility concerns mentioned" (identify_risks text))
  /\ (In "Regulatory change risks" (assess_market_risks text) ->
      In "Regulatory concerns mentioned" (identify_risks text)).
Proof.
  repeat split; intros H; apply assess_market_risks_in in H as (term & Hin & Hc);
    simpl in Hin;
    repeat (destruct Hin as [Hin|Hin]; [inversion Hin; subst; clear Hin|]);
    try contradiction.
  - apply (identify_risks_in text "competition"); [simpl; auto 10|assumption].
  - apply (identify_risks_in text "market volatility");
      [simpl; auto 10|assumption].
  - apply (identify_risks_in text "regulatory"); [simpl; auto 10|].
    now apply (contains_trans _ "regulatory changes").
Qed.

Lemma X5_market_risks_counted_twice_witness :
  In "Regulatory concerns mentioned" (identify_risks "Regulatory changes ahead").
Proof.
  apply (proj2 (proj2 (X5_market_risks_counted_twice "Regulatory changes ahead"))).
  vm_compute. auto.
Defined.

(** ** A verdict needs its words *)

Lemma count_from_pos (sub s : string) :
  forall skip, 0 < PyStr.count_from sub s skip -> PyStr.contains sub s = true.
Proof.
  induction s as [|c r IH]; intros skip H.
  - simpl in H. destruct sub; [reflexivity|destruct skip; lia].
  - cbn [PyStr.count_from] in H. cbn [PyStr.contains].
    destruct skip as [|k].
    + destruct (PyStr.startswith sub (String c r)) eqn:E; [reflexivity|].
      rewrite (IH _ H). apply orb_true_r.
    + rewrite (IH _ H). apply orb_true_r.
Qed.

Lemma count_terms_pos (terms : list string) (s : string) :
  0 < count_terms terms s ->
  exists term, In term terms /\ PyStr.contains term s = true.
Proof.
  unfold count_terms. induction terms as [|t l IH]; simpl; [lia|].
  intros H. destruct (Nat.eq_dec (PyStr.count t s) 0) as [E|E].
  - destruct IH as (term & Hin & Hc); [lia|]. exists term. auto.
  - exists t. split; [now left|]. apply (count_from_pos t s 0).
    unfold PyStr.count in E. lia.
Qed.

Lemma count_terms_occurs (terms : list string) (text : string) :
  0 < count_terms terms (PyStr.lower text) ->
  exists term, In term terms /\ occurs_ignoring_case term text.
Proof.
  intros H. apply count_terms_pos in H as (term & Hin & Hc).
  exists term. split; [assumption|]. now apply contains_lower_iff.
Qed.

Lemma count_terms_absent (terms : list string) (text : string) :
  (forall term, In term terms -> ~ occurs_ignoring_case term text) ->
  count_terms terms (PyStr.lower text) = 0.
Proof.
  intros H. destruct (Nat.eq_dec (count_terms terms (PyStr.lower text)) 0)
    as [E|E]; [assumption|exfalso].
  destruct (count_terms_occurs terms text) as (term & Hin & Hc); [lia|].
  now apply (H term).
Qed.

(** X6.  [assess_financial_stability] answers STABLE only for a text in
    which one of its positive phrases occurs in some letter case, CONCERNING
    only for a text in which one of its negative phrases occurs, and MIXED
    for every text in which none of the eight phrases occurs. *)
Theorem X6_stability_words (text : string) :
  (assess_financial_stability text = STABLE ->
   exists phrase, In phrase stability_positive
                  /\ occurs_ignoring_case phrase text)
  /\ (assess_financial_stability text = CONCERNING ->
      exists phrase, In phrase stability_negative
                     /\ occurs_ignoring_case phrase text)
  /\ ((forall phrase, In phrase (stability_positive ++ stability_negative) ->
                      ~ occurs_ignoring_case phrase text) ->
      assess_financial_stability text = MIXED).
Proof.
  unfold assess_financial_stability. repeat split.
  - destruct (Nat.ltb_spec (count_terms stability_negative (PyStr.lower text))
                           (count_terms stability_positive (PyStr.lower text)))
      as [H|H].
    + intros _. apply count_terms_occurs. lia.
    + destruct (Nat.ltb _ _); discriminate.
  - destruct (Nat.ltb _ _); [discriminate|].
    destruct (Nat.ltb_spec (count_terms stability_positive (PyStr.lower text))
                           (count_terms stability_negative (PyStr.lower text)))
      as [H|H]; [|discriminate].
    intros _. apply count_terms_occurs. lia.
  - intros H.
    rewrite (count_terms_absent stability_positive),
      (count_terms_absent stability_negative); [reflexivity| |];
      intros phrase Hin; apply H, in_or_app; auto.
Qed.

Lemma X6_stability_words_witness :
  exists phrase, In phrase stability_positive
                 /\ occurs_ignoring_case phrase "A Profitable year".
Proof.
  apply (proj1 (X6_stability_words "A Profitable year")). reflexivity.
Defined.

Lemma binary_round_aux_nonneg (prec emax mx ex : Z) (lx : location) :
  nonneg_float (binary_round_aux prec emax false mx ex lx).
Proof.
  unfold binary_round_aux.
  destruct (shr_fexp prec emax mx ex lx) as [mrs' e'].
  destruct (shr_fexp prec emax _ e' loc_Exact) as [mrs'' e''].
  destruct (shr_m mrs''); simpl; auto. destruct (_ <=? _)%Z; simpl; auto.
Qed.

Lemma int_mul_nonneg (n : Z) :
  (0 <= n)%Z -> nonneg_float (PyFloat.int_mul n PyFloat.lit_1_2).
Proof.
  intros Hn. unfold PyFloat.int_mul, PyFloat.of_int, PyFloat.lit_1_2.
  destruct n as [|np|np]; [exact I| |lia].
  cbn [binary_normalize]. unfold binary_round.
  destruct (shl_align _ _ _) as [mz ez].
  pose proof (binary_round_aux_nonneg PyFloat.prec PyFloat.emax
                (Zpos mz) ez loc_Exact) as H.
  destruct (binary_round_aux _ _ false (Zpos mz) ez loc_Exact)
    as [[]|[]| |[] m e]; try contradiction; try exact I.
  cbn [SFmul xorb]. apply binary_round_aux_nonneg.
Qed.

Lemma int_gt_nonneg (p : Z) (f : spec_float) :
  nonneg_float f -> PyFloat.int_gt p f = true -> (0 < p)%Z.
Proof.
  destruct f as [[]|[]| |[] m e]; cbn [nonneg_float PyFloat.int_gt];
    try contradiction; try discriminate; intros _ H.
  - now apply Z.ltb_lt.
  - destruct (0 <=? e)%Z eqn:He; apply Z.ltb_lt in H.
    + apply Z.leb_le in He.
      assert (0 <= 2 ^ e)%Z by (apply Z.pow_nonneg; lia).
      assert (0 <= Z.pos m * 2 ^ e)%Z by (apply Z.mul_nonneg_nonneg; lia).
      lia.
    + apply Z.leb_gt in He.
      assert (0 < 2 ^ (- e))%Z by (apply Z.pow_pos_nonneg; lia).
      destruct (Z.lt_ge_cases 0 p) as [G|G]; [assumption|].
      assert (p * 2 ^ (- e) <= 0)%Z by (apply Z.mul_nonpos_nonneg; lia).
      lia.
Qed.

(** X7.  [generate_recommendation] answers POSITIVE only for a text in
    which one of the positive terms occurs in some letter case, CAUTIOUS only
    for a text in which one of the negative terms occurs, and NEUTRAL for
    every text in which none of the ten terms occurs. *)
Theorem X7_recommendation_words (text : string) :
  (generate_recommendation text = POSITIVE ->
   exists term, In term positive_indicators /\ occurs_ignoring_case term text)
  /\ (generate_recommendation text = CAUTIOUS ->
      exists term, In term negative_indicators
                   /\ occurs_ignoring_case term text)
  /\ ((forall term, In term (positive_indicators ++ negative_indicators) ->
                    ~ occurs_ignoring_case term text) ->
      generate_recommendation text = NEUTRAL).
Proof.
  unfold generate_recommendation. cbv zeta.
  set (p := Z.of_nat (count_terms positive_indicators (PyStr.lower text))).
  set (n := Z.of_nat (count_terms negative_indicators (PyStr.lower text))).
  assert (Hp : (0 <= p)%Z) by (unfold p; lia).
  assert (Hn : (0 <= n)%Z) by (unfold n; lia).
  destruct (PyFloat.int_gt p (PyFloat.int_mul n PyFloat.lit_1_2)) eqn:E1;
    [|destruct (PyFloat.int_gt n (PyFloat.int_mul p PyFloat.lit_1_2)) eqn:E2].
  - apply int_gt_nonneg in E1; [|now apply int_mul_nonneg].
    split; [|split].
    + intros _. apply count_terms_occurs. fold p in E1. unfold p in E1. lia.
    + intros H. unfold POSITIVE, CAUTIOUS in H. discriminate H.
    + intros H. exfalso.
      unfold p in E1. rewrite (count_terms_absent positive_indicators) in E1.
      * simpl in E1. lia.
      * intros term Hin. apply H, in_or_app. auto.
  - apply int_gt_nonneg in E2; [|now apply int_mul_nonneg].
    split; [|split].
    + intros H. unfold POSITIVE, CAUTIOUS in H. discriminate H.
    + intros _. apply count_terms_occurs. unfold n in E2. lia.
    + intros H. exfalso.
      unfold n in E2. rewrite (count_terms_absent negative_indicators) in E2.
      * simpl in E2. lia.
      * intros term Hin. apply H, in_or_app. auto.
  - split; [|split]; try reflexivity;
      intros H; unfold POSITIVE, CAUTIOUS, NEUTRAL in H; discriminate H.
Qed.

Lemma X7_recommendation_words_witness :
  exists term, In term negative_indicators
               /\ occurs_ignoring_case term "A loss again".
Proof.
  apply (proj1 (proj2 (X7_recommendation_words "A loss again"))).
  vm_compute. reflexivity.
Defined.

(** ** Highlights *)








Lemma rstrip_idem (s : string) : PyStr.rstrip (PyStr.rstrip s) = PyStr.rstrip s.
Proof.
  induction s as [|c s IH]; [reflexivity|].
  cbn [PyStr.rstrip]. destruct (PyStr.rstrip s) as [|d r] eqn:E.
  - destruct (PyStr.isspace c) eqn:Hc; [reflexivity|]. simpl. now rewrite Hc.
  - cbn [PyStr.rstrip]. cbn [PyStr.rstrip] in IH.
    destruct (PyStr.rstrip r) eqn:Er.
    + destruct (PyStr.isspace d); [discriminate|]. now rewrite IH.
    + now rewrite IH.
Qed.

Lemma lstrip_fixed (s : string) :
  (forall c t, s = String c t -> PyStr.isspace c = false) ->
  PyStr.lstrip s = s.
Proof.
  destruct s as [|c t]; [reflexivity|]. intros H. simpl.
  now rewrite (H c t eq_refl).
Qed.

Lemma strip_idem (s : string) : PyStr.strip (PyStr.strip s) = PyStr.strip s.
Proof.
  unfold PyStr.strip at 1. rewrite lstrip_fixed.
  - unfold PyStr.strip. apply rstrip_idem.
  - intros c t. apply strip_head.
Qed.










(** ** Monetary values *)

Lemma groups_lit_i (kw : string) : groups (Re.lit_i kw) = [].
Proof. induction kw; simpl; auto. Qed.

Lemma sets_group_lit_i (kw : string) : sets_group (Re.lit_i kw) = false.
Proof. induction kw; simpl; auto. Qed.

Lemma groups_money_pattern (kw : string) :
  groups (money_pattern kw) = [number_pattern]
  /\ sets_group (money_pattern kw) = true.
Proof.
  unfold money_pattern, Re.seqs. cbn [fold_right groups sets_group].
  rewrite groups_lit_i, sets_group_lit_i. split; reflexivity.
Qed.

Lemma char_in_single (c x : ascii) :
  char_in (String c "") x = true -> x = c.
Proof.
  unfold char_in. simpl. rewrite !orb_false_r, andb_true_r.
  apply Ascii.eqb_eq.
Qed.

Lemma lang_plus (p : Re.cls) (w : string) :
  lang (Re.Plus p) w <-> w <> "" /\ PyStr.all_chars p w = true.
Proof.
  unfold Re.Plus. simpl. split.
  - intros (w1 & w2 & -> & (c & -> & Hc) & H). simpl. rewrite Hc, H.
    split; [discriminate|reflexivity].
  - intros [Hne H]. destruct w as [|c w]; [congruence|].
    simpl in H. apply andb_true_iff in H as [Hc Hw].
    exists (String c ""), w. repeat split; auto. now exists c.
Qed.

Lemma lang_number (w : string) : lang number_pattern w <-> number_shape w.
Proof.
  unfold number_pattern, number_shape. cbn [lang]. split.
  - intros (whole & frac & -> & Hw & Hf). apply lang_plus in Hw as [Hne Hw].
    exists whole, frac. repeat split; auto.
    destruct Hf as [->|(w1 & d & -> & (c & -> & Hc) & Hd)]; [now left|].
    right. apply char_in_single in Hc. subst c.
    apply lang_plus in Hd as [Hdne Hd]. exists d. auto.
  - intros (whole & frac & -> & Hne & Hw & Hf). exists whole, frac.
    repeat split.
    + now apply lang_plus.
    + destruct Hf as [->|(d & -> & Hdne & Hd)]; [now left|].
      right. exists ".", d. repeat split.
      * now exists "."%char.
      * now apply lang_plus.
Qed.

(** X9.  Every value returned by [find_monetary_values] is a dollar sign,
    then a number written in the text (digits and commas, then possibly a
    point and digits), then nothing, "M" or "B". *)
Theorem X9_money_value (text : string) (keywords : list string) (v : string) :
  In v (find_monetary_values text keywords) ->
  exists number suffix,
    v = ("$" ++ number ++ suffix)%string
    /\ (suffix = "" \/ suffix = "M" \/ suffix = "B")
    /\ number_shape number
    /\ exists pre post, text = (pre ++ number ++ post)%string.
Proof.
  unfold find_monetary_values, keyword_values. intros H.
  apply in_flat_map in H as (kw & _ & H).
  apply in_map_iff in H as (m & <- & Hm).
  apply finditer_from_sound in Hm as (pre & post & E & _ & _ & G).
  destruct (groups_money_pattern kw) as [Hg Hs].
  destruct G as [[G _]|(w1 & g & w2 & a & Ew & Eg & Hin & La)];
    [congruence|].
  rewrite Hg in Hin. destruct Hin as [<-|[]].
  apply lang_number in La.
  assert (Hsub : exists pre post, text = (pre ++ g ++ post)%string).
  { exists (pre ++ w1)%string, (w2 ++ post)%string.
    rewrite E, Ew. now rewrite !string_app_assoc. }
  unfold format_value, group1_str. rewrite Eg.
  destruct (_ || _).
  - exists g, "M". auto.
  - destruct (_ || _).
    + exists g, "B". auto.
    + exists g, "". rewrite app_empty_r. auto.
Qed.

Lemma X9_money_value_witness :
  exists number suffix,
    "$1,250.5M" = ("$" ++ number ++ suffix)%string
    /\ (suffix = "" \/ suffix = "M" \/ suffix = "B")
    /\ number_shape number
    /\ exists pre post,
         "Total revenue: $1,250.5 million" = (pre ++ number ++ post)%string.
Proof.
  apply (X9_money_value "Total revenue: $1,250.5 million" ["total revenue"]).
  vm_compute. left. reflexivity.
Defined.

(** ** Which metrics are reported *)







(** ** The company name *)

Lemma lang_alts_lit (l : list string) (w : string) :
  lang (Re.alts (map Re.lit l)) w <-> In w l.
Proof.
  induction l as [|k l IH]; simpl.
  - split; [apply lang_never|tauto].
  - rewrite lang_lit, IH. split; intros [H|H]; auto.
Qed.

Lemma lang_company (w : string) : lang company_pattern w <-> company_shape w.
Proof.
  unfold company_pattern, company_shape, Re.seqs. cbn [fold_right lang].
  change (Re.alts [Re.lit "Inc"; Re.lit "Corp"; Re.lit "Corporation";
                   Re.lit "Ltd"; Re.lit "Limited"; Re.lit "LLC"])
    with (Re.alts (map Re.lit company_suffixes)).
  split.
  - intros (w1 & r1 & -> & (c & -> & Hc) & body & r2 & -> & Lb & suffix & r3
            & -> & Ls & dot & r4 & -> & Ld & ->).
    apply lang_plus in Lb as [Hne Hb]. apply lang_alts_lit in Ls.
    exists c, body, suffix, dot. rewrite app_empty_r. repeat split; auto.
    destruct Ld as [->|(x & -> & Hx)]; [now left|].
    right. apply char_in_single in Hx. now subst x.
  - intros (c & body & suffix & dot & -> & Hc & Hne & Hb & Hs & Hd).
    exists (String c ""), (body ++ suffix ++ dot ++ "")%string.
    split; [now rewrite app_empty_r|]. split; [now exists c|].
    exists body, (suffix ++ dot ++ "")%string.
    split; [reflexivity|]. split; [now apply lang_plus|].
    exists suffix, (dot ++ "")%string.
    split; [reflexivity|]. split; [now apply lang_alts_lit|].
    exists dot, "". repeat split.
    destruct Hd as [->| ->]; [now left|]. right. now exists "."%char.
Qed.

Lemma isupper_not_space (c : ascii) :
  PyStr.isupper_ascii c = true -> PyStr.isspace c = false.
Proof. destruct c as [[] [] [] [] [] [] [] []]; vm_compute; congruence. Qed.

Lemma last_non_space_app (a b : string) :
  last_non_space b = true -> last_non_space (a ++ b) = true.
Proof.
  intros Hb. induction a as [|x a IH]; [exact Hb|].
  cbn [append]. destruct (a ++ b)%string eqn:E; [discriminate|exact IH].
Qed.

Lemma rstrip_fixed (s : string) :
  last_non_space s = true -> PyStr.rstrip s = s.
Proof.
  induction s as [|c s IH]; [discriminate|].
  destruct s as [|d s].
  - simpl. intros H. apply negb_true_iff in H. now rewrite H.
  - intros H. specialize (IH H).
    rewrite rstrip_cons; [now rewrite IH|]. rewrite IH. discriminate.
Qed.

Lemma company_shape_stripped (name : string) :
  company_shape name -> PyStr.strip name = name.
Proof.
  intros (c & body & suffix & dot & -> & Hc & _ & _ & Hs & Hd).
  unfold PyStr.strip. rewrite lstrip_fixed.
  - apply rstrip_fixed.
    change (String c (body ++ suffix ++ dot))
      with (String c body ++ (suffix ++ dot))%string.
    apply last_non_space_app. unfold company_suffixes in Hs. simpl in Hs.
    destruct Hd as [->| ->];
      repeat (destruct Hs as [<-|Hs]; [reflexivity|]); contradiction.
  - intros c' t E. injection E as <- _. now apply isupper_not_space.
Qed.

(** X11.  [extract_document_info] returns its three keys in their order;
    the reporting period is always "Not specified"; the company name is
    "Not identified" when no piece of the first 2000 characters has the shape
    of a company name, and otherwise it is a piece of the first 2000
    characters that has this shape (which [strip] leaves as it is). *)
Theorem X11_document_info (text : string) :
  PyDict.keys (extract_document_info text)
    = ["document_type"; "company_name"; "reporting_period"]
  /\ PyDict.get "reporting_period" (extract_document_info text)
     = Some (VStr "Not specified")
  /\ exists name,
       PyDict.get "company_name" (extract_document_info text)
         = Some (VStr name)
       /\ ((name = "Not identified"
            /\ forall pre w post,
                 PyStr.take 2000 text = (pre ++ w ++ post)%string ->
                 ~ company_shape w)
           \/ (company_shape name
               /\ exists pre post,
                    PyStr.take 2000 text = (pre ++ name ++ post)%string)).
Proof.
  unfold extract_document_info.
  set (info :=
    if PyStr.contains "annual report" (PyStr.lower text)
       || PyStr.contains "10-k" (PyStr.lower text)
    then _ else _).
  assert (Hinfo : exists t,
            info = [ ("document_type", VStr t);
                     ("company_name", VStr "Not identified");
                     ("reporting_period", VStr "Not specified") ]).
  { unfold info. destruct (_ || _); [now eexists|].
    destruct (_ || _); [now eexists|].
    destruct (PyStr.contains "earnings" _); now eexists. }
  destruct Hinfo as [t ->].
  destruct (Re.search company_pattern (PyStr.take 2000 text)) as [m|] eqn:E.
  - split; [reflexivity|]. split; [reflexivity|].
    exists (PyStr.strip (group1_str m)). split; [reflexivity|]. right.
    apply search_from_sound in E as (pre & post & E & _ & _ & G).
    destruct G as [[G _]|(w1 & g & w2 & a & Ew & Eg & Hin & La)];
      [discriminate|].
    simpl in Hin. destruct Hin as [<-|[]].
    apply (proj1 (lang_company g)) in La.
    unfold group1_str. rewrite Eg, (company_shape_stripped g La).
    split; [assumption|].
    exists (pre ++ w1)%string, (w2 ++ post)%string.
    rewrite E, Ew. now rewrite !string_app_assoc.
  - split; [reflexivity|]. split; [reflexivity|].
    exists "Not identified". split; [reflexivity|]. left.
    split; [reflexivity|]. intros pre w post Hw Hs.
    assert (H : Re.search company_pattern (PyStr.take 2000 text) <> None).
    { apply search_some_iff. exists pre, w, post. split; [assumption|].
      now apply lang_company. }
    congruence.
Qed.

Lemma X11_document_info_witness :
  exists name,
    PyDict.get "company_name" (extract_document_info "by Acme & Sons Ltd. in May")
      = Some (VStr name)
    /\ ((name = "Not identified"
         /\ forall pre w post,
              PyStr.take 2000 "by Acme & Sons Ltd. in May"
                = (pre ++ w ++ post)%string ->
              ~ company_shape w)
        \/ (company_shape name
            /\ exists pre post,
                 PyStr.take 2000 "by Acme & Sons Ltd. in May"
                   = (pre ++ name ++ post)%string)).
Proof.
  apply (proj2 (proj2 (X11_document_info "by Acme & Sons Ltd. in May"))).
Defined.

(** ** Reading the document *)

(** X12.  What [read_financial_document] returns is never empty and never
    begins with whitespace.  It is the message "Error: File not found ..."
    with the path that was read when the file is absent, the message "Error
    reading PDF: ..." when the file cannot be read, the message "Error: No
    readable content ..." when no page of the file has text, and otherwise a
    text that begins with "--- Page". *)
Theorem X12_reader_result (w : world) (path : option string) :
  let result := fst (read_financial_document w path) in
  result <> ""
  /\ (forall c t, result = String c t -> PyStr.isspace c = false)
  /\ match files w (effective_path w path) with
     | Missing =>
         result
         = ("Error: File not found at path: " ++ effective_path w path)%string
     | Unreadable e => result = ("Error reading PDF: " ++ e)%string
     | Readable pages =>
         if existsb has_text pages
         then PyStr.startswith "--- Page" result = true
         else result = "Error: No readable content found in the PDF"
     end.
Proof.
  intros result. pose proof (read_result w path) as H. fold result in H.
  cbv zeta in H.
  destruct (files w (effective_path w path)) as [|e|pages].
  - rewrite H. repeat split; [discriminate|].
    intros c t E. injection E as <- _. reflexivity.
  - rewrite H. repeat split; [discriminate|].
    intros c t E. injection E as <- _. reflexivity.
  - destruct (existsb has_text pages).
    + destruct H as [rest ->]. repeat split; [discriminate|].
      intros c t E. injection E as <- _. reflexivity.
    + rewrite H. repeat split; [discriminate|].
      intros c t E. injection E as <- _. reflexivity.
Qed.

Lemma X12_reader_result_witness :
  fst (read_financial_document
         (World None (fun _ => Readable [PageText "Revenue 5"])) None) <> "".
Proof.
  apply (proj1 (X12_reader_result
                  (World None (fun _ => Readable [PageText "Revenue 5"])) None)).
Defined.

(** X13.  On what the reader returns, each of the two entry points answers
    with its error record exactly when the file is absent or none of its
    pages has text.  The message for a file that cannot be read does not
    begin with "Error:", so it is analysed as if it were the document. *)
Theorem X13_reader_guard (w : world) (path : option string) :
  let data := fst (read_financial_document w path) in
  (PyDict.get "error" (analyze_investment data) <> None
   <-> nothing_to_read w path = true)
  /\ (PyDict.get "error" (assess_risks data) <> None
      <-> nothing_to_read w path = true).
Proof.
  intros data. pose proof (read_result w path) as H. fold data in H.
  cbv zeta in H. unfold nothing_to_read.
  destruct (guard_iff data) as [G1 G2]. rewrite G1, G2. clear G1 G2.
  assert (G : forall b : bool,
            (PyStr.truthy data = true /\ PyStr.startswith "Error:" data = b) ->
            (PyStr.truthy data = false \/ PyStr.startswith "Error:" data = true)
            <-> b = true).
  { intros b [-> ->]. split; [intros [?|?]; congruence|auto]. }
  assert (G' : (PyStr.truthy data = false
                \/ PyStr.startswith "Error:" data = true)
               <-> nothing_to_read w path = true); [|unfold nothing_to_read in G'; tauto].
  unfold nothing_to_read.
  destruct (files w (effective_path w path)) as [|e|pages].
  - apply G. now rewrite H.
  - apply G. now rewrite H.
  - destruct (existsb has_text pages).
    + destruct H as [rest ->]. now apply G.
    + apply G. now rewrite H.
Qed.

Lemma X13_reader_guard_witness :
  PyDict.get "error"
    (analyze_investment
       (fst (read_financial_document (World None (fun _ => Missing)) None)))
  <> None.
Proof.
  apply (proj2 (proj1 (X13_reader_guard (World None (fun _ => Missing)) None))).
  reflexivity.
Defined.

Lemma read_pages_fst (pages : list page) :
  forall page_num text_content printed printed',
    fst (read_pages page_num pages text_content printed)
    = fst (read_pages page_num (map blank_failed pages) text_content printed').
Proof.
  induction pages as [|[text|e] rest IH]; intros n tc pr pr'; simpl.
  - reflexivity.
  - destruct (PyStr.truthy (PyStr.strip text)); apply IH.
  - apply IH.
Qed.

Lemma read_pages_snd (pages : list page) :
  forall page_num text_content printed,
    length (snd (read_pages page_num pages text_content printed))
    = length printed + length (filter fails pages).
Proof.
  induction pages as [|[text|e] rest IH]; intros n tc pr; simpl.
  - lia.
  - destruct (PyStr.truthy (PyStr.strip text)); apply IH.
  - rewrite IH, length_app. simpl. lia.
Qed.

(** X14.  A page whose text cannot be extracted costs one printed warning
    and is otherwise read as a page without text: the warnings printed are as
    many as the failing pages, and the text returned is the one returned,
    without any warning, for the file in which every failing page is
    replaced by an empty page. *)
Theorem X14_reader_failing_pages
  (w w' : world) (path : option string) (pages : list page) :
  files w (effective_path w path) = Readable pages ->
  files w' (effective_path w' path) = Readable (map blank_failed pages) ->
  length (snd (read_financial_document w path)) = length (filter fails pages)
  /\ snd (read_financial_document w' path) = []
  /\ fst (read_financial_document w path)
     = fst (read_financial_document w' path).
Proof.
  unfold read_financial_document. fold (effective_path w path).
  fold (effective_path w' path). intros -> ->.
  pose proof (read_pages_fst pages 0 "" [] []) as Hf.
  pose proof (read_pages_snd pages 0 "" []) as Hs.
  pose proof (read_pages_snd (map blank_failed pages) 0 "" []) as Hs'.
  destruct (read_pages 0 pages "" []) as [tc pr].
  destruct (read_pages 0 (map blank_failed pages) "" []) as [tc' pr'].
  cbn [fst snd length Nat.add] in *. subst tc'.
  assert (Hnone : filter fails (map blank_failed pages) = []).
  { clear. induction pages as [|[text|e] rest IH]; simpl; auto. }
  rewrite Hnone in Hs'. cbn [length] in Hs'.
  destruct pr' as [|x pr']; [|discriminate].
  destruct (negb (PyStr.truthy (PyStr.strip tc))); cbn [fst snd]; auto.
Qed.

Lemma X14_reader_failing_pages_witness :
  let w := World None (fun _ => Readable [PageFails "boom"; PageText "Revenue 5"]) in
  let w' := World None (fun _ => Readable [PageText ""; PageText "Revenue 5"]) in
  length (snd (read_financial_document w None)) = 1
  /\ snd (read_financial_document w' None) = []
  /\ fst (read_financial_document w None)
     = fst (read_financial_document w' None).
Proof.
  intros w w'.
  apply (X14_reader_failing_pages w w' None
           [PageFails "boom"; PageText "Revenue 5"]); reflexivity.
Defined.

(** ** The two entry points *)

(** X15.  Each entry point returns a record with the key "error" exactly
    when its input is empty or begins with "Error:".  For every other input
    [analyze_investment] returns its four keys and [assess_risks] its five
    keys in their order, and the overall risk level stored is the level of
    the score of the findings stored beside it: the provisional "MEDIUM" is
    always replaced. *)
Theorem X15_entry_points (data : string) :
  let rejected := data = "" \/ exists rest, data = ("Error:" ++ rest)%string in
  (PyDict.get "error" (analyze_investment data) <> None <-> rejected)
  /\ (PyDict.get "error" (assess_risks data) <> None <-> rejected)
  /\ (~ rejected ->
      PyDict.keys (analyze_investment data)
        = [ "document_summary"; "financial_metrics"; "key_highlights";
            "investment_recommendation" ]
      /\ PyDict.keys (assess_risks data)
         = [ "overall_risk_level"; "identified_risks"; "financial_stability";
             "market_risks"; "recommendations" ]
      /\ exists c,
           assess_financial_stability data = stability_text c
           /\ PyDict.get "overall_risk_level" (assess_risks data)
              = Some (VStr (risk_level_spec
                              (risk_score_spec
                                 (length (identify_risks data))
                                 (length (assess_market_risks data)) c)))).
Proof.
  intros rejected.
  assert (R : rejected
              <-> PyStr.truthy data = false
                  \/ PyStr.startswith "Error:" data = true).
  { unfold rejected. rewrite startswith_iff.
    destruct data; simpl; intuition congruence. }
  destruct (guard_iff data) as [G1 G2].
  split; [now rewrite R|]. split; [now rewrite R|].
  intros Hn.
  assert (Ht : PyStr.truthy data = true)
    by (destruct (PyStr.truthy data); tauto).
  assert (He : PyStr.startswith "Error:" data = false)
    by (destruct (PyStr.startswith "Error:" data); tauto).
  split; [|split].
  - unfold analyze_investment, analyze_investment_with. now rewrite Ht, He.
  - unfold assess_risks, assess_risks_with. now rewrite Ht, He.
  - now apply assess_risks_overall_level.
Qed.

Lemma X15_entry_points_witness :
  PyDict.get "error" (assess_risks "Error: no file") <> None.
Proof.
  apply (proj2 (proj1 (proj2 (X15_entry_points "Error: no file")))).
  right. now exists " no file".
Defined.

(** ** [clean_text]: blank lines, and cleaning twice *)

Lemma match_here_blank_lines (c : ascii) (t : string) :
  Re.match_here blank_lines_pattern (String c t)
  = if Ascii.eqb c Re.nl then blank_lines_tail t else None.
Proof.
  unfold Re.match_here, blank_lines_pattern, blank_lines_tail.
  cbn [Re.rmatch]. unfold Re.chr_eq at 1. rewrite (Ascii.eqb_sym Re.nl c).
  destruct (Ascii.eqb c Re.nl); reflexivity.
Qed.

Lemma blank_lines_tail_spec (t : string) :
  match blank_lines_tail t with
  | Some (rest, _) =>
      nonl_prefix rest = true
      /\ exists w, t = (w ++ rest)%string
  | None => nonl_prefix t = true
  end.
Proof.
  unfold blank_lines_tail. induction t as [|c r IH]; [reflexivity|].
  cbn [Re.star_greedy nonl_prefix]. unfold Re.space_cls at 1.
  destruct (PyStr.isspace c) eqn:Ec.
  - destruct (Re.star_greedy Re.space_cls r _) as [[rest cap]|].
    + cbn [Re.or_else]. destruct IH as [Hn [w ->]]. split; [assumption|].
      now exists (String c w).
    + cbn [Re.or_else]. unfold Re.chr_eq. rewrite (Ascii.eqb_sym Re.nl c).
      destruct (Ascii.eqb c Re.nl).
      * split; [assumption|]. now exists (String c "").
      * now rewrite IH.
  - unfold Re.chr_eq. destruct (Ascii.eqb_spec Re.nl c) as [<-|]; [|reflexivity].
    discriminate Ec.
Qed.

Lemma blank_lines_tail_none (t : string) :
  nonl_prefix t = true -> blank_lines_tail t = None.
Proof.
  unfold blank_lines_tail. induction t as [|c r IH]; [reflexivity|].
  cbn [Re.star_greedy nonl_prefix]. unfold Re.space_cls at 1.
  destruct (PyStr.isspace c) eqn:Ec.
  - intros H. apply andb_true_iff in H as [Hc Hr].
    apply negb_true_iff in Hc. rewrite (IH Hr). cbn [Re.or_else].
    unfold Re.chr_eq. now rewrite (Ascii.eqb_sym Re.nl c), Hc.
  - intros _. unfold Re.chr_eq.
    destruct (Ascii.eqb_spec Re.nl c) as [<-|]; [|reflexivity].
    discriminate Ec.
Qed.

Lemma blank_lines_tail_nl (t : string) :
  nonl_prefix t = true -> blank_lines_tail (String Re.nl t) = Some (t, None).
Proof.
  intros H. apply blank_lines_tail_none in H. unfold blank_lines_tail in *.
  cbn [Re.star_greedy]. change (Re.space_cls Re.nl) with true. cbv iota.
  rewrite H. reflexivity.
Qed.

Lemma sub_from_skip (r : Re.regex) (repl w rest : string) :
  sub_from r repl (String.length w) (w ++ rest) = sub_from r repl 0 rest.
Proof. induction w as [|c w IH]; [reflexivity|exact IH]. Qed.

(** *** The first substitution leaves no two blank lines in a row *)

Lemma blank_lines_ok (n : nat) :
  forall s st,
    String.length s <= n ->
    st = 0 \/ nonl_prefix s = true ->
    ok_bl st (sub_from blank_lines_pattern (nl_str ++ nl_str) 0 s) = true.
Proof.
  induction n as [|n IH]; intros s st Hn Hst.
  - destruct s; [reflexivity|simpl in Hn; lia].
  - destruct s as [|c t]; [reflexivity|]. simpl in Hn.
    cbn [sub_from]. rewrite match_here_blank_lines.
    destruct (Ascii.eqb c Re.nl) eqn:Ec.
    + assert (st = 0) as ->.
      { destruct Hst as [?|Hp]; [assumption|].
        cbn [nonl_prefix] in Hp. apply Ascii.eqb_eq in Ec. subst c.
        discriminate Hp. }
      pose proof (blank_lines_tail_spec t) as Hs.
      destruct (blank_lines_tail t) as [[rest cap]|].
      * destruct Hs as [Hrest [w ->]].
        cbn [String.length]. rewrite length_app_s.
        replace (S (String.length w + String.length rest) - String.length rest)
          with (S (String.length w)) by lia.
        rewrite sub_from_skip.
        change (nl_str ++ nl_str)%string with (String Re.nl (String Re.nl "")).
        cbn [append ok_bl]. change (Ascii.eqb Re.nl Re.nl) with true. cbv iota.
        apply IH; [|now right].
        rewrite length_app_s in Hn. lia.
      * cbn [ok_bl]. rewrite Ec. apply IH; [lia|now right].
    + cbn [ok_bl]. rewrite Ec. destruct (PyStr.isspace c) eqn:Es.
      * apply IH; [lia|]. destruct Hst as [->|Hp]; [now left|right].
        cbn [nonl_prefix] in Hp. rewrite Es, Ec in Hp. exact Hp.
      * apply IH; [lia|now left].
Qed.

Lemma ok_bl_mono (s : string) :
  forall st st', st' <= st -> ok_bl st s = true -> ok_bl st' s = true.
Proof.
  induction s as [|c t IH]; intros st st' Hst H; [reflexivity|].
  cbn [ok_bl] in *. destruct (Ascii.eqb c Re.nl).
  - destruct st as [|[|st]]; [| |discriminate].
    + now replace st' with 0 by lia.
    + destruct st' as [|[|st']]; [|assumption|lia].
      now apply (IH 2); [lia|].
  - destruct (PyStr.isspace c); [|assumption].
    revert H. apply IH. destruct st, st'; lia.
Qed.

Lemma blank_not_nl (c : ascii) :
  blank_cls c = true -> Ascii.eqb c Re.nl = false /\ PyStr.isspace c = true.
Proof.
  rewrite blank_cls_spec. intros H. apply orb_true_iff in H as [H|H];
    apply Ascii.eqb_eq in H; subst c; split; reflexivity.
Qed.

Lemma ok_bl_step (c : ascii) (t u : string) (st st' : nat) :
  st' <= st ->
  (forall a b, b <= a -> ok_bl a t = true -> ok_bl b u = true) ->
  ok_bl st (String c t) = true -> ok_bl st' (String c u) = true.
Proof.
  intros Hst Htu. cbn [ok_bl]. destruct (Ascii.eqb c Re.nl).
  - destruct st as [|[|st]]; [| |discriminate].
    + replace st' with 0 by lia. now apply Htu.
    + destruct st' as [|[|st']]; [|now apply Htu|lia].
      apply Htu. lia.
  - destruct (PyStr.isspace c); [|now apply Htu].
    apply Htu. destruct st, st'; lia.
Qed.

Lemma ok_bl_collapse (s : string) :
  forall b st st', st' <= st -> ok_bl st s = true ->
                   ok_bl st' (collapse b s) = true.
Proof.
  induction s as [|c t IH]; intros b st st' Hst H; [reflexivity|].
  cbn [collapse]. destruct (blank_cls c) eqn:E.
  - destruct (blank_not_nl c E) as [Hn Hs]. cbn [ok_bl] in H.
    rewrite Hn, Hs in H. destruct b.
    + revert H. apply IH. destruct st; lia.
    + cbn [ok_bl]. change (Ascii.eqb " " Re.nl) with false.
      change (PyStr.isspace " ") with true. cbv iota.
      revert H. apply IH. destruct st, st'; lia.
  - revert H. apply ok_bl_step; [assumption|]. intros a b'. apply IH.
Qed.

Lemma ok_bl_unindent (n : nat) :
  forall s st st', String.length s <= n -> st' <= st ->
                   ok_bl st s = true -> ok_bl st' (unindent s) = true.
Proof.
  induction n as [|n IH]; intros s st st' Hn Hst H.
  - destruct s; [reflexivity|simpl in Hn; lia].
  - destruct s as [|c t]; [reflexivity|]. simpl in Hn.
    cbn [unindent]. destruct (Ascii.eqb c Re.nl) eqn:Ec.
    + destruct t as [|c2 t'].
      * revert H. apply ok_bl_step; auto.
      * destruct (Ascii.eqb c2 " ") eqn:E2.
        -- apply Ascii.eqb_eq in E2. subst c2.
           apply (ok_bl_step c (String " " t') (unindent t') st st' Hst);
             [|assumption].
           intros a b Hab Ha. cbn [ok_bl] in Ha.
           change (Ascii.eqb " " Re.nl) with false in Ha.
           change (PyStr.isspace " ") with true in Ha. cbv iota in Ha.
           revert Ha. apply IH; [simpl in Hn; lia|destruct a; lia].
        -- revert H. apply ok_bl_step; [assumption|].
           intros a b. apply IH. lia.
    + revert H. apply ok_bl_step; [assumption|].
      intros a b. apply IH. lia.
Qed.

Lemma ok_bl_lstrip (s : string) :
  forall st, ok_bl st s = true -> ok_bl 0 (PyStr.lstrip s) = true.
Proof.
  induction s as [|c t IH]; intros st H; [reflexivity|].
  cbn [PyStr.lstrip]. destruct (PyStr.isspace c) eqn:Es.
  - cbn [ok_bl] in H. rewrite Es in H. destruct (Ascii.eqb c Re.nl).
    + destruct st as [|[|st]]; [| |discriminate]; now apply (IH _ H).
    + now apply (IH _ H).
  - apply (ok_bl_mono _ st); [lia|assumption].
Qed.

Lemma ok_bl_prefix (a b : string) :
  forall st, ok_bl st (a ++ b) = true -> ok_bl st a = true.
Proof.
  induction a as [|c a IH]; intros st H; [reflexivity|].
  cbn [append ok_bl] in *. destruct (Ascii.eqb c Re.nl).
  - destruct st as [|[|st]]; [| |discriminate]; now apply IH.
  - destruct (PyStr.isspace c); now apply IH.
Qed.

Lemma ok_bl_suffix (a b : string) :
  forall st, ok_bl st (a ++ b) = true -> exists st', ok_bl st' b = true.
Proof.
  induction a as [|c a IH]; intros st H; [now exists st|].
  cbn [append ok_bl] in H. destruct (Ascii.eqb c Re.nl).
  - destruct st as [|[|st]]; [| |discriminate]; now apply (IH _ H).
  - destruct (PyStr.isspace c); now apply (IH _ H).
Qed.

Lemma ok_bl_run (ws post : string) :
  forall st, PyStr.all_chars PyStr.isspace ws = true ->
             ok_bl st (ws ++ post) = true -> newlines ws <= 2 - st.
Proof.
  induction ws as [|c t IH]; intros st Hw H; [simpl; lia|].
  cbn [PyStr.all_chars] in Hw. apply andb_true_iff in Hw as [Hc Hw].
  cbn [append ok_bl newlines] in *. destruct (Ascii.eqb c Re.nl).
  - destruct st as [|[|st]]; [| |discriminate];
      specialize (IH _ Hw H); lia.
  - rewrite Hc in H. specialize (IH _ Hw H). destruct st; lia.
Qed.

Lemma clean_text_ok_bl (text : string) : ok_bl 0 (clean_text text) = true.
Proof.
  rewrite clean_text_direct. destruct (negb (PyStr.truthy text)); [reflexivity|].
  unfold PyStr.strip.
  destruct (rstrip_prefix
              (PyStr.lstrip
                 (unindent
                    (collapse false
                       (re_sub blank_lines_pattern (nl_str ++ nl_str) text)))))
    as [u E].
  apply (ok_bl_prefix _ u). rewrite <- E. apply (ok_bl_lstrip _ 0).
  apply (ok_bl_unindent _ _ 0 0 (Nat.le_refl _) (Nat.le_refl _)).
  apply (ok_bl_collapse _ false 0 0 (Nat.le_refl _)).
  apply (blank_lines_ok _ _ _ (Nat.le_refl _)). now left.
Qed.

(** X16.  In what [clean_text] returns no stretch of whitespace holds more
    than two newlines: there is never more than one blank line in a row. *)
Theorem X16_clean_text_blank_lines (text pre ws post : string) :
  clean_text text = (pre ++ ws ++ post)%string ->
  PyStr.all_chars PyStr.isspace ws = true ->
  newlines ws <= 2.
Proof.
  intros E Hw. pose proof (clean_text_ok_bl text) as H. rewrite E in H.
  apply ok_bl_suffix in H as [k H]. apply (ok_bl_run _ _ _ Hw) in H. lia.
Qed.

Lemma X16_clean_text_blank_lines_witness :
  newlines (String Re.nl (String Re.nl "")) <= 2.
Proof.
  apply (X16_clean_text_blank_lines
           (String "a" (String Re.nl (String " " (String Re.nl
              (String Re.nl (String Re.nl (String "b" "")))))))
           "a" (String Re.nl (String Re.nl "")) "b"); reflexivity.
Defined.

(** *** Cleaning twice *)

Lemma ok_bl_closed (s : string) :
  forall st, ok_bl (S (S st)) s = true -> nonl_prefix s = true.
Proof.
  induction s as [|c t IH]; intros st H; [reflexivity|].
  cbn [ok_bl nonl_prefix] in *. destruct (Ascii.eqb c Re.nl); [discriminate|].
  destruct (PyStr.isspace c); [|reflexivity]. apply (IH _ H).
Qed.

Lemma blank_lines_fixed (n : nat) :
  forall s st,
    String.length s <= n -> ok_bl st s = true ->
    sub_from blank_lines_pattern (nl_str ++ nl_str) 0 s = s.
Proof.
  induction n as [|n IH]; intros s st Hn H.
  - destruct s; [reflexivity|simpl in Hn; lia].
  - destruct s as [|c t]; [reflexivity|]. simpl in Hn.
    cbn [sub_from]. rewrite match_here_blank_lines.
    destruct (Ascii.eqb c Re.nl) eqn:Ec.
    + apply Ascii.eqb_eq in Ec. subst c. cbn [ok_bl] in H.
      change (Ascii.eqb Re.nl Re.nl) with true in H. cbv iota in H.
      assert (Hcase : (exists t', t = String Re.nl t' /\ ok_bl 2 t' = true)
                      \/ (nonl_prefix t = true /\ exists st', ok_bl st' t = true)).
      { destruct t as [|c2 t']; [right; split; [reflexivity|now exists 0]|].
        destruct (Ascii.eqb c2 Re.nl) eqn:E2.
        - apply Ascii.eqb_eq in E2. subst c2. left. exists t'.
          split; [reflexivity|].
          destruct st as [|[|st]]; [| |discriminate].
          + cbn [ok_bl] in H. now change (Ascii.eqb Re.nl Re.nl) with true in H.
          + cbn [ok_bl] in H. change (Ascii.eqb Re.nl Re.nl) with true in H.
            discriminate H.
        - right. split.
          + cbn [nonl_prefix]. rewrite E2.
            destruct (PyStr.isspace c2) eqn:Es; [|reflexivity].
            destruct st as [|[|st]]; [| |discriminate];
              cbn [ok_bl] in H; rewrite E2, Es in H;
              now rewrite (ok_bl_closed _ _ H).
          + destruct st as [|[|st]]; [| |discriminate]; eauto. }
      destruct Hcase as [(t' & -> & Ht')|(Hp & st' & Ht)].
      * rewrite (blank_lines_tail_nl _ (ok_bl_closed _ _ Ht')).
        cbn [String.length].
        replace (S (S (String.length t')) - String.length t') with 2 by lia.
        cbn [sub_from].
        change (nl_str ++ nl_str)%string with (String Re.nl (String Re.nl "")).
        cbn [append]. do 2 f_equal. apply (IH _ 2); [simpl in Hn; lia|assumption].
      * rewrite (blank_lines_tail_none _ Hp). f_equal.
        apply (IH _ st'); [lia|assumption].
    + f_equal. cbn [ok_bl] in H. rewrite Ec in H.
      destruct (PyStr.isspace c); eapply IH; try eassumption; lia.
Qed.

Lemma ok3_ok2 (s : string) :
  forall ps pn, ok3 ps pn s = true -> ok2 ps s = true.
Proof.
  induction s as [|c t IH]; intros ps pn H; [reflexivity|].
  cbn [ok3 ok2] in *. apply andb_true_iff in H as [H Ht].
  apply andb_true_iff in H as [H1 H2]. rewrite H1, (IH _ _ Ht).
  destruct (Ascii.eqb c " "), ps; simpl in *; congruence.
Qed.

Lemma collapse_fixed (s : string) :
  forall ps, ok2 ps s = true -> collapse ps s = s.
Proof.
  induction s as [|c t IH]; intros ps H; [reflexivity|].
  cbn [ok2 collapse] in *. apply andb_true_iff in H as [H Ht].
  apply andb_true_iff in H as [H1 H2]. rewrite blank_cls_spec.
  apply negb_true_iff in H1. rewrite H1, orb_false_r.
  destruct (Ascii.eqb_spec c " ") as [->|].
  - change (Ascii.eqb " " " ") with true in *.
    destruct ps; [simpl in H2; discriminate H2|]. now rewrite (IH _ Ht).
  - now rewrite (IH _ Ht).
Qed.

Lemma unindent_fixed (s : string) :
  forall ps pn, ok3 ps pn s = true -> unindent s = s.
Proof.
  induction s as [|c t IH]; intros ps pn H; [reflexivity|].
  cbn [ok3] in H. apply andb_true_iff in H as [_ Ht].
  cbn [unindent]. rewrite (IH _ _ Ht).
  destruct (Ascii.eqb c Re.nl) eqn:Ec; [|reflexivity].
  destruct t as [|c2 t']; [reflexivity|].
  destruct (Ascii.eqb c2 " ") eqn:E2; [|reflexivity].
  cbn [ok3] in Ht. rewrite E2, orb_true_r in Ht. cbn [andb negb] in Ht.
  rewrite andb_false_r in Ht. discriminate Ht.
Qed.

Lemma clean_text_ok3 (text : string) : ok3 false false (clean_text text) = true.
Proof.
  rewrite clean_text_direct.
  destruct (negb (PyStr.truthy text)); [reflexivity|].
  apply (ok3_strip _ false false).
  apply (unindent_ok3 _ _ (Nat.le_refl _)).
  apply collapse_ok2.
Qed.

(** X17.  Cleaning a cleaned text changes nothing. *)
Theorem X17_clean_text_idempotent (text : string) :
  clean_text (clean_text text) = clean_text text.
Proof.
  pose proof (clean_text_ok3 text) as H3.
  pose proof (clean_text_ok_bl text) as Hb.
  assert (Hs : PyStr.strip (clean_text text) = clean_text text).
  { rewrite clean_text_direct.
    destruct (negb (PyStr.truthy text)); [reflexivity|apply strip_idem]. }
  rewrite (clean_text_direct (clean_text text)).
  destruct (negb (PyStr.truthy (clean_text text))) eqn:E.
  - destruct (clean_text text); [reflexivity|discriminate E].
  - unfold re_sub.
    rewrite (blank_lines_fixed _ _ 0 (Nat.le_refl _) Hb).
    rewrite (collapse_fixed _ _ (ok3_ok2 _ _ _ H3)).
    rewrite (unindent_fixed _ _ _ H3). exact Hs.
Qed.
